(** * go-netspeed: the measurement arithmetic, the download streamer, the
      echo channel and the result store, embedded in Rocq.

    The server is [main.go].  The browser client is the script
    [speedtest.js], in its later version: the one whose [finalizeTest]
    submits the record to [/save-result] and whose exchange session sends
    250 packets 40 ms apart.  [calculateJitterLoss] and [runLatencyTest]
    are the same in both versions.

    Numbers of the client (JavaScript [Number]) and the five measurement
    fields of the server's [TestResult] (Go [float64]) are IEEE 754 binary64
    values; they are modelled with the executable specification of binary
    floating point that ships with Rocq ([SpecFloat]), instantiated at
    precision 53 and maximal exponent 1024.

    Layout: the numbers, the server, the client, the analyzer in the words
    of the specification, and then the properties. *)

From Stdlib Require Import ZArith Lia Bool List String Ascii.
From Stdlib Require Import Floats.SpecFloat.
From stdpp Require Import base option list strings pretty gmap.
From Equations Require Import Equations.

Local Open Scope Z_scope.

(* ===================================================================== *)
(** * binary64 numbers *)
(* ===================================================================== *)

Module F64.

Definition prec : Z := 53.
Definition emax : Z := 1024.

(** A JavaScript [Number] / a Go [float64]. *)
Definition number : Type := spec_float.

Definition add : number -> number -> number := SFadd prec emax.
Definition sub : number -> number -> number := SFsub prec emax.
Definition mul : number -> number -> number := SFmul prec emax.
Definition div : number -> number -> number := SFdiv prec emax.
Definition abs : number -> number := SFabs.
Definition ltb : number -> number -> bool := SFltb.
Definition leb : number -> number -> bool := SFleb.
Definition eqb : number -> number -> bool := SFeqb.

(** The number denoted by an integer literal or an integer-valued
    expression such as [rtts.length]: the integer rounded to nearest
    even (exact below 2^53). *)
Definition of_Z (z : Z) : number := binary_normalize prec emax z 0 false.
Definition of_nat (n : nat) : number := of_Z (Z.of_nat n).

Definition zero : number := S754_zero false.
Definition NaN : number := S754_nan.

Definition is_finite (x : number) : bool :=
  match x with
  | S754_zero _ | S754_finite _ _ _ => true
  | S754_infinity _ | S754_nan => false
  end.

Definition is_nan (x : number) : bool :=
  match x with S754_nan => true | _ => false end.

(** JavaScript [ToBoolean] on a number: [+0], [-0] and [NaN] are falsy. *)
Definition truthy (x : number) : bool :=
  match x with
  | S754_zero _ | S754_nan => false
  | S754_infinity _ | S754_finite _ _ _ => true
  end.

(** [a || b] on numbers. *)
Definition or_else (a b : number) : number := if truthy a then a else b.

(** ** Normal forms, for the proofs about integers

    The number of binary digits of a positive integer, the canonical
    mantissa-exponent pair of an integer below 2^53, and a shift record
    that has lost no bit. *)
Definition dig (v : Z) : Z := Z.log2 v + 1.

Definition nf (v : Z) : number :=
  S754_finite false (Z.to_pos (v * 2 ^ (53 - dig v))) (dig v - 53).

Definition exact_rec (v : Z) : shr_record :=
  {| shr_m := v; shr_r := false; shr_s := false |}.

End F64.

Abbreviation number := F64.number.

(* ===================================================================== *)
(** * The server: main.go *)
(* ===================================================================== *)

Module Server.

(** ** Machine integers and command-line flags *)

(** Go's [int64]: arithmetic wraps around modulo 2^64. *)
Definition int64_min : Z := - 2 ^ 63.
Definition int64_max : Z := 2 ^ 63 - 1.
Definition wrap64 (z : Z) : Z := (z + 2 ^ 63) mod 2 ^ 64 - 2 ^ 63.
Definition in_int64 (z : Z) : Prop := int64_min <= z <= int64_max.

(** The flags the handlers read ([-maxsize], [-chunksize], [-verbose]). *)
Record Flags := {
  maxDownloadSize : Z;
  downloadChunkSize : Z;
  verbose : bool
}.

Definition default_flags : Flags :=
  {| maxDownloadSize := 100; downloadChunkSize := 1024 * 1024; verbose := false |}.

Definition globalMaxDownloadSizeMB : Z := 1024.

(** The validation step of [main]: the configured maximum is capped at the
    global maximum before the server starts. *)
Definition main_validate (f : Flags) : Flags :=
  if globalMaxDownloadSizeMB <? maxDownloadSize f
  then {| maxDownloadSize := globalMaxDownloadSizeMB;
          downloadChunkSize := downloadChunkSize f;
          verbose := verbose f |}
  else f.

(** ** strconv.ParseInt(s, 10, 64)

    The library function the download handler calls, on the byte string of
    the query parameter: an optional sign, then one or more decimal
    digits; the value must fit in 64 bits.  [None] stands for a non-nil
    error (syntax or range). *)

Definition digit_of (c : ascii) : option Z :=
  let n := Z.of_N (N_of_ascii c) in
  if (48 <=? n) && (n <=? 57) then Some (n - 48) else None.

Fixpoint parse_digits (s : string) (acc : Z) : option Z :=
  match s with
  | EmptyString => Some acc
  | String c rest =>
      match digit_of c with
      | Some d => parse_digits rest (acc * 10 + d)
      | None => None
      end
  end.

Definition ParseUint (s : string) : option Z :=
  match s with
  | EmptyString => None
  | _ => parse_digits s 0
  end.

Definition ParseInt (s : string) : option Z :=
  match s with
  | EmptyString => None
  | String c rest =>
      let neg := Ascii.eqb c "-" in
      let body := if Ascii.eqb c "+" || neg then rest else s in
      match ParseUint body with
      | None => None
      | Some un =>
          if neg
          then (if un <=? 2 ^ 63 then Some (- un) else None)
          else (if un <? 2 ^ 63 then Some un else None)
      end
  end.

(** ** Requests *)

Record Request := {
  Method : string;
  Path : string;
  Query : list (string * string);
  Body : list Z
}.

(** [r.URL.Query().Get(key)]: the first value of the key, or the empty
    string when the key is absent. *)
Fixpoint Query_Get (q : list (string * string)) (key : string) : string :=
  match q with
  | [] => EmptyString
  | (k, v) :: rest => if String.eqb k key then v else Query_Get rest key
  end.

(** ** downloadHandler, steps 1 and 2: the size of the stream *)

Definition MB : Z := 1024 * 1024.

(** [requestedSizeMB] after the default and the two caps. *)
Definition download_requestedSizeMB (f : Flags) (sizeParam : string) : Z :=
  let requestedSizeMB :=
    match ParseInt sizeParam with
    | Some n => if n <=? 0 then 10 else n
    | None => 10
    end in
  let requestedSizeMB :=
    if globalMaxDownloadSizeMB <? requestedSizeMB
    then globalMaxDownloadSizeMB else requestedSizeMB in
  if maxDownloadSize f <? requestedSizeMB
  then maxDownloadSize f else requestedSizeMB.

(** [totalSize], in bytes, after the minimum. *)
Definition download_totalSize (f : Flags) (sizeParam : string) : Z :=
  let totalSize := wrap64 (wrap64 (download_requestedSizeMB f sizeParam * 1024) * 1024) in
  if totalSize <? 1024 * 1024 then 1024 * 1024 else totalSize.


(** ** downloadHandler, steps 3 and 4: headers and the chunk loop *)

(** The response writer: the headers set so far, the byte slices passed
    to [Write] in call order, the number of flushes, and how many more
    writes the connection accepts before the client is gone ([None]: the
    client stays; every write succeeds). *)
Record ResponseWriter := {
  Header : list (string * string);
  Writes : list (list Z);
  Flushes : nat;
  is_Flusher : bool;
  Alive : option nat
}.

Definition Header_Set (w : ResponseWriter) (k v : string) : ResponseWriter :=
  {| Header := (k, v) :: filter (fun kv => negb (String.eqb (fst kv) k)) (Header w);
     Writes := Writes w; Flushes := Flushes w;
     is_Flusher := is_Flusher w; Alive := Alive w |}.

(** [w.Write(p)]: the writer after the call and whether it succeeded. *)
Definition Write (w : ResponseWriter) (p : list Z) : ResponseWriter * bool :=
  match Alive w with
  | Some O => (w, false)
  | Some (S n) =>
      ({| Header := Header w; Writes := Writes w ++ [p]; Flushes := Flushes w;
          is_Flusher := is_Flusher w; Alive := Some n |}, true)
  | None =>
      ({| Header := Header w; Writes := Writes w ++ [p]; Flushes := Flushes w;
          is_Flusher := is_Flusher w; Alive := None |}, true)
  end.

(** [if f, ok := w.(http.Flusher); ok { f.Flush() }] *)
Definition Flush (w : ResponseWriter) : ResponseWriter :=
  if is_Flusher w
  then {| Header := Header w; Writes := Writes w; Flushes := S (Flushes w);
          is_Flusher := true; Alive := Alive w |}
  else w.

(** [chunkSize]: the flag, or 1 MB when the flag is not positive. *)
Definition download_chunkSize (f : Flags) : Z :=
  if downloadChunkSize f <=? 0 then 1024 * 1024 else downloadChunkSize f.

(** [chunk := make([]byte, chunkSize); chunk[i] = byte(i % 256)] *)
Fixpoint fill_chunk (n : nat) (i : Z) : list Z :=
  match n with
  | O => []
  | S n' => i mod 256 :: fill_chunk n' (i + 1)
  end.

Definition make_chunk (chunkSize : Z) : list Z :=
  fill_chunk (Z.to_nat chunkSize) 0.

(** How the loop ended: the whole stream was sent, or a write failed and
    the handler logged the error and returned. *)
Inductive stream_end := Finished | WriteError.

(** [for sentBytes < totalSize { ... }].  The chunk size is positive when
    the loop is entered (the fallback above), so it is carried as a
    [positive]; the result is the writer, [sentBytes] and how the loop
    ended. *)
Equations? stream (chunk : list Z) (chunkSize : positive) (totalSize : Z)
    (w : ResponseWriter) (sentBytes : Z) : ResponseWriter * Z * stream_end
    by wf (Z.to_nat ((totalSize - sentBytes + Z.pos chunkSize - 1) / Z.pos chunkSize)) lt :=
  stream chunk chunkSize totalSize w sentBytes with Z_lt_dec sentBytes totalSize := {
    | right _ := (w, sentBytes, Finished)
    | left Hlt with Write w (firstn (Z.to_nat
          (if totalSize - sentBytes <? Z.pos chunkSize
           then totalSize - sentBytes else Z.pos chunkSize)) chunk) := {
        | (w', false) := (w', sentBytes, WriteError)
        | (w', true) :=
            stream chunk chunkSize totalSize (Flush w')
              (sentBytes +
                 (if totalSize - sentBytes <? Z.pos chunkSize
                  then totalSize - sentBytes else Z.pos chunkSize)) } }.
Proof.
  destruct (totalSize - sentBytes <? Z.pos chunkSize) eqn:E.
  - apply Z.ltb_lt in E.
    replace (totalSize - (sentBytes + (totalSize - sentBytes)) + Z.pos chunkSize - 1)
      with (Z.pos chunkSize - 1) by lia.
    rewrite Z.div_small by lia.
    assert (1 <= (totalSize - sentBytes + Z.pos chunkSize - 1) / Z.pos chunkSize).
    { apply Z.div_le_lower_bound; lia. }
    lia.
  - apply Z.ltb_ge in E.
    replace (totalSize - sentBytes + Z.pos chunkSize - 1)
      with ((totalSize - (sentBytes + Z.pos chunkSize) + Z.pos chunkSize - 1)
            + 1 * Z.pos chunkSize) by lia.
    rewrite Z.div_add by lia.
    assert (0 <= (totalSize - (sentBytes + Z.pos chunkSize) + Z.pos chunkSize - 1) / Z.pos chunkSize).
    { apply Z.div_pos; lia. }
    lia.
Qed.

(** [strconv.FormatInt(n, 10)] *)
Definition FormatInt (n : Z) : string := pretty n.

(** The handler: sizes, headers, stream.  The log line of a failed write
    and the verbose line at the end are the only log output. *)
Inductive log_line :=
| LogWriteError
| LogStreamFinished (sentBytes : Z).

Definition downloadHandler (f : Flags) (r : Request) (w : ResponseWriter)
    : ResponseWriter * list log_line :=
  let sizeParam := Query_Get (Query r) "size" in
  let totalSize := download_totalSize f sizeParam in
  let w := Header_Set w "Content-Type" "application/octet-stream" in
  let w := Header_Set w "Content-Length" (FormatInt totalSize) in
  let chunkSize := download_chunkSize f in
  let chunk := make_chunk chunkSize in
  match stream chunk (Z.to_pos chunkSize) totalSize w 0 with
  | (w', sentBytes, Finished) =>
      (w', if verbose f then [LogStreamFinished sentBytes] else [])
  | (w', _, WriteError) => (w', [LogWriteError])
  end.


(** ** The echo channel of webrtcOfferHandler *)

Record DataChannelMessage := {
  IsString : bool;
  Data : list Z
}.

(** The server's end of the data channel: whether it is open, and the
    payloads handed to the transport, oldest first. *)
Record DataChannel := {
  Label : string;
  ReadyOpen : bool;
  Sent : list (list Z)
}.

(** [dc.Send(data)]: an error unless the channel is open. *)
Definition Send (dc : DataChannel) (data : list Z) : DataChannel * bool :=
  if ReadyOpen dc
  then ({| Label := Label dc; ReadyOpen := true; Sent := Sent dc ++ [data] |}, true)
  else (dc, false).

Inductive echo_log := LogEchoError.

(** The [dc.OnMessage] callback. *)
Definition OnMessage (dc : DataChannel) (msg : DataChannelMessage)
    : DataChannel * list echo_log :=
  match Send dc (Data msg) with
  | (dc', true) => (dc', [])
  | (dc', false) => (dc', [LogEchoError])
  end.

(** ** The result store *)

(** [time.Time], as an instant. *)
Definition Time : Type := Z.

Record TestResult := {
  Timestamp : Time;
  DownloadSpeedMbps : number;
  UploadSpeedMbps : number;
  LatencyMs : number;
  JitterMs : number;
  PacketLossPercent : number
}.

(** [TestResult{}] *)
Definition zero_TestResult : TestResult :=
  {| Timestamp := 0; DownloadSpeedMbps := F64.zero; UploadSpeedMbps := F64.zero;
     LatencyMs := F64.zero; JitterMs := F64.zero; PacketLossPercent := F64.zero |}.

(** The five measurement fields of a record. *)
Definition measurements (r : TestResult) : list number :=
  [DownloadSpeedMbps r; UploadSpeedMbps r; LatencyMs r; JitterMs r; PacketLossPercent r].

(** [result.Timestamp = t] *)
Definition with_Timestamp (t : Time) (r : TestResult) : TestResult :=
  {| Timestamp := t;
     DownloadSpeedMbps := DownloadSpeedMbps r; UploadSpeedMbps := UploadSpeedMbps r;
     LatencyMs := LatencyMs r; JitterMs := JitterMs r;
     PacketLossPercent := PacketLossPercent r |}.

Inductive error :=
| ErrKeyNotFound
| ErrDBClosed
| ErrJSON
| ErrResultNotFound (id : string).

(** The Badger database: a key-value map from keys to values (bytes), and
    whether [Close] has been called.  A transaction on a closed database
    fails. *)
Record BadgerStore := {
  db : gmap string (list Z);
  db_closed : bool
}.

Definition NewBadgerStore : BadgerStore := {| db := ∅; db_closed := false |}.

(** [s.db.Update(func(txn) { return txn.Set(key, val) })] *)
Definition db_Update_Set (s : BadgerStore) (key : string) (val : list Z)
    : BadgerStore * option error :=
  if db_closed s then (s, Some ErrDBClosed)
  else ({| db := <[key := val]> (db s); db_closed := false |}, None).

(** [txn.Get(key)] inside [s.db.View]. *)
Definition db_View_Get (s : BadgerStore) (key : string) : list Z + error :=
  if db_closed s then inr ErrDBClosed
  else match db s !! key with
       | Some val => inl val
       | None => inr ErrKeyNotFound
       end.

Definition Close (s : BadgerStore) : BadgerStore :=
  {| db := db s; db_closed := true |}.

Section Store.

(** [encoding/json] on [TestResult]: [json.Marshal(v)] gives the bytes
    or an error; [json.Unmarshal(data, &v)] and
    [json.NewDecoder(body).Decode(&v)] update the destination [v] and
    may fail. *)
Variable Marshal : TestResult -> list Z + error.
Variable Unmarshal : list Z -> TestResult -> TestResult * option error.
Variable Decode : list Z -> TestResult -> TestResult * option error.

(** [Save]: the identifier is [uuid.New().String()] and the time is
    [time.Now()], both read from the environment. *)
Definition Save (s : BadgerStore) (id : string) (now : Time) (result : TestResult)
    : BadgerStore * (string * option error) :=
  let result := with_Timestamp now result in
  match Marshal result with
  | inr err => (s, (EmptyString, Some err))
  | inl data =>
      let '(s', err) := db_Update_Set s id data in
      (s', (id, err))
  end.

Definition Load (s : BadgerStore) (id : string) : TestResult * option error :=
  match db_View_Get s id with
  | inr ErrKeyNotFound => (zero_TestResult, Some (ErrResultNotFound id))
  | inr err => (zero_TestResult, Some err)
  | inl val => Unmarshal val zero_TestResult
  end.

(** The HTTP side of the store. *)
Inductive response :=
| MethodNotAllowed
| BadRequest
| InternalServerError
| NotFound
| OkSaved (id : string)
| OkResult (r : TestResult).

Definition saveResultHandler (s : BadgerStore) (id : string) (now : Time)
    (r : Request) : BadgerStore * response :=
  if negb (String.eqb (Method r) "POST") then (s, MethodNotAllowed)
  else
    match Decode (Body r) zero_TestResult with
    | (_, Some _) => (s, BadRequest)
    | (result, None) =>
        match Save s id now result with
        | (s', (_, Some _)) => (s', InternalServerError)
        | (s', (id, None)) => (s', OkSaved id)
        end
    end.

(** [strings.TrimPrefix(s, prefix)]: [s] without the leading [prefix],
    or [s] itself when it does not start with [prefix]. *)
Fixpoint strip_prefix (s pre : string) {struct pre} : option string :=
  match pre, s with
  | EmptyString, _ => Some s
  | String c pre', String d s' =>
      if Ascii.eqb c d then strip_prefix s' pre' else None
  | String _ _, EmptyString => None
  end.

Definition TrimPrefix (s pre : string) : string :=
  default s (strip_prefix s pre).

Definition loadResultHandler (s : BadgerStore) (r : Request) : response :=
  if negb (String.eqb (Method r) "GET") then MethodNotAllowed
  else
    let id := TrimPrefix (Path r) "/results/" in
    if String.eqb id "" then BadRequest
    else
      match Load s id with
      | (_, Some (ErrResultNotFound _)) => NotFound
      | (_, Some _) => InternalServerError
      | (result, None) => OkResult result
      end.

End Store.

(** ** Notions used by the properties of the server *)

(** The default flags with another [-maxsize]. *)
Definition flags_of_max (m : Z) : Flags :=
  {| maxDownloadSize := m; downloadChunkSize := 1024 * 1024; verbose := false |}.

(** A request for 10 MB, and a writer whose client stays connected. *)
Definition request_size10 : Request :=
  {| Method := "GET"; Path := "/download"; Query := [("size", "10")]; Body := [] |}.

Definition idle_writer : ResponseWriter :=
  {| Header := []; Writes := []; Flushes := 0; is_Flusher := true; Alive := None |}.

(** Total number of bytes of a sequence of writes. *)
Definition total_bytes (ws : list (list Z)) : Z :=
  fold_right (fun p acc => Z.of_nat (length p) + acc) 0 ws.

(** [ceil(t / c)], for positive [c]. *)
Definition ceil_div (t c : Z) : Z := (t + c - 1) / c.

(** An open channel, and the channel after a sequence of messages has been
    handled, one callback per message. *)
Definition open_channel : DataChannel :=
  {| Label := "jitter-test"; ReadyOpen := true; Sent := [] |}.

Definition echo_all (msgs : list DataChannelMessage) (dc : DataChannel) : DataChannel :=
  fold_left (fun dc msg => fst (OnMessage dc msg)) msgs dc.

(** The contract of [encoding/json] the store relies on: what [Marshal]
    produced, [Unmarshal] reads back without error and with the same five
    measurement fields. *)
Definition json_round_trip (Marshal : TestResult -> list Z + error)
    (Unmarshal : list Z -> TestResult -> TestResult * option error) : Prop :=
  forall r data, Marshal r = inl data ->
    exists r', Unmarshal data zero_TestResult = (r', None)
               /\ measurements r' = measurements r.

(** Further records saved one after the other, each with its identifier
    and its time. *)
Definition save_all (Marshal : TestResult -> list Z + error)
    (later : list (string * Time * TestResult)) (s : BadgerStore) : BadgerStore :=
  fold_left (fun s x => fst (Save Marshal s (fst (fst x)) (snd (fst x)) (snd x))) later s.

(** A codec that meets the contract: the timestamp, then four integers per
    number (class, sign, mantissa, exponent).  Like [encoding/json] it
    refuses a record that holds a NaN or an infinity. *)
Module Wire.

Definition tag (x : number) : Z :=
  match x with
  | S754_zero _ => 0
  | S754_infinity _ => 1
  | S754_nan => 2
  | S754_finite _ _ _ => 3
  end.

Definition sgn (x : number) : Z :=
  match x with
  | S754_zero s | S754_infinity s | S754_finite s _ _ => Z.b2z s
  | S754_nan => 0
  end.

Definition man (x : number) : Z :=
  match x with S754_finite _ m _ => Z.pos m | _ => 0 end.

Definition exn (x : number) : Z :=
  match x with S754_finite _ _ e => e | _ => 0 end.

Definition dec_number (t s m e : Z) : option number :=
  if t =? 0 then Some (S754_zero (0 <? s))
  else if t =? 1 then Some (S754_infinity (0 <? s))
  else if t =? 2 then Some S754_nan
  else match m with
       | Z.pos p => Some (S754_finite (0 <? s) p e)
       | _ => None
       end.

Definition Marshal (r : TestResult) : list Z + error :=
  if forallb F64.is_finite (measurements r)
  then inl (Timestamp r
            :: concat (map (fun x => [tag x; sgn x; man x; exn x]) (measurements r)))
  else inr ErrJSON.

Definition Unmarshal (data : list Z) (dst : TestResult) : TestResult * option error :=
  match data with
  | [ts; t1; s1; m1; e1; t2; s2; m2; e2; t3; s3; m3; e3; t4; s4; m4; e4;
     t5; s5; m5; e5] =>
      match dec_number t1 s1 m1 e1, dec_number t2 s2 m2 e2, dec_number t3 s3 m3 e3,
            dec_number t4 s4 m4 e4, dec_number t5 s5 m5 e5 with
      | Some d, Some u, Some l, Some j, Some p =>
          ({| Timestamp := ts; DownloadSpeedMbps := d; UploadSpeedMbps := u;
              LatencyMs := l; JitterMs := j; PacketLossPercent := p |}, None)
      | _, _, _, _, _ => (dst, Some ErrJSON)
      end
  | _ => (dst, Some ErrJSON)
  end.

End Wire.

(** A record as a client submits it, and the two requests of a round
    trip through the HTTP side of the store. *)
Definition sample_result : TestResult :=
  {| Timestamp := 7;
     DownloadSpeedMbps := F64.of_Z 94; UploadSpeedMbps := F64.of_Z 41;
     LatencyMs := F64.of_Z 12; JitterMs := F64.of_Z 3;
     PacketLossPercent := F64.zero |}.

Definition post_of (body : list Z) : Request :=
  {| Method := "POST"; Path := "/save-result"; Query := []; Body := body |}.

Definition get_result (id : string) : Request :=
  {| Method := "GET"; Path := "/results/" ++ id; Query := []; Body := [] |}.

(** [w.Header().Get(key)] *)
Definition Header_Get (w : ResponseWriter) (key : string) : string :=
  Query_Get (Header w) key.

(** Whether the connection lasts for [n] more writes. *)
Definition lasts (w : ResponseWriter) (n : Z) : bool :=
  match Alive w with
  | None => true
  | Some k => n <=? Z.of_nat k
  end.

(** ** Static files: serveHybridFile and the root route *)

(** [filepath.Ext(path)]: the suffix of [path] that starts at the last dot
    of its last element, or the empty string when that element has no
    dot.  The library scans from the end and stops at the first dot or
    separator; [ext_scan] gives the outcome of that scan when it stops
    inside its argument. *)
Fixpoint ext_scan (path : string) : option string :=
  match path with
  | EmptyString => None
  | String c rest =>
      match ext_scan rest with
      | Some ext => Some ext
      | None =>
          if Ascii.eqb c "." then Some (String c rest)
          else if Ascii.eqb c "/" then Some EmptyString
          else None
      end
  end.

Definition Ext (path : string) : string := default EmptyString (ext_scan path).

(** The [switch] on the extension. *)
Definition contentType_of (fileName : string) : string :=
  if String.eqb (Ext fileName) ".html" then "text/html; charset=utf-8"
  else if String.eqb (Ext fileName) ".css" then "text/css; charset=utf-8"
  else if String.eqb (Ext fileName) ".js" then "application/javascript"
  else "text/plain".

Definition localOverrideDir : string := "static".

(** How [fs.ReadFile] on the embedded files can fail. *)
Inductive read_error := ErrNotExist | ErrRead.

(** What the handler does with the response: it hands over to
    [http.ServeFile], answers 404 or 500, or sets the content type and
    writes the content. *)
Inductive file_reply :=
| ServeFile (localPath : string)
| FileNotFound
| FileError
| FileContent (contentType : string) (content : list Z).

Section Files.

(** The file systems and [path/filepath]: [Join] is [filepath.Join],
    [Stat p] tells whether [os.Stat(p)] succeeds, [ReadFile] is
    [fs.ReadFile] on the embedded files. *)
Variable Join : string -> string -> string.
Variable Stat : string -> bool.
Variable ReadFile : string -> list Z + read_error.

Definition serveHybridFile (path : string) : file_reply :=
  let fileName := TrimPrefix path "/" in
  let localPath := Join localOverrideDir fileName in
  if Stat localPath then ServeFile localPath
  else
    let embedPath := (localOverrideDir ++ "/" ++ fileName)%string in
    match ReadFile embedPath with
    | inr ErrNotExist => FileNotFound
    | inr ErrRead => FileError
    | inl content => FileContent (contentType_of fileName) content
    end.

(** The route ["/"] of [main]. *)
Definition root_route (urlPath : string) : file_reply :=
  let path := if String.eqb urlPath "/" then "/index.html"%string else urlPath in
  serveHybridFile path.

End Files.

(** A server whose only embedded file is [static/app.js] and that has no
    local override. *)
Definition one_file (p : string) : list Z + read_error :=
  if String.eqb p "static/app.js" then inl [47; 47] else inr ErrNotExist.

Definition plain_Join (dir name : string) : string := (dir ++ "/" ++ name)%string.

End Server.

(* ===================================================================== *)
(** * The client: static/speedtest.js *)
(* ===================================================================== *)

Module Client.

Import F64.

Definition MAX_SIZE_MB : Z := 100.
Definition NUM_PACKETS : Z := 250.
Definition PACKET_INTERVAL : Z := 40.
Definition MAX_WAIT_BUFFER : Z := 1000.
Definition MAX_HISTORY_ITEMS : nat := 5.

(** ** Text of the result elements

    The script writes two kinds of text into a result element: the
    literal ['N/A'], and [x.toFixed(2)] followed by a unit.  The units
    are [' ms'], [' Mbps'], ['%'] and (in the failure branch of
    [finalizeTest]) the string ['text-gray-500']; none of them begins
    with a character that could continue a numeric literal. *)

Inductive unit_text := U_none | U_ms | U_Mbps | U_percent | U_gray.

Inductive value_text :=
| NA
| Fixed2 (x : number).

Record text := Text { text_value : value_text; text_unit : unit_text }.

(** [x >= 1e21] for [x = m * 2^e]. *)
Definition ge_1e21 (m : positive) (e : Z) : bool :=
  if 0 <=? e then 10 ^ 21 <=? Z.pos m * 2 ^ e
  else 10 ^ 21 * 2 ^ (- e) <=? Z.pos m.

(** The integer [n] for which [n / 100] is closest to [m * 2^e], the
    larger one on a tie (the digits [toFixed(2)] prints). *)
Definition round_hundredths (m : positive) (e : Z) : Z :=
  if 0 <=? e then Z.pos m * 2 ^ e * 100
  else (200 * Z.pos m + 2 ^ (- e)) / 2 ^ (1 - e).

(** [parseFloat(x.toFixed(2) + unit)]: ["NaN"] and ["Infinity"] read back
    as themselves; from 1e21 on [toFixed] prints the number in full;
    below, two decimals are printed and the nearest number is read back
    (["-0.00"] reads as [-0]). *)
Definition parseFloat_toFixed2 (x : number) : number :=
  match x with
  | S754_nan => NaN
  | S754_infinity _ => x
  | S754_zero _ => zero
  | S754_finite s m e =>
      if ge_1e21 m e then x
      else match round_hundredths m e with
           | Z.pos n => SFdiv prec emax (S754_finite s n 0) (S754_finite false 100 0)
           | _ => S754_zero s
           end
  end.

Definition parseFloat (t : text) : number :=
  match text_value t with
  | NA => NaN
  | Fixed2 x => parseFloat_toFixed2 x
  end.

(** ** State of the page and of its surroundings *)

(** The object built by [finalizeTest] and posted to [/save-result]. *)
Record FinalResults := {
  downloadSpeedMbps : number;
  uploadSpeedMbps : number;
  latencyMs : number;
  jitterMs : number;
  packetLossPercent : number
}.

(** The [fetch] calls issued, in order. *)
Inductive request :=
| GET_latency (nonce : number)
| GET_download (sizeMB : Z)
| POST_upload (sizeBytes : Z)
| POST_webrtc_offer
| POST_save_result (body : FinalResults).

(** Content of the [share-url] element. *)
Inductive share_box := ShareEmpty | ShareLink (id : string) | ShareFailed.

(** An entry of the history kept in [localStorage]. *)
Inductive hist_field := H_NA | H_Fixed2 (x : number) (unit : string).

Record HistoryItem := {
  h_timestamp : string;
  h_latency : hist_field;
  h_download : hist_field;
  h_upload : hist_field;
  h_jitter : hist_field;
  h_packetLoss : hist_field
}.

(** The variables of one [runWebRTCTest] call and the state of its
    channel. *)
Record Session := {
  packetCounter : Z;
  receivedCounter : Z;
  receivedTimestamps : list number;
  startTestTime : number;
  interval_active : bool;
  timeouts_armed : nat;
  dc_sent : list (Z * number);
  dc_close_called : bool;
  pc_closed : bool
}.

Definition new_session : Session :=
  {| packetCounter := 0; receivedCounter := 0; receivedTimestamps := [];
     startTestTime := zero; interval_active := false; timeouts_armed := 0;
     dc_sent := []; dc_close_called := false; pc_closed := false |}.

Record State := {
  startBtn_disabled : bool;
  results : gmap string number;
  elements : gmap string text;
  status : gmap string string;
  share_url : share_box;
  download_size : option Z;
  upload_size : option Z;
  requests : list request;
  pending_saves : list FinalResults;
  history : list HistoryItem;
  session : Session
}.

Definition set_disabled (b : bool) (s : State) : State :=
  {| startBtn_disabled := b; results := results s; elements := elements s;
     status := status s; share_url := share_url s;
     download_size := download_size s; upload_size := upload_size s;
     requests := requests s; pending_saves := pending_saves s;
     history := history s; session := session s |}.

Definition set_results (r : gmap string number) (s : State) : State :=
  {| startBtn_disabled := startBtn_disabled s; results := r; elements := elements s;
     status := status s; share_url := share_url s;
     download_size := download_size s; upload_size := upload_size s;
     requests := requests s; pending_saves := pending_saves s;
     history := history s; session := session s |}.

Definition set_elements (e : gmap string text) (s : State) : State :=
  {| startBtn_disabled := startBtn_disabled s; results := results s; elements := e;
     status := status s; share_url := share_url s;
     download_size := download_size s; upload_size := upload_size s;
     requests := requests s; pending_saves := pending_saves s;
     history := history s; session := session s |}.

Definition set_status (st : gmap string string) (s : State) : State :=
  {| startBtn_disabled := startBtn_disabled s; results := results s;
     elements := elements s; status := st; share_url := share_url s;
     download_size := download_size s; upload_size := upload_size s;
     requests := requests s; pending_saves := pending_saves s;
     history := history s; session := session s |}.

Definition set_share_url (b : share_box) (s : State) : State :=
  {| startBtn_disabled := startBtn_disabled s; results := results s;
     elements := elements s; status := status s; share_url := b;
     download_size := download_size s; upload_size := upload_size s;
     requests := requests s; pending_saves := pending_saves s;
     history := history s; session := session s |}.

Definition set_download_size (v : option Z) (s : State) : State :=
  {| startBtn_disabled := startBtn_disabled s; results := results s;
     elements := elements s; status := status s; share_url := share_url s;
     download_size := v; upload_size := upload_size s;
     requests := requests s; pending_saves := pending_saves s;
     history := history s; session := session s |}.

Definition set_upload_size (v : option Z) (s : State) : State :=
  {| startBtn_disabled := startBtn_disabled s; results := results s;
     elements := elements s; status := status s; share_url := share_url s;
     download_size := download_size s; upload_size := v;
     requests := requests s; pending_saves := pending_saves s;
     history := history s; session := session s |}.

Definition set_requests (r : list request) (s : State) : State :=
  {| startBtn_disabled := startBtn_disabled s; results := results s;
     elements := elements s; status := status s; share_url := share_url s;
     download_size := download_size s; upload_size := upload_size s;
     requests := r; pending_saves := pending_saves s;
     history := history s; session := session s |}.

Definition set_pending_saves (p : list FinalResults) (s : State) : State :=
  {| startBtn_disabled := startBtn_disabled s; results := results s;
     elements := elements s; status := status s; share_url := share_url s;
     download_size := download_size s; upload_size := upload_size s;
     requests := requests s; pending_saves := p;
     history := history s; session := session s |}.

Definition set_history (h : list HistoryItem) (s : State) : State :=
  {| startBtn_disabled := startBtn_disabled s; results := results s;
     elements := elements s; status := status s; share_url := share_url s;
     download_size := download_size s; upload_size := upload_size s;
     requests := requests s; pending_saves := pending_saves s;
     history := h; session := session s |}.

Definition set_session (x : Session) (s : State) : State :=
  {| startBtn_disabled := startBtn_disabled s; results := results s;
     elements := elements s; status := status s; share_url := share_url s;
     download_size := download_size s; upload_size := upload_size s;
     requests := requests s; pending_saves := pending_saves s;
     history := history s; session := x |}.

(** [fetch(...)]: the request leaves the page. *)
Definition fetch (r : request) (s : State) : State :=
  set_requests (requests s ++ [r]) s.

(** ** Utilities *)

(** [updateResult(id, value, unit)]: nothing happens when the page has no
    element of that id. *)
Definition updateResult (id : string) (value : value_text) (unit : unit_text)
    (s : State) : State :=
  match elements s !! id with
  | Some _ => set_elements (<[id := Text value unit]> (elements s)) s
  | None => s
  end.

(** [updateStatus(id, message)]; the page declares the four status
    elements. *)
Definition updateStatus (id : string) (message : string) (s : State) : State :=
  set_status (<[id := message]> (status s)) s.

(** [validateSize(input, max)] followed by [parseInt(input.value)]; the
    state holds [parseInt] of the input's value, [None] for [NaN]. *)
Definition validateSize (value : option Z) (max : Z) : option Z :=
  match value with
  | None => Some 1
  | Some v => if v <? 1 then Some 1 else if max <? v then Some max else Some v
  end.

Definition getDownloadSizeMB (s : State) : State * Z :=
  let v := validateSize (download_size s) MAX_SIZE_MB in
  (set_download_size v s, default 1 v).

Definition getUploadSizeMB (s : State) : State * Z :=
  let v := validateSize (upload_size s) MAX_SIZE_MB in
  (set_upload_size v s, default 1 v).


(** ** History management *)

(** [x ? x.toFixed(2) + unit : 'N/A'] *)
Definition hist_of (x : number) (unit : string) : hist_field :=
  if truthy x then H_Fixed2 x unit else H_NA.

(** [saveHistory(result)]; [clock] is [new Date().toLocaleString()]. *)
Definition saveHistory (clock : string) (result : FinalResults) (s : State) : State :=
  let historyItem :=
    {| h_timestamp := clock;
       h_latency := hist_of (latencyMs result) " ms";
       h_download := hist_of (downloadSpeedMbps result) " Mbps";
       h_upload := hist_of (uploadSpeedMbps result) " Mbps";
       h_jitter := hist_of (jitterMs result) " ms";
       h_packetLoss := hist_of (packetLossPercent result) " %" |} in
  let history := historyItem :: history s in
  let history :=
    if Nat.ltb MAX_HISTORY_ITEMS (length history)
    then take MAX_HISTORY_ITEMS history else history in
  set_history history s.

(** ** finalizeTest *)

(** [parseFloat(document.getElementById(id).innerText) || 0]; [None] when
    the page has no such element (reading [innerText] of [null] throws). *)
Definition read_result (s : State) (id : string) : option number :=
  t ← elements s !! id; Some (or_else (parseFloat t) zero).

Definition read_finalResults (s : State) : option FinalResults :=
  d ← read_result s "download-result";
  u ← read_result s "upload-result";
  l ← read_result s "latency-result";
  j ← read_result s "jitter-result";
  p ← read_result s "loss-result";
  Some {| downloadSpeedMbps := d; uploadSpeedMbps := u; latencyMs := l;
          jitterMs := j; packetLossPercent := p |}.

(** The synchronous part of [finalizeTest(success)]: up to and including
    the [fetch] of [/save-result].  The promise chain hanging off that
    [fetch] runs later, in [save_settled]; until then the object it
    closes over waits in [pending_saves]. *)
Definition finalizeTest (success : bool) (s : State) : State :=
  let s := set_share_url ShareEmpty s in
  if negb success then
    let s := updateResult "download" NA U_gray s in
    let s := updateResult "upload" NA U_gray s in
    let s := updateResult "latency" NA U_gray s in
    let s := updateResult "jitter" NA U_gray s in
    let s := updateResult "packet-loss" NA U_gray s in
    set_disabled false s
  else
    match read_finalResults s with
    | None => s
    | Some finalResults =>
        set_pending_saves (pending_saves s ++ [finalResults])
          (fetch (POST_save_result finalResults) s)
    end.

(** How the [fetch] of [/save-result] settles: the request fails, the
    status is not ok, the body is not JSON, or the body is an object
    whose [id] may be missing. *)
Inductive save_reply :=
| SaveRejected
| SaveNotOk
| SaveBadJSON
| SaveData (id : option string).

(** [results.k], as a condition. *)
Definition prop_truthy (s : State) (k : string) : bool :=
  match results s !! k with
  | Some x => truthy x
  | None => false
  end.

(** The [.then(...).then(...).catch(...).finally(...)] chain of
    [finalizeTest], for the [fetch] that was issued with [finalResults]. *)
Definition save_settled (reply : save_reply) (clock : string)
    (finalResults : FinalResults) (s : State) : State :=
  let s :=
    match reply with
    | SaveData (Some id) =>
        if String.eqb id "" then s else set_share_url (ShareLink id) s
    | SaveData None => s
    | SaveRejected | SaveNotOk | SaveBadJSON => set_share_url ShareFailed s
    end in
  if startBtn_disabled s then
    if prop_truthy s "latency" || prop_truthy s "download" || prop_truthy s "upload"
    then set_disabled false (saveHistory clock finalResults s)
    else s
  else s.

(** The [i]-th pending [fetch] of [/save-result] settles. *)
Definition on_save_settled (i : nat) (reply : save_reply) (clock : string)
    (s : State) : State :=
  match pending_saves s !! i with
  | None => s
  | Some finalResults =>
      save_settled reply clock finalResults
        (set_pending_saves (delete i (pending_saves s)) s)
  end.

(** ** runLatencyTest *)

(** One round trip: [performance.now()] before the [fetch], and either a
    rejected [fetch] or a response with its [ok] flag and
    [performance.now()] after it. *)
Inductive fetch_reply :=
| Rejected
| Replied (ok : bool) (t_end : number).

Record trip := { t_start : number; t_reply : fetch_reply }.

Definition numPings : nat := 10.

(** One iteration of the loop. *)
Definition ping (tr : trip) (acc : State * list number) : State * list number :=
  let '(s, latencies) := acc in
  let s := fetch (GET_latency (t_start tr)) s in
  match t_reply tr with
  | Replied true t_end => (s, latencies ++ [sub t_end (t_start tr)])
  | Replied false _ => (s, latencies)
  | Rejected => (s, latencies)
  end.

Definition runLatencyTest (trips : nat -> trip) (s : State) : State :=
  let s := updateStatus "latency-status" "Pinging..." s in
  let '(s, latencies) :=
    fold_left (fun acc i => ping (trips i) acc) (seq 0 numPings) (s, []) in
  if Nat.eqb (length latencies) 0
  then updateStatus "latency-status" "Failed to measure." s
  else
    let total := fold_left add latencies zero in
    let avgLatency := div total (of_nat (length latencies)) in
    let s := set_results (<["latency" := avgLatency]> (results s)) s in
    let s := updateResult "latency-result" (Fixed2 avgLatency) U_ms s in
    updateStatus "latency-status" "Complete" s.

(** ** runDownloadTest and runUploadTest *)

Inductive download_reply :=
| DlRejected
| DlNotOk
| DlReadError
| DlRead (downloadedBytes : Z) (t_end : number).

Definition runDownloadTest (start : number) (reply : download_reply)
    (s : State) : State :=
  let s := updateStatus "download-status" "Testing Download..." s in
  let '(s, requestedSizeMB) := getDownloadSizeMB s in
  let s := fetch (GET_download requestedSizeMB) s in
  match reply with
  | DlRead downloadedBytes t_end =>
      let durationSeconds := div (sub t_end start) (of_Z 1000) in
      let bytes := of_Z downloadedBytes in
      if downloadedBytes =? 0
      then updateStatus "download-status" "Failed: Zero bytes received." s
      else
        let speedMbps :=
          div (mul bytes (of_Z 8))
              (mul (mul durationSeconds (of_Z 1024)) (of_Z 1024)) in
        let s := set_results (<["download" := speedMbps]> (results s)) s in
        let s := updateResult "download-result" (Fixed2 speedMbps) U_Mbps s in
        updateStatus "download-status" "Complete" s
  | DlRejected | DlNotOk | DlReadError =>
      updateStatus "download-status" "Failed" s
  end.

Inductive upload_reply :=
| UlRejected
| UlNotOk
| UlDone (t_end : number).

Definition runUploadTest (start : number) (reply : upload_reply)
    (s : State) : State :=
  let s := updateStatus "upload-status" "Testing Upload..." s in
  let '(s, sizeMB) := getUploadSizeMB s in
  let sizeBytes := sizeMB * 1024 * 1024 in
  let s := fetch (POST_upload sizeBytes) s in
  match reply with
  | UlDone t_end =>
      let durationSeconds := div (sub t_end start) (of_Z 1000) in
      let bytes := of_Z sizeBytes in
      let speedMbps :=
        div (mul bytes (of_Z 8))
            (mul (mul durationSeconds (of_Z 1024)) (of_Z 1024)) in
      let s := set_results (<["upload" := speedMbps]> (results s)) s in
      let s := updateResult "upload-result" (Fixed2 speedMbps) U_Mbps s in
      updateStatus "upload-status" "Complete" s
  | UlRejected | UlNotOk => updateStatus "upload-status" "Failed" s
  end.

(** ** calculateJitterLoss *)

(** [((totalPacketsSent - receivedPackets) / totalPacketsSent) * 100] *)
Definition lossPercent (rtts : list number) (totalPacketsSent : number) : number :=
  let receivedPackets := of_nat (length rtts) in
  mul (div (sub totalPacketsSent receivedPackets) totalPacketsSent) (of_Z 100).

(** [n] iterations of the body of [for (let i = 1; i < rtts.length; i++)],
    from index [i], on the variables [sumOfDifferences] and
    [previousRTT]. *)
Fixpoint jitter_loop (n i : nat) (rtts : list number)
    (sumOfDifferences previousRTT : number) : number * number :=
  match n with
  | O => (sumOfDifferences, previousRTT)
  | S n' =>
      jitter_loop n' (S i) rtts
        (add sumOfDifferences (abs (sub (nth i rtts NaN) previousRTT)))
        (nth i rtts NaN)
  end.

Definition averageJitter (rtts : list number) : number :=
  let receivedPackets := length rtts in
  let previousRTT := if Nat.ltb 0 (length rtts) then nth 0 rtts NaN else zero in
  let sumOfDifferences :=
    fst (jitter_loop (length rtts - 1) 1 rtts zero previousRTT) in
  if Nat.ltb 1 receivedPackets
  then div sumOfDifferences (sub (of_nat receivedPackets) (of_Z 1))
  else zero.

Definition calculateJitterLoss (rtts : list number) (totalPacketsSent : number)
    (s : State) : State :=
  let lossPercent := lossPercent rtts totalPacketsSent in
  let averageJitter := averageJitter rtts in
  let s := set_results (<["packetLoss" := lossPercent]> (results s)) s in
  let s := set_results (<["jitter" := averageJitter]> (results s)) s in
  let s := updateResult "loss-result" (Fixed2 lossPercent) U_percent s in
  let s := updateResult "jitter-result" (Fixed2 averageJitter) U_ms s in
  let s := updateStatus "jitter-status" "Complete" s in
  finalizeTest true s.


(** ** runWebRTCTest: the handlers of the exchange session *)

Definition clearInterval (s : State) : State :=
  let x := session s in
  set_session
    {| packetCounter := packetCounter x; receivedCounter := receivedCounter x;
       receivedTimestamps := receivedTimestamps x; startTestTime := startTestTime x;
       interval_active := false; timeouts_armed := timeouts_armed x;
       dc_sent := dc_sent x; dc_close_called := dc_close_called x;
       pc_closed := pc_closed x |} s.

(** [dc.close()]; the channel's [close] event follows later. *)
Definition dc_close (s : State) : State :=
  let x := session s in
  set_session
    {| packetCounter := packetCounter x; receivedCounter := receivedCounter x;
       receivedTimestamps := receivedTimestamps x; startTestTime := startTestTime x;
       interval_active := interval_active x; timeouts_armed := timeouts_armed x;
       dc_sent := dc_sent x; dc_close_called := true;
       pc_closed := pc_closed x |} s.

Definition pc_close (s : State) : State :=
  let x := session s in
  set_session
    {| packetCounter := packetCounter x; receivedCounter := receivedCounter x;
       receivedTimestamps := receivedTimestamps x; startTestTime := startTestTime x;
       interval_active := interval_active x; timeouts_armed := timeouts_armed x;
       dc_sent := dc_sent x; dc_close_called := dc_close_called x;
       pc_closed := true |} s.

(** The synchronous part of [runWebRTCTest]. *)
Definition runWebRTCTest (s : State) : State :=
  let s := updateStatus "jitter-status" "Starting WebRTC connection..." s in
  set_session new_session s.

(** The offer is posted to the signaling endpoint. *)
Definition signaling_fetch (s : State) : State := fetch POST_webrtc_offer s.

(** The [.catch] of the signaling chain. *)
Definition signaling_catch (s : State) : State :=
  let s := updateStatus "jitter-status" "WebRTC setup failed." s in
  finalizeTest true s.

(** [dc.onopen]; [now] is [Date.now()]. *)
Definition dc_onopen (now : number) (s : State) : State :=
  let s := updateStatus "jitter-status" "Connection established. Sending packets..." s in
  let x := session s in
  set_session
    {| packetCounter := packetCounter x; receivedCounter := 0;
       receivedTimestamps := []; startTestTime := now;
       interval_active := true; timeouts_armed := timeouts_armed x;
       dc_sent := dc_sent x; dc_close_called := dc_close_called x;
       pc_closed := pc_closed x |} s.

(** The callback of the [setTimeout] armed by [sendPacket]. *)
Definition timeout_cb (s : State) : State :=
  let s := clearInterval s in
  let s := dc_close s in
  calculateJitterLoss (receivedTimestamps (session s))
    (of_Z (packetCounter (session s))) s.

(** [sendPacket], the callback of the interval; [now] is [Date.now()]. *)
Definition sendPacket (now : number) (s : State) : State :=
  let x := session s in
  if NUM_PACKETS <=? packetCounter x then
    let s := clearInterval s in
    let x := session s in
    set_session
      {| packetCounter := packetCounter x; receivedCounter := receivedCounter x;
         receivedTimestamps := receivedTimestamps x; startTestTime := startTestTime x;
         interval_active := interval_active x; timeouts_armed := S (timeouts_armed x);
         dc_sent := dc_sent x; dc_close_called := dc_close_called x;
         pc_closed := pc_closed x |} s
  else
    let s :=
      set_session
        {| packetCounter := packetCounter x + 1; receivedCounter := receivedCounter x;
           receivedTimestamps := receivedTimestamps x; startTestTime := startTestTime x;
           interval_active := interval_active x; timeouts_armed := timeouts_armed x;
           dc_sent := dc_sent x ++ [(packetCounter x, now)];
           dc_close_called := dc_close_called x; pc_closed := pc_closed x |} s in
    updateStatus "jitter-status"
      ("Connection established. Sending packets..." ++
         pretty (packetCounter (session s)) ++ "/" ++ pretty NUM_PACKETS) s.

(** [dc.onmessage]: [data] is [JSON.parse] of the echoed payload, reduced
    to its [sendTime] ([None] when parsing throws); [now1] and [now2] are
    the two readings of [Date.now()]. *)
Definition dc_onmessage (data : option number) (now1 now2 : number)
    (s : State) : State :=
  let x := session s in
  let s :=
    set_session
      {| packetCounter := packetCounter x; receivedCounter := receivedCounter x + 1;
         receivedTimestamps := receivedTimestamps x; startTestTime := startTestTime x;
         interval_active := interval_active x; timeouts_armed := timeouts_armed x;
         dc_sent := dc_sent x; dc_close_called := dc_close_called x;
         pc_closed := pc_closed x |} s in
  match data with
  | None => s
  | Some sendTime =>
      let rtt := sub now1 sendTime in
      let x := session s in
      let s :=
        set_session
          {| packetCounter := packetCounter x; receivedCounter := receivedCounter x;
             receivedTimestamps := receivedTimestamps x ++ [rtt];
             startTestTime := startTestTime x;
             interval_active := interval_active x; timeouts_armed := timeouts_armed x;
             dc_sent := dc_sent x; dc_close_called := dc_close_called x;
             pc_closed := pc_closed x |} s in
      let x := session s in
      if (NUM_PACKETS <=? receivedCounter x)
         || ((NUM_PACKETS <=? packetCounter x)
             && ltb (of_Z (NUM_PACKETS * PACKET_INTERVAL + MAX_WAIT_BUFFER))
                    (sub now2 (startTestTime x)))
      then
        let s := clearInterval s in
        let s := dc_close s in
        calculateJitterLoss (receivedTimestamps (session s))
          (of_Z (packetCounter (session s))) s
      else s
  end.

(** [dc.onclose] *)
Definition dc_onclose (s : State) : State :=
  let s := clearInterval s in
  let s := pc_close s in
  let s :=
    if packetCounter (session s) <? NUM_PACKETS
    then updateStatus "jitter-status" "WebRTC Disconnected before completion." s
    else s in
  finalizeTest true s.

(** [pc.oniceconnectionstatechange] *)
Definition pc_oniceconnectionstatechange (iceConnectionState : string)
    (s : State) : State :=
  if String.eqb iceConnectionState "failed"
     || String.eqb iceConnectionState "disconnected"
  then
    let s := clearInterval s in
    let s := updateStatus "jitter-status" "WebRTC Failed or Disconnected." s in
    finalizeTest true s
  else s.

(** ** runAllTests *)

Definition resultFields : list string :=
  ["latency-result"; "download-result"; "upload-result"; "loss-result";
   "jitter-result"].

Definition statusFields : list string :=
  ["latency-status"; "download-status"; "upload-status"; "jitter-status"].

(** What the network does during the three sequential sub-tests. *)
Record Network := {
  net_trips : nat -> trip;
  net_download_start : number;
  net_download : download_reply;
  net_upload_start : number;
  net_upload : upload_reply
}.

Definition runAllTests (net : Network) (s : State) : State :=
  let s := set_disabled true s in
  let s := fold_left (fun s id => updateResult id NA U_none s) resultFields s in
  let s := fold_left (fun s id => updateStatus id "Ready" s) statusFields s in
  let s := set_results ∅ s in
  let s := runLatencyTest (net_trips net) s in
  let s := runDownloadTest (net_download_start net) (net_download net) s in
  let s := runUploadTest (net_upload_start net) (net_upload net) s in
  runWebRTCTest s.

(** A freshly loaded page: the five result elements and the four status
    elements exist, nothing has been measured or requested. *)
Definition fresh_page : State :=
  {| startBtn_disabled := false;
     results := ∅;
     elements := list_to_map (map (fun id => (id, Text NA U_none)) resultFields);
     status := list_to_map (map (fun id => (id, "Ready"%string)) statusFields);
     share_url := ShareEmpty;
     download_size := Some 10;
     upload_size := Some 10;
     requests := [];
     pending_saves := [];
     history := [];
     session := new_session |}.

(** ** The events of a run after [runAllTests] has returned

    Everything that happens later happens in a callback: of the channel,
    of the interval or the timer, of the peer connection, or of a promise
    chain. *)
Inductive event :=
| EvSignaling
| EvSignalingFailed
| EvOpen (now : number)
| EvTick (now : number)
| EvTimeout
| EvMessage (data : option number) (now1 now2 : number)
| EvClose
| EvIceState (iceConnectionState : string)
| EvSaveSettled (i : nat) (reply : save_reply) (clock : string).

Definition handle (s : State) (e : event) : State :=
  match e with
  | EvSignaling => signaling_fetch s
  | EvSignalingFailed => signaling_catch s
  | EvOpen now => dc_onopen now s
  | EvTick now => sendPacket now s
  | EvTimeout => timeout_cb s
  | EvMessage data now1 now2 => dc_onmessage data now1 now2 s
  | EvClose => dc_onclose s
  | EvIceState st => pc_oniceconnectionstatechange st s
  | EvSaveSettled i reply clock => on_save_settled i reply clock s
  end.

(** ** Notions used by the properties of the client *)

(** The page has the five result elements. *)
Definition page_ready (s : State) : Prop :=
  forall id, In id resultFields -> is_Some (elements s !! id).

(** Transport errors of the two throughput sub-tests: the [fetch] is
    rejected, or reading the body fails. *)
Definition dl_transport_error (r : download_reply) : bool :=
  match r with
  | DlRejected | DlReadError => true
  | DlNotOk | DlRead _ _ => false
  end.

Definition ul_transport_error (r : upload_reply) : bool :=
  match r with
  | UlRejected => true
  | UlNotOk | UlDone _ => false
  end.

(** The bodies posted to [/save-result] among a list of requests. *)
Definition save_posts (reqs : list request) : list FinalResults :=
  flat_map (fun r => match r with POST_save_result b => [b] | _ => [] end) reqs.

(** [results.latency || results.download || results.upload] *)
Definition any_measured (s : State) : bool :=
  prop_truthy s "latency" || prop_truthy s "download" || prop_truthy s "upload".

(** The first steps of [runAllTests], by name: the reset of the result
    elements, and the state in which the first sub-test starts. *)
Definition reset_results (s : State) : State :=
  fold_left (fun s id => updateResult id NA U_none s) resultFields s.

Definition run_start (s : State) : State :=
  set_results ∅
    (fold_left (fun s id => updateStatus id "Ready" s) statusFields
       (reset_results (set_disabled true s))).

(** The facts about a run that finalization relies on and maintains: the
    result elements exist, the button is disabled, and the saves issued so
    far are [frs]. *)
Definition finalizing (s0 s : State) (frs : list FinalResults) : Prop :=
  page_ready s
  /\ startBtn_disabled s = true
  /\ history s = history s0
  /\ any_measured s = any_measured s0
  /\ pending_saves s = frs
  /\ save_posts (requests s) = frs.

(** A network on which every latency probe is refused while download and
    upload go through. *)
Definition all_rejected : nat -> trip :=
  fun _ => {| t_start := of_Z 5; t_reply := Rejected |}.

(** A network on which the first two probes take 20 ms and 30 ms and the
    other eight are refused. *)
Definition two_of_ten : nat -> trip :=
  fun i =>
    match i with
    | O => {| t_start := of_Z 1000; t_reply := Replied true (of_Z 1020) |}
    | S O => {| t_start := of_Z 1200; t_reply := Replied true (of_Z 1230) |}
    | _ => {| t_start := of_Z 2000; t_reply := Rejected |}
    end.

Definition net_no_latency : Network :=
  {| net_trips := all_rejected;
     net_download_start := of_Z 100; net_download := DlRead 1048576 (of_Z 350);
     net_upload_start := of_Z 400; net_upload := UlDone (of_Z 900) |}.

(** ** Notions used by the further properties of the client *)

(** The entry [saveHistory] builds from a record. *)
Definition historyItem_of (clock : string) (result : FinalResults) : HistoryItem :=
  {| h_timestamp := clock;
     h_latency := hist_of (latencyMs result) " ms";
     h_download := hist_of (downloadSpeedMbps result) " Mbps";
     h_upload := hist_of (uploadSpeedMbps result) " Mbps";
     h_jitter := hist_of (jitterMs result) " ms";
     h_packetLoss := hist_of (packetLossPercent result) " %" |}.

(** Several records saved to the history, one after the other. *)
Definition save_many (records : list (string * FinalResults)) (s : State) : State :=
  fold_left (fun s x => saveHistory (fst x) (snd x) s) records s.

(** A sub-test that measures nothing. *)
Definition dl_unmeasured (r : download_reply) : bool :=
  match r with
  | DlRead downloadedBytes _ => downloadedBytes =? 0
  | DlRejected | DlNotOk | DlReadError => true
  end.

Definition ul_unmeasured (r : upload_reply) : bool :=
  match r with
  | UlDone _ => false
  | UlRejected | UlNotOk => true
  end.

(** The button is disabled, nothing that re-enables it has been measured,
    and the history is [h]. *)
Definition stuck (h : list HistoryItem) (s : State) : Prop :=
  startBtn_disabled s = true /\ any_measured s = false /\ history s = h.

(** The packets sent so far carry the identifiers [0, 1, 2, ...] in this
    order, there are as many as the packet counter says and at most
    [NUM_PACKETS], and no more samples were kept than messages counted. *)
Definition session_ok (x : Session) : Prop :=
  map fst (dc_sent x) = map Z.of_nat (seq 0 (Z.to_nat (packetCounter x)))
  /\ 0 <= packetCounter x <= NUM_PACKETS
  /\ Z.of_nat (length (receivedTimestamps x)) <= receivedCounter x.

(** A number that is not negative: its sign bit is clear, or it is [NaN]. *)
Definition not_negative (x : number) : bool :=
  match x with
  | S754_zero s | S754_infinity s | S754_finite s _ _ => negb s
  | S754_nan => true
  end.

(** A network on which nothing gets through. *)
Definition net_all_failed : Network :=
  {| net_trips := all_rejected;
     net_download_start := of_Z 100; net_download := DlRejected;
     net_upload_start := of_Z 400; net_upload := UlNotOk |}.

(** The delay that [sendPacket] passes to [setTimeout] once all packets
    are sent; [now] is [Date.now()]. *)
Definition timeout_delay (now startTestTime : number) : number :=
  sub now
    (add (add startTestTime (mul (of_Z NUM_PACKETS) (of_Z PACKET_INTERVAL)))
       (of_Z MAX_WAIT_BUFFER)).

(** [-x] *)
Definition neg (x : number) : number := SFopp x.

End Client.

(* ===================================================================== *)
(** * The analyzer and the probe, in the words of the specification *)
(* ===================================================================== *)

Module Spec.

Import F64 Client.

(** Loss in percent for [D] packets dispatched and [R] received:
    [(D - R) / D * 100], the count of lost packets being an integer. *)
Definition loss (D R : nat) : number :=
  mul (div (of_nat (D - R)) (of_nat D)) (of_Z 100).

(** [|sample[i] - sample[i-1]|] *)
Definition abs_delta (samples : list number) (i : nat) : number :=
  abs (sub (nth i samples NaN) (nth (i - 1) samples NaN)).

(** Mean of the absolute deltas for [i = 1 .. len(samples) - 1], summed in
    that order; 0 with fewer than two samples. *)
Definition jitter (samples : list number) : number :=
  if Nat.ltb (length samples) 2 then zero
  else div (fold_left add (map (abs_delta samples) (seq 1 (length samples - 1))) zero)
           (of_nat (length samples - 1)).

(** The round-trip times of the successful trips among the first
    [numPings], in order. *)
Definition elapsed (tr : trip) : list number :=
  match t_reply tr with
  | Replied true t_end => [sub t_end (t_start tr)]
  | Replied false _ | Rejected => []
  end.

Definition successful_rtts (trips : nat -> trip) : list number :=
  flat_map (fun i => elapsed (trips i)) (seq 0 numPings).

(** Arithmetic mean, summed from the left. *)
Definition mean (xs : list number) : number :=
  div (fold_left add xs zero) (of_nat (length xs)).

End Spec.

(* ===================================================================== *)
(** * Properties *)
(* ===================================================================== *)

Import F64 Server Client.

(** ** Integers below 2^53 in binary64 *)

(** The number of digits of a mantissa, by its logarithm. *)
Lemma digits2_pos_log2 (p : positive) :
  Z.pos (digits2_pos p) = Z.log2 (Z.pos p) + 1.
Proof.
  induction p as [p IH | p IH |]; simpl digits2_pos.
  - rewrite Pos2Z.inj_succ, IH. 
    change (Z.pos p~1) with (2 * Z.pos p + 1).
    rewrite Z.log2_succ_double by lia. lia.
  - rewrite Pos2Z.inj_succ, IH.
    change (Z.pos p~0) with (2 * Z.pos p).
    rewrite Z.log2_double by lia. lia.
  - reflexivity.
Qed.

Lemma pos_iter_xO (m d : positive) :
  Z.pos (Pos.iter xO m d) = Z.pos m * 2 ^ Z.pos d.
Proof.
  induction d as [| d IH] using Pos.peano_ind.
  - simpl. lia.
  - rewrite Pos.iter_succ, Pos2Z.inj_succ, Z.pow_succ_r by lia.
    change (Z.pos (Pos.iter xO m d)~0) with (2 * Z.pos (Pos.iter xO m d)).
    rewrite IH. lia.
Qed.

Lemma shr_1_exact (v : Z) : 0 < v -> shr_1 (exact_rec (2 * v)) = exact_rec v.
Proof.
  intros Hv. destruct v as [| p | p]; try lia. reflexivity.
Qed.

Lemma pow2_xI (p : positive) : 2 ^ Z.pos p~1 = 2 * (2 ^ Z.pos p * 2 ^ Z.pos p).
Proof.
  replace (Z.pos p~1) with (Z.succ (Z.pos p + Z.pos p)) by lia.
  rewrite Z.pow_succ_r, Z.pow_add_r by lia. reflexivity.
Qed.

Lemma pow2_xO (p : positive) : 2 ^ Z.pos p~0 = 2 ^ Z.pos p * 2 ^ Z.pos p.
Proof.
  replace (Z.pos p~0) with (Z.pos p + Z.pos p) by lia.
  rewrite Z.pow_add_r by lia. reflexivity.
Qed.

Lemma iter_pos_shr_exact (p : positive) : forall v : Z,
  0 < v -> SpecFloat.iter_pos shr_1 p (exact_rec (v * 2 ^ Z.pos p)) = exact_rec v.
Proof.
  induction p as [p IH | p IH |]; intros v Hv; cbn [SpecFloat.iter_pos].
  - assert (Hp : 0 < 2 ^ Z.pos p) by (apply Z.pow_pos_nonneg; lia).
    rewrite pow2_xI.
    replace (v * (2 * (2 ^ Z.pos p * 2 ^ Z.pos p)))
      with (2 * ((v * 2 ^ Z.pos p) * 2 ^ Z.pos p)) by ring.
    rewrite shr_1_exact by nia. rewrite IH by nia. apply IH; lia.
  - assert (Hp : 0 < 2 ^ Z.pos p) by (apply Z.pow_pos_nonneg; lia).
    rewrite pow2_xO, Z.mul_assoc.
    rewrite IH by nia. apply IH; lia.
  - rewrite Z.pow_1_r. rewrite Z.mul_comm. apply shr_1_exact; lia.
Qed.

Lemma dig_bounds v : 0 < v -> v < 2 ^ 53 -> 1 <= dig v <= 53.
Proof.
  intros H0 H1. unfold dig. pose proof (Z.log2_nonneg v).
  apply Z.log2_lt_pow2 in H1; lia.
Qed.

Lemma dig_mul_pow2 v k : 0 < v -> 0 <= k -> dig (v * 2 ^ k) = dig v + k.
Proof. intros. unfold dig. rewrite Z.log2_mul_pow2 by lia. lia. Qed.

(** A canonical mantissa needs no shift. *)
Lemma shr_fexp_canonical (m : positive) (e : Z) :
  dig (Z.pos m) = 53 -> -1074 <= e ->
  shr_fexp prec emax (Z.pos m) e loc_Exact = (exact_rec (Z.pos m), e).
Proof.
  intros Hd He.
  unfold shr_fexp, Zdigits2. rewrite digits2_pos_log2. fold (dig (Z.pos m)). rewrite Hd.
  unfold fexp, emin, prec, emax.
  replace (Z.max (53 + e - 53) (3 - 1024 - 53) - e) with 0 by lia.
  reflexivity.
Qed.

(** When the first shift is exact and leaves a canonical mantissa, the
    rounding step returns it. *)
Lemma binary_round_aux_exact (m : Z) (w : positive) (e t : Z) :
  shr_fexp prec emax m e loc_Exact = (exact_rec (Z.pos w), t) ->
  dig (Z.pos w) = 53 -> -1074 <= t <= 971 ->
  binary_round_aux prec emax false m e loc_Exact = S754_finite false w t.
Proof.
  intros Hs Hd Ht.
  unfold binary_round_aux. rewrite Hs.
  cbn [exact_rec shr_m loc_of_shr_record shr_r shr_s round_nearest_even].
  rewrite shr_fexp_canonical by lia. cbn [exact_rec shr_m].
  unfold emax, prec. destruct (t <=? 1024 - 53) eqn:E; [reflexivity | lia].
Qed.

Lemma binary_round_aux_canonical (m : positive) (e : Z) :
  dig (Z.pos m) = 53 -> -1074 <= e <= 971 ->
  binary_round_aux prec emax false (Z.pos m) e loc_Exact = S754_finite false m e.
Proof.
  intros Hd He. apply binary_round_aux_exact; [apply shr_fexp_canonical; lia | exact Hd | lia].
Qed.

Lemma nf_mantissa_pos v : 0 < v -> v < 2 ^ 53 -> 0 < v * 2 ^ (53 - dig v).
Proof.
  intros H0 H1. pose proof (dig_bounds v H0 H1).
  apply Z.mul_pos_pos; [lia | apply Z.pow_pos_nonneg; lia ].
Qed.

Lemma dig_nf_mantissa v : 0 < v -> v < 2 ^ 53 -> dig (v * 2 ^ (53 - dig v)) = 53.
Proof.
  intros H0 H1. pose proof (dig_bounds v H0 H1).
  rewrite dig_mul_pow2 by lia. lia.
Qed.

(** Rounding a value that is an integer below 2^53 gives its normal form,
    however the value is split into mantissa and exponent. *)
Lemma binary_round_nf (m : positive) (e v : Z) :
  0 < v -> v < 2 ^ 53 -> e <= 0 -> Z.pos m = v * 2 ^ (- e) ->
  binary_round prec emax false m e = nf v.
Proof.
  intros H0 H1 He Hm.
  pose proof (dig_bounds v H0 H1) as Hd.
  pose proof (nf_mantissa_pos v H0 H1) as Hw.
  pose proof (dig_nf_mantissa v H0 H1) as Hdw.
  assert (Hdm : Z.pos (digits2_pos m) + e = dig v).
  { rewrite digits2_pos_log2. fold (dig (Z.pos m)). rewrite Hm, dig_mul_pow2 by lia. lia. }
  unfold binary_round. rewrite Hdm.
  assert (Hf : fexp prec emax (dig v) = dig v - 53).
  { unfold fexp, emin, prec, emax. lia. }
  rewrite Hf. unfold shl_align, nf.
  destruct (dig v - 53 - e) as [| p | p] eqn:Hsh.
  - (* already aligned *)
    assert (e = dig v - 53) by lia. subst e.
    replace (- (dig v - 53)) with (53 - dig v) in Hm by lia.
    rewrite <- Hm. rewrite Pos2Z.id.
    apply binary_round_aux_canonical; [rewrite Hm; exact Hdw | lia].
  - (* the mantissa is too long: exact right shift inside the rounding *)
    assert (Hm' : Z.pos m = (v * 2 ^ (53 - dig v)) * 2 ^ Z.pos p).
    { rewrite Hm, <- Z.mul_assoc, <- Z.pow_add_r by lia. do 2 f_equal. lia. }
    destruct (v * 2 ^ (53 - dig v)) as [| w | w] eqn:Ew; try lia.
    assert (Hs : shr_fexp prec emax (Z.pos m) e loc_Exact = (exact_rec (Z.pos w), dig v - 53)).
    { unfold shr_fexp, Zdigits2. rewrite Hdm, Hf, Hsh. unfold shr.
      change (shr_record_of_loc (Z.pos m) loc_Exact) with (exact_rec (Z.pos m)).
      rewrite Hm', iter_pos_shr_exact by lia. f_equal. lia. }
    rewrite (binary_round_aux_exact _ w _ _ Hs) by (try exact Hdw; lia).
    reflexivity.
  - (* the mantissa is too short: shift left first *)
    assert (Hz : Z.pos (Pos.iter xO m p) = v * 2 ^ (53 - dig v)).
    { rewrite pos_iter_xO, Hm, <- Z.mul_assoc, <- Z.pow_add_r by lia. do 2 f_equal. lia. }
    rewrite <- Hz, Pos2Z.id.
    apply binary_round_aux_canonical; [rewrite Hz; exact Hdw | lia].
Qed.

Lemma of_Z_nf (v : Z) : 0 < v -> v < 2 ^ 53 -> of_Z v = nf v.
Proof.
  intros H0 H1. destruct v as [| p | p]; try lia.
  unfold of_Z, binary_normalize. apply binary_round_nf; try lia.
Qed.

Lemma of_Z_0 : of_Z 0 = zero.
Proof. reflexivity. Qed.

Lemma dig_mono a b : 0 < b -> b <= a -> dig b <= dig a.
Proof. intros. unfold dig. pose proof (Z.log2_le_mono b a). lia. Qed.

(** Subtraction of integers below 2^53 is exact. *)
Lemma sub_of_Z_exact (a b : Z) :
  0 <= b -> b <= a -> a < 2 ^ 53 -> sub (of_Z a) (of_Z b) = of_Z (a - b).
Proof.
  intros Hb Hab Ha.
  destruct (Z.eq_dec b 0) as [-> | Hb0].
  { rewrite Z.sub_0_r. destruct (Z.eq_dec a 0) as [-> | Ha0]; [reflexivity |].
    rewrite of_Z_nf by lia. reflexivity. }
  rewrite (of_Z_nf a), (of_Z_nf b) by lia.
  pose proof (dig_bounds a ltac:(lia) Ha) as Hda.
  pose proof (dig_bounds b ltac:(lia) ltac:(lia)) as Hdb.
  pose proof (dig_mono a b ltac:(lia) Hab) as Hdab.
  pose proof (nf_mantissa_pos a ltac:(lia) Ha) as Hwa.
  pose proof (nf_mantissa_pos b ltac:(lia) ltac:(lia)) as Hwb.
  unfold nf, sub, SFsub.
  rewrite Z.min_r by lia.
  unfold cond_Zopp.
  assert (HB : Z.pos (fst (shl_align (Z.to_pos (b * 2 ^ (53 - dig b))) (dig b - 53) (dig b - 53)))
               = b * 2 ^ (53 - dig b)).
  { unfold shl_align. rewrite Z.sub_diag. cbn [fst]. rewrite Z2Pos.id; lia. }
  assert (HA : Z.pos (fst (shl_align (Z.to_pos (a * 2 ^ (53 - dig a))) (dig a - 53) (dig b - 53)))
               = a * 2 ^ (53 - dig b)).
  { unfold shl_align. destruct (dig b - 53 - (dig a - 53)) as [| p | p] eqn:E; try lia; cbn [fst].
    - rewrite Z2Pos.id by lia. do 2 f_equal. lia.
    - rewrite pos_iter_xO, Z2Pos.id, <- Z.mul_assoc, <- Z.pow_add_r by lia.
      do 2 f_equal. lia. }
  rewrite HA, HB.
  assert (Hp : 0 < 2 ^ (53 - dig b)) by (apply Z.pow_pos_nonneg; lia).
  destruct (Z.eq_dec a b) as [-> | Hne].
  { rewrite !Z.sub_diag. reflexivity. }
  destruct (a * 2 ^ (53 - dig b) - b * 2 ^ (53 - dig b)) as [| q | q] eqn:Eq; try nia.
  unfold binary_normalize.
  rewrite (binary_round_nf q (dig b - 53) (a - b)); try lia.
  - symmetry. apply of_Z_nf; lia.
  - rewrite <- Eq. replace (- (dig b - 53)) with (53 - dig b) by lia. ring.
Qed.

Lemma sub_of_nat_exact (a b : nat) :
  (b <= a)%nat -> Z.of_nat a < 2 ^ 53 -> sub (of_nat a) (of_nat b) = of_nat (a - b).
Proof.
  intros. unfold of_nat. rewrite sub_of_Z_exact by lia. f_equal. lia.
Qed.

(** ** Frame lemmas: what the helpers leave alone *)

(** [updateResult] touches the result elements only. *)
Ltac updateResult_frame :=
  unfold updateResult; destruct (elements _ !! _); reflexivity.

Lemma results_updateResult id v u s : results (updateResult id v u s) = results s.
Proof. updateResult_frame. Qed.

Lemma requests_updateResult id v u s : requests (updateResult id v u s) = requests s.
Proof. updateResult_frame. Qed.

Lemma status_updateResult id v u s : status (updateResult id v u s) = status s.
Proof. updateResult_frame. Qed.

Lemma disabled_updateResult id v u s :
  startBtn_disabled (updateResult id v u s) = startBtn_disabled s.
Proof. updateResult_frame. Qed.

Lemma history_updateResult id v u s : history (updateResult id v u s) = history s.
Proof. updateResult_frame. Qed.

Lemma pending_updateResult id v u s :
  pending_saves (updateResult id v u s) = pending_saves s.
Proof. updateResult_frame. Qed.

Lemma session_updateResult id v u s : session (updateResult id v u s) = session s.
Proof. updateResult_frame. Qed.


Lemma results_updateStatus id m s : results (updateStatus id m s) = results s.
Proof. reflexivity. Qed.

Lemma results_finalizeTest b s : results (finalizeTest b s) = results s.
Proof.
  unfold finalizeTest. destruct b; cbn [negb].
  - destruct (read_finalResults _); reflexivity.
  - cbn. rewrite !results_updateResult. reflexivity.
Qed.

Lemma results_calculateJitterLoss rtts total s :
  results (calculateJitterLoss rtts total s)
  = <["jitter" := averageJitter rtts]> (<["packetLoss" := lossPercent rtts total]> (results s)).
Proof.
  unfold calculateJitterLoss.
  rewrite results_finalizeTest, results_updateStatus, !results_updateResult.
  reflexivity.
Qed.

(** ** The packet counter

    The count of dispatched packets handed to [calculateJitterLoss] is the
    packet counter of the session, which no callback moves out of
    [0 .. NUM_PACKETS]. *)

Lemma session_finalizeTest b s : session (finalizeTest b s) = session s.
Proof.
  unfold finalizeTest. destruct b; cbn [negb].
  - destruct (read_finalResults _); reflexivity.
  - cbn [session set_disabled]. rewrite !session_updateResult. reflexivity.
Qed.

Lemma session_calculateJitterLoss rtts total s :
  session (calculateJitterLoss rtts total s) = session s.
Proof.
  unfold calculateJitterLoss.
  rewrite session_finalizeTest. cbn [session updateStatus set_status].
  rewrite !session_updateResult. reflexivity.
Qed.

Lemma session_save_settled reply clock fr s :
  session (save_settled reply clock fr s) = session s.
Proof.
  unfold save_settled.
  destruct reply as [| | | [id |]]; try destruct (String.eqb id "");
    repeat match goal with |- context [if ?c then _ else _] => destruct c end;
    reflexivity.
Qed.

Lemma packetCounter_handle (s : State) (e : event) :
  0 <= packetCounter (session s) <= NUM_PACKETS ->
  0 <= packetCounter (session (handle s e)) <= NUM_PACKETS.
Proof.
  intros H. destruct e; cbn [handle].
  - exact H.
  - unfold signaling_catch. rewrite session_finalizeTest. exact H.
  - exact H.
  - unfold sendPacket. destruct (NUM_PACKETS <=? packetCounter (session s)) eqn:E.
    + exact H.
    + apply Z.leb_gt in E. cbn [session updateStatus set_status set_session packetCounter]. lia.
  - unfold timeout_cb. rewrite session_calculateJitterLoss. exact H.
  - unfold dc_onmessage. destruct data as [sendTime |]; [| exact H].
    match goal with |- context [if ?c then _ else _] => destruct c end;
      [rewrite session_calculateJitterLoss |]; exact H.
  - unfold dc_onclose. rewrite session_finalizeTest.
    match goal with |- context [if ?c then _ else _] => destruct c end; exact H.
  - unfold pc_oniceconnectionstatechange.
    match goal with |- context [if ?c then _ else _] => destruct c end;
      [rewrite session_finalizeTest |]; exact H.
  - unfold on_save_settled. destruct (pending_saves s !! i); [| exact H].
    rewrite session_save_settled. exact H.
Qed.

Lemma packetCounter_run (net : Network) (s : State) (events : list event) :
  0 <= packetCounter (session (fold_left handle events (runAllTests net s))) <= NUM_PACKETS.
Proof.
  assert (H0 : 0 <= packetCounter (session (runAllTests net s)) <= NUM_PACKETS)
    by (cbn; unfold NUM_PACKETS; lia).
  generalize dependent (runAllTests net s). intros s0.
  revert s0. induction events as [| e events IH]; intros s0 H0; cbn [fold_left].
  - exact H0.
  - apply IH, packetCounter_handle, H0.
Qed.

(** ** The loop of calculateJitterLoss *)

Lemma jitter_loop_sum (rtts : list number) : forall (n i : nat) (acc : number),
  (1 <= i)%nat ->
  fst (jitter_loop n i rtts acc (nth (i - 1) rtts NaN))
  = fold_left add (map (Spec.abs_delta rtts) (seq i n)) acc.
Proof.
  induction n as [| n IH]; intros i acc Hi; [reflexivity |].
  cbn [jitter_loop seq map fold_left].
  replace (nth i rtts NaN) with (nth (S i - 1) rtts NaN) at 2 by (f_equal; lia).
  rewrite IH by lia. reflexivity.
Qed.

Lemma of_nat_pos_finite (n : nat) :
  (1 <= n)%nat -> Z.of_nat n < 2 ^ 53 -> exists m e, of_nat n = S754_finite false m e.
Proof.
  intros. unfold of_nat. rewrite of_Z_nf by lia. unfold nf. eauto.
Qed.

Lemma averageJitter_spec (rtts : list number) :
  Z.of_nat (length rtts) < 2 ^ 53 -> averageJitter rtts = Spec.jitter rtts.
Proof.
  intros Hlen. unfold averageJitter, Spec.jitter.
  destruct rtts as [| r0 [| r1 rest]]; [reflexivity | reflexivity |].
  set (l := r0 :: r1 :: rest) in *.
  assert (Hl : (2 <= length l)%nat) by (unfold l; cbn; lia).
  replace (Nat.ltb 1 (length l)) with true by (symmetry; apply Nat.ltb_lt; lia).
  replace (Nat.ltb (length l) 2) with false by (symmetry; apply Nat.ltb_ge; lia).
  replace (Nat.ltb 0 (length l)) with true by (symmetry; apply Nat.ltb_lt; lia).
  change (nth 0 l NaN) with (nth (1 - 1) l NaN).
  rewrite jitter_loop_sum by lia.
  change (of_Z 1) with (of_nat 1).
  rewrite sub_of_nat_exact by lia. reflexivity.
Qed.

Lemma lossPercent_spec (rtts : list number) (D : nat) :
  (length rtts <= D)%nat -> Z.of_nat D < 2 ^ 53 ->
  lossPercent rtts (of_nat D) = Spec.loss D (length rtts).
Proof.
  intros. unfold lossPercent, Spec.loss. rewrite sub_of_nat_exact by lia. reflexivity.
Qed.

Lemma loss_none_lost (D : nat) :
  (1 <= D)%nat -> Z.of_nat D < 2 ^ 53 -> Spec.loss D D = zero.
Proof.
  intros H1 H2. unfold Spec.loss. rewrite Nat.sub_diag.
  destruct (of_nat_pos_finite D H1 H2) as (m & e & ->).
  reflexivity.
Qed.

(** C1.  For a dispatched count [D >= 1] and a list of received samples of
    length [R <= D], [calculateJitterLoss] stores as packet loss the number
    [(D - R) / D * 100], where [D - R] is the exact count of lost packets,
    and that number is [+0] when [R = D].  ([D] is a count a [Number] holds
    exactly, that is, below 2^53.) *)
Theorem loss_percent_formula (rtts : list number) (D : nat) (s : State) :
  (1 <= D)%nat -> (length rtts <= D)%nat -> Z.of_nat D < 2 ^ 53 ->
  results (calculateJitterLoss rtts (of_nat D) s) !! "packetLoss"
    = Some (lossPercent rtts (of_nat D))
  /\ lossPercent rtts (of_nat D) = Spec.loss D (length rtts)
  /\ (length rtts = D -> lossPercent rtts (of_nat D) = zero).
Proof.
  intros H1 H2 H3. split; [| split].
  - rewrite results_calculateJitterLoss.
    rewrite lookup_insert_ne by discriminate. apply lookup_insert_eq.
  - apply lossPercent_spec; assumption.
  - intros E. rewrite lossPercent_spec by assumption. rewrite E. apply loss_none_lost; assumption.
Qed.

(** Three echoes for four packets: a quarter is lost. *)
Lemma loss_percent_formula_witness :
  let rtts := [of_Z 100; of_Z 120; of_Z 90] in
  (1 <= 4)%nat /\ (length rtts <= 4)%nat /\ Z.of_nat 4 < 2 ^ 53
  /\ results (calculateJitterLoss rtts (of_nat 4) fresh_page) !! "packetLoss"
     = Some (of_Z 25).
Proof.
  cbv zeta. split; [lia | split; [cbn; lia | split; [reflexivity |]]].
  destruct (loss_percent_formula [of_Z 100; of_Z 120; of_Z 90] 4 fresh_page) as (H & _ & _);
    [lia | cbn; lia | reflexivity |].
  rewrite H. vm_compute. reflexivity.
Defined.

(** C2.  [calculateJitterLoss] stores as jitter [0] when fewer than two
    samples were received, and otherwise the mean of
    [|rtts[i] - rtts[i-1]|] over the consecutive samples in arrival order;
    for the samples [100, 120, 90] it is [(20 + 30) / 2 = 25]. *)
Theorem jitter_mean_abs_delta (rtts : list number) (total : number) (s : State) :
  Z.of_nat (length rtts) < 2 ^ 53 ->
  results (calculateJitterLoss rtts total s) !! "jitter" = Some (averageJitter rtts)
  /\ averageJitter rtts = Spec.jitter rtts
  /\ ((length rtts < 2)%nat -> averageJitter rtts = zero)
  /\ averageJitter [of_Z 100; of_Z 120; of_Z 90] = of_Z 25.
Proof.
  intros Hlen. split; [| split; [| split]].
  - rewrite results_calculateJitterLoss. apply lookup_insert_eq.
  - apply averageJitter_spec; assumption.
  - intros Hlt. rewrite averageJitter_spec by assumption. unfold Spec.jitter.
    replace (Nat.ltb (length rtts) 2) with true by (symmetry; apply Nat.ltb_lt; lia).
    reflexivity.
  - vm_compute. reflexivity.
Qed.

(** The three samples of the example, on a fresh page. *)
Lemma jitter_mean_abs_delta_witness :
  Z.of_nat (length [of_Z 100; of_Z 120; of_Z 90]) < 2 ^ 53
  /\ results (calculateJitterLoss [of_Z 100; of_Z 120; of_Z 90] (of_Z 3) fresh_page)
       !! "jitter" = Some (of_Z 25).
Proof.
  split; [reflexivity |].
  destruct (jitter_mean_abs_delta [of_Z 100; of_Z 120; of_Z 90] (of_Z 3) fresh_page)
    as (H & _ & _ & Hex); [reflexivity |].
  rewrite H, Hex. reflexivity.
Defined.

(** ** The latency probe *)

Lemma set_requests_app (s : State) (l1 l2 : list request) :
  set_requests (requests (set_requests (requests s ++ l1) s) ++ l2) (set_requests (requests s ++ l1) s)
  = set_requests (requests s ++ l1 ++ l2) s.
Proof. unfold set_requests. cbn. rewrite <- app_assoc. reflexivity. Qed.

Lemma set_requests_nil (s : State) : set_requests (requests s ++ []) s = s.
Proof. destruct s. unfold set_requests. cbn. rewrite app_nil_r. reflexivity. Qed.

Lemma ping_loop (trips : nat -> trip) (idx : list nat) : forall (s : State) (latencies : list number),
  fold_left (fun acc i => ping (trips i) acc) idx (s, latencies)
  = (set_requests (requests s ++ map (fun i => GET_latency (t_start (trips i))) idx) s,
     latencies ++ flat_map (fun i => Spec.elapsed (trips i)) idx).
Proof.
  induction idx as [| i idx IH]; intros s latencies; cbn [fold_left map flat_map].
  - rewrite set_requests_nil, app_nil_r. reflexivity.
  - unfold ping at 2. unfold Spec.elapsed at 1.
    destruct (t_reply (trips i)) as [| [] t_end]; rewrite IH; unfold fetch;
      rewrite set_requests_app; cbn [app]; rewrite ?app_nil_r, <- ?app_assoc; reflexivity.
Qed.


(** What [runLatencyTest] does, in one equation per outcome. *)
Lemma runLatencyTest_failed (trips : nat -> trip) (s : State) :
  Spec.successful_rtts trips = [] ->
  runLatencyTest trips s
  = updateStatus "latency-status" "Failed to measure."
      (set_requests (requests s ++ map (fun i => GET_latency (t_start (trips i))) (seq 0 numPings))
         (updateStatus "latency-status" "Pinging..." s)).
Proof.
  intros H. unfold runLatencyTest. rewrite ping_loop.
  fold (Spec.successful_rtts trips). rewrite H. reflexivity.
Qed.

Lemma runLatencyTest_measured (trips : nat -> trip) (s : State) :
  Spec.successful_rtts trips <> [] ->
  let avg := Spec.mean (Spec.successful_rtts trips) in
  let s1 := set_requests (requests s ++ map (fun i => GET_latency (t_start (trips i))) (seq 0 numPings))
              (updateStatus "latency-status" "Pinging..." s) in
  runLatencyTest trips s
  = updateStatus "latency-status" "Complete"
      (updateResult "latency-result" (Fixed2 avg) U_ms
         (set_results (<["latency" := avg]> (results s1)) s1)).
Proof.
  intros H. unfold runLatencyTest. rewrite ping_loop.
  fold (Spec.successful_rtts trips). cbn [app].
  destruct (Spec.successful_rtts trips) as [| x xs] eqn:E; [contradiction |].
  reflexivity.
Qed.

Lemma runLatencyTest_requests (trips : nat -> trip) (s : State) :
  requests (runLatencyTest trips s)
  = requests s ++ map (fun i => GET_latency (t_start (trips i))) (seq 0 numPings).
Proof.
  destruct (Spec.successful_rtts trips) as [| x xs] eqn:E.
  - rewrite runLatencyTest_failed by exact E. reflexivity.
  - rewrite runLatencyTest_measured by congruence.
    cbn [requests updateStatus set_status]. rewrite requests_updateResult. reflexivity.
Qed.

Lemma runLatencyTest_failed_frame (trips : nat -> trip) (s : State) :
  Spec.successful_rtts trips = [] ->
  results (runLatencyTest trips s) = results s
  /\ elements (runLatencyTest trips s) = elements s.
Proof. intros E. rewrite runLatencyTest_failed by exact E. split; reflexivity. Qed.

(** C6.  [runLatencyTest] issues 10 requests.  When no trip succeeds the
    results object and the result elements are left as they were (the
    latency stays unset: neither zero nor NaN) and the status reports the
    failure; when [k >= 1] trips succeed, the latency stored is the
    arithmetic mean of their [k] round-trip times. *)
Theorem latency_probe (trips : nat -> trip) (s : State) :
  let s' := runLatencyTest trips s in
  let rtts := Spec.successful_rtts trips in
  requests s' = requests s ++ map (fun i => GET_latency (t_start (trips i))) (seq 0 10)
  /\ (rtts = [] ->
      results s' = results s
      /\ elements s' = elements s
      /\ status s' !! "latency-status" = Some "Failed to measure."%string)
  /\ (rtts <> [] ->
      results s' !! "latency" = Some (Spec.mean rtts)
      /\ status s' !! "latency-status" = Some "Complete"%string).
Proof.
  cbv zeta. destruct (Spec.successful_rtts trips) as [| x xs] eqn:E.
  - rewrite runLatencyTest_failed by exact E. split; [reflexivity |]. split.
    + intros _. split; [reflexivity |]. split; [reflexivity |].
      cbn [status updateStatus set_status]. apply lookup_insert_eq.
    + intros H. contradiction.
  - rewrite runLatencyTest_measured by congruence. rewrite E.
    cbn [requests updateStatus set_status]. rewrite requests_updateResult.
    split; [reflexivity |]. split; [intros H; discriminate |].
    intros _. split.
    + cbn [results updateStatus set_status]. rewrite results_updateResult.
      cbn [results set_results]. apply lookup_insert_eq.
    + cbn [status updateStatus set_status]. apply lookup_insert_eq.
Qed.

(** Ten refused probes leave the latency unset; two successful probes of
    20 ms and 30 ms give 25 ms. *)
Lemma latency_probe_witness :
  (Spec.successful_rtts all_rejected = []
   /\ results (runLatencyTest all_rejected fresh_page) !! "latency" = None
   /\ status (runLatencyTest all_rejected fresh_page) !! "latency-status"
      = Some "Failed to measure."%string)
  /\ (Spec.successful_rtts two_of_ten <> []
      /\ results (runLatencyTest two_of_ten fresh_page) !! "latency" = Some (of_Z 25)).
Proof.
  split.
  - destruct (latency_probe all_rejected fresh_page) as (_ & Hfail & _).
    destruct (Hfail eq_refl) as (Hres & _ & Hst).
    split; [reflexivity |]. split; [rewrite Hres; reflexivity | exact Hst].
  - assert (Hne : Spec.successful_rtts two_of_ten <> []) by (vm_compute; discriminate).
    destruct (latency_probe two_of_ten fresh_page) as (_ & _ & Hok).
    destruct (Hok Hne) as (Hres & _).
    split; [exact Hne |]. rewrite Hres. vm_compute. reflexivity.
Defined.

(** ** A run: the three sequential sub-tests

    *** The result elements under [updateResult] *)
Lemma elements_updateResult_ne id id' v u s :
  id <> id' -> elements (updateResult id v u s) !! id' = elements s !! id'.
Proof.
  intros Hne. unfold updateResult. destruct (elements s !! id); [| reflexivity].
  cbn. apply lookup_insert_ne. exact Hne.
Qed.

Lemma elements_updateResult_eq id v u s :
  is_Some (elements s !! id) -> elements (updateResult id v u s) !! id = Some (Text v u).
Proof.
  intros [t Ht]. unfold updateResult. rewrite Ht. cbn. apply lookup_insert_eq.
Qed.

Lemma elements_updateResult_is_Some id id' v u s :
  is_Some (elements s !! id') -> is_Some (elements (updateResult id v u s) !! id').
Proof.
  intros H. destruct (decide (id = id')) as [-> | Hne].
  - rewrite elements_updateResult_eq by exact H. eauto.
  - rewrite elements_updateResult_ne by exact Hne. exact H.
Qed.


Lemma reset_results_elements (s : State) (id : string) :
  page_ready s -> In id resultFields ->
  elements (reset_results s) !! id = Some (Text NA U_none).
Proof.
  intros Hready Hin. unfold reset_results, resultFields in *. cbn [fold_left].
  assert (H1 := Hready "latency-result"%string ltac:(cbn; tauto)).
  assert (H2 := Hready "download-result"%string ltac:(cbn; tauto)).
  assert (H3 := Hready "upload-result"%string ltac:(cbn; tauto)).
  assert (H4 := Hready "loss-result"%string ltac:(cbn; tauto)).
  assert (H5 := Hready "jitter-result"%string ltac:(cbn; tauto)).
  cbn in Hin.
  destruct Hin as [<- | [<- | [<- | [<- | [<- | []]]]]];
    repeat first
      [ rewrite elements_updateResult_ne by discriminate
      | rewrite elements_updateResult_eq
          by (repeat apply elements_updateResult_is_Some; assumption) ];
    reflexivity.
Qed.

Lemma reset_results_frame (s : State) :
  results (reset_results s) = results s
  /\ requests (reset_results s) = requests s
  /\ startBtn_disabled (reset_results s) = startBtn_disabled s
  /\ history (reset_results s) = history s
  /\ pending_saves (reset_results s) = pending_saves s.
Proof.
  unfold reset_results, resultFields. cbn [fold_left].
  rewrite !results_updateResult, !requests_updateResult, !disabled_updateResult,
    !history_updateResult, !pending_updateResult. auto.
Qed.

(** *** runLatencyTest *)
Lemma runLatencyTest_cases (trips : nat -> trip) (s : State) :
  let s1 := set_requests (requests s ++ map (fun i => GET_latency (t_start (trips i))) (seq 0 numPings))
              (updateStatus "latency-status" "Pinging..." s) in
  runLatencyTest trips s = updateStatus "latency-status" "Failed to measure." s1
  \/ exists avg,
       runLatencyTest trips s
       = updateStatus "latency-status" "Complete"
           (updateResult "latency-result" (Fixed2 avg) U_ms
              (set_results (<["latency" := avg]> (results s1)) s1)).
Proof.
  cbv zeta. destruct (Spec.successful_rtts trips) as [| x xs] eqn:E.
  - left. apply runLatencyTest_failed. exact E.
  - right. eexists. apply runLatencyTest_measured. congruence.
Qed.

Lemma runLatencyTest_elements_other trips s id :
  id <> "latency-result"%string ->
  elements (runLatencyTest trips s) !! id = elements s !! id.
Proof.
  intros Hne. destruct (runLatencyTest_cases trips s) as [-> | [avg ->]]; [reflexivity |].
  cbn [elements updateStatus set_status]. rewrite elements_updateResult_ne by congruence.
  reflexivity.
Qed.

Lemma runLatencyTest_results_other trips s k :
  k <> "latency"%string -> results (runLatencyTest trips s) !! k = results s !! k.
Proof.
  intros Hne. destruct (runLatencyTest_cases trips s) as [-> | [avg ->]]; [reflexivity |].
  cbn [results updateStatus set_status]. rewrite results_updateResult. cbn.
  apply lookup_insert_ne. congruence.
Qed.

Lemma runLatencyTest_is_Some trips s id :
  is_Some (elements s !! id) -> is_Some (elements (runLatencyTest trips s) !! id).
Proof.
  intros H. destruct (runLatencyTest_cases trips s) as [-> | [avg ->]]; [exact H |].
  cbn [elements updateStatus set_status]. apply elements_updateResult_is_Some. exact H.
Qed.

(** *** runDownloadTest *)
Lemma runDownloadTest_requests start reply s :
  requests (runDownloadTest start reply s)
  = requests s ++ [GET_download (default 1 (validateSize (download_size s) MAX_SIZE_MB))].
Proof.
  unfold runDownloadTest. cbn.
  destruct reply as [| | | bytes t_end]; try reflexivity.
  destruct (bytes =? 0); [reflexivity |].
  cbn. rewrite requests_updateResult. reflexivity.
Qed.

Lemma runDownloadTest_failed start reply s :
  dl_transport_error reply = true ->
  elements (runDownloadTest start reply s) = elements s
  /\ results (runDownloadTest start reply s) = results s.
Proof. destruct reply; try discriminate; intros _; split; reflexivity. Qed.

Lemma runDownloadTest_elements_other start reply s id :
  id <> "download-result"%string ->
  elements (runDownloadTest start reply s) !! id = elements s !! id.
Proof.
  intros Hne. unfold runDownloadTest. cbn.
  destruct reply as [| | | bytes t_end]; try reflexivity.
  destruct (bytes =? 0); [reflexivity |].
  cbn. rewrite elements_updateResult_ne by congruence. reflexivity.
Qed.

Lemma runDownloadTest_results_other start reply s k :
  k <> "download"%string -> results (runDownloadTest start reply s) !! k = results s !! k.
Proof.
  intros Hne. unfold runDownloadTest. cbn.
  destruct reply as [| | | bytes t_end]; try reflexivity.
  destruct (bytes =? 0); [reflexivity |].
  cbn. rewrite results_updateResult. cbn. apply lookup_insert_ne. congruence.
Qed.

Lemma runDownloadTest_is_Some start reply s id :
  is_Some (elements s !! id) -> is_Some (elements (runDownloadTest start reply s) !! id).
Proof.
  intros H. unfold runDownloadTest. cbn.
  destruct reply as [| | | bytes t_end]; try exact H.
  destruct (bytes =? 0); [exact H |].
  cbn. apply elements_updateResult_is_Some. exact H.
Qed.

(** *** runUploadTest *)
Lemma runUploadTest_requests start reply s :
  requests (runUploadTest start reply s)
  = requests s ++ [POST_upload (default 1 (validateSize (upload_size s) MAX_SIZE_MB) * 1024 * 1024)].
Proof.
  unfold runUploadTest. cbn.
  destruct reply as [| | t_end]; try reflexivity.
  cbn. rewrite requests_updateResult. reflexivity.
Qed.

Lemma runUploadTest_failed start reply s :
  ul_transport_error reply = true ->
  elements (runUploadTest start reply s) = elements s
  /\ results (runUploadTest start reply s) = results s.
Proof. destruct reply; try discriminate; intros _; split; reflexivity. Qed.

Lemma runUploadTest_elements_other start reply s id :
  id <> "upload-result"%string ->
  elements (runUploadTest start reply s) !! id = elements s !! id.
Proof.
  intros Hne. unfold runUploadTest. cbn.
  destruct reply as [| | t_end]; try reflexivity.
  cbn. rewrite elements_updateResult_ne by congruence. reflexivity.
Qed.

Lemma runUploadTest_results_other start reply s k :
  k <> "upload"%string -> results (runUploadTest start reply s) !! k = results s !! k.
Proof.
  intros Hne. unfold runUploadTest. cbn.
  destruct reply as [| | t_end]; try reflexivity.
  cbn. rewrite results_updateResult. cbn. apply lookup_insert_ne. congruence.
Qed.

Lemma runUploadTest_is_Some start reply s id :
  is_Some (elements s !! id) -> is_Some (elements (runUploadTest start reply s) !! id).
Proof.
  intros H. unfold runUploadTest. cbn.
  destruct reply as [| | t_end]; try exact H.
  cbn. apply elements_updateResult_is_Some. exact H.
Qed.

Lemma runAllTests_unfold net s :
  runAllTests net s
  = runWebRTCTest
      (runUploadTest (net_upload_start net) (net_upload net)
         (runDownloadTest (net_download_start net) (net_download net)
            (runLatencyTest (net_trips net) (run_start s)))).
Proof. reflexivity. Qed.

Lemma run_start_elements s id :
  page_ready s -> In id resultFields ->
  elements (run_start s) !! id = Some (Text NA U_none).
Proof.
  intros Hready Hin. unfold run_start. cbn [elements set_results fold_left statusFields
    updateStatus set_status].
  apply reset_results_elements; [| exact Hin]. exact Hready.
Qed.

Lemma run_start_results s : results (run_start s) = ∅.
Proof. reflexivity. Qed.

Lemma run_start_requests s : requests (run_start s) = requests s.
Proof.
  unfold run_start. cbn [requests set_results fold_left statusFields updateStatus set_status].
  destruct (reset_results_frame (set_disabled true s)) as (_ & H & _). rewrite H. reflexivity.
Qed.

Lemma run_start_disabled s : startBtn_disabled (run_start s) = true.
Proof.
  unfold run_start. cbn [startBtn_disabled set_results fold_left statusFields updateStatus set_status].
  destruct (reset_results_frame (set_disabled true s)) as (_ & _ & H & _). rewrite H. reflexivity.
Qed.

Lemma run_start_history s : history (run_start s) = history s.
Proof.
  unfold run_start. cbn [history set_results fold_left statusFields updateStatus set_status].
  destruct (reset_results_frame (set_disabled true s)) as (_ & _ & _ & H & _). rewrite H. reflexivity.
Qed.

Lemma run_start_pending s : pending_saves (run_start s) = pending_saves s.
Proof.
  unfold run_start. cbn [pending_saves set_results fold_left statusFields updateStatus set_status].
  destruct (reset_results_frame (set_disabled true s)) as (_ & _ & _ & _ & H). rewrite H. reflexivity.
Qed.

Lemma runAllTests_page_ready net s : page_ready s -> page_ready (runAllTests net s).
Proof.
  intros Hready id Hin. rewrite runAllTests_unfold.
  cbn [elements runWebRTCTest set_session updateStatus set_status].
  apply runUploadTest_is_Some, runDownloadTest_is_Some, runLatencyTest_is_Some.
  rewrite run_start_elements by assumption. eauto.
Qed.

(** The requests of the three sequential sub-tests are issued whatever
    their outcome. *)
Lemma runAllTests_requests net s :
  exists n m,
    requests (runAllTests net s)
    = requests s ++ map (fun i => GET_latency (t_start (net_trips net i))) (seq 0 numPings)
        ++ [GET_download n; POST_upload m].
Proof.
  rewrite runAllTests_unfold.
  cbn [requests runWebRTCTest set_session updateStatus set_status].
  rewrite runUploadTest_requests, runDownloadTest_requests, runLatencyTest_requests,
    run_start_requests, <- !app_assoc.
  eexists _, _. reflexivity.
Qed.

(** *** Reading the result elements *)
Lemma read_finalResults_ready s :
  page_ready s ->
  exists d u l j p,
    elements s !! "download-result" = Some d
    /\ elements s !! "upload-result" = Some u
    /\ elements s !! "latency-result" = Some l
    /\ elements s !! "jitter-result" = Some j
    /\ elements s !! "loss-result" = Some p
    /\ read_finalResults s
       = Some {| downloadSpeedMbps := or_else (parseFloat d) zero;
                 uploadSpeedMbps := or_else (parseFloat u) zero;
                 latencyMs := or_else (parseFloat l) zero;
                 jitterMs := or_else (parseFloat j) zero;
                 packetLossPercent := or_else (parseFloat p) zero |}.
Proof.
  intros Hready.
  destruct (Hready "download-result"%string ltac:(cbn; tauto)) as [d Hd].
  destruct (Hready "upload-result"%string ltac:(cbn; tauto)) as [u Hu].
  destruct (Hready "latency-result"%string ltac:(cbn; tauto)) as [l Hl].
  destruct (Hready "jitter-result"%string ltac:(cbn; tauto)) as [j Hj].
  destruct (Hready "loss-result"%string ltac:(cbn; tauto)) as [p Hp].
  exists d, u, l, j, p. repeat (split; [assumption |]).
  unfold read_finalResults, read_result. rewrite Hd, Hu, Hl, Hj, Hp. reflexivity.
Qed.

Lemma finalizeTest_posts s fr :
  read_finalResults s = Some fr ->
  finalizeTest true s
  = set_pending_saves (pending_saves s ++ [fr])
      (fetch (POST_save_result fr) (set_share_url ShareEmpty s)).
Proof.
  intros H. unfold finalizeTest. cbn [negb].
  change (read_finalResults (set_share_url ShareEmpty s)) with (read_finalResults s).
  rewrite H. reflexivity.
Qed.

Lemma parseFloat_NA u : or_else (parseFloat (Text NA u)) zero = zero.
Proof. reflexivity. Qed.

(** C7, as amended.  Whatever fails, the run goes on: the ten probes, the
    download and the upload are all requested.  A sub-test that fails with
    a transport error leaves its field of the results object unset and its
    result element at ['N/A'], and the record that finalization then
    submits to [/save-result] carries [0] in that field; so do the jitter
    and loss fields when the exchange session cannot be set up. *)
Theorem failed_subtest_fields (net : Network) (s : State) :
  page_ready s ->
  let s1 := runAllTests net s in
  exists fr n m,
    requests s1
      = requests s ++ map (fun i => GET_latency (t_start (net_trips net i))) (seq 0 10)
          ++ [GET_download n; POST_upload m]
    /\ read_finalResults s1 = Some fr
    /\ requests (signaling_catch s1) = requests s1 ++ [POST_save_result fr]
    /\ results (signaling_catch s1) !! "jitter" = None
    /\ results (signaling_catch s1) !! "packetLoss" = None
    /\ jitterMs fr = zero /\ packetLossPercent fr = zero
    /\ (Spec.successful_rtts (net_trips net) = [] ->
        results s1 !! "latency" = None
        /\ elements s1 !! "latency-result" = Some (Text NA U_none)
        /\ latencyMs fr = zero)
    /\ (dl_transport_error (net_download net) = true ->
        results s1 !! "download" = None
        /\ elements s1 !! "download-result" = Some (Text NA U_none)
        /\ downloadSpeedMbps fr = zero)
    /\ (ul_transport_error (net_upload net) = true ->
        results s1 !! "upload" = None
        /\ elements s1 !! "upload-result" = Some (Text NA U_none)
        /\ uploadSpeedMbps fr = zero).
Proof.
  intros Hready s1.
  pose proof (runAllTests_page_ready net s Hready) as Hready1. fold s1 in Hready1.
  destruct (read_finalResults_ready s1 Hready1) as (d & u & l & j & p & Hd & Hu & Hl & Hj & Hp & Hfr).
  set (sl := runLatencyTest (net_trips net) (run_start s)).
  set (sd := runDownloadTest (net_download_start net) (net_download net) sl).
  set (su := runUploadTest (net_upload_start net) (net_upload net) sd).
  assert (Es1 : s1 = runWebRTCTest su) by reflexivity.
  assert (Eel : elements s1 = elements su) by reflexivity.
  assert (Ers : results s1 = results su) by reflexivity.
  (* the two fields of the exchange session are still unset *)
  assert (Hj' : elements s1 !! "jitter-result" = Some (Text NA U_none)).
  { rewrite Eel. unfold su, sd, sl.
    rewrite runUploadTest_elements_other, runDownloadTest_elements_other,
      runLatencyTest_elements_other by discriminate.
    apply run_start_elements; [exact Hready | cbn; tauto]. }
  assert (Hp' : elements s1 !! "loss-result" = Some (Text NA U_none)).
  { rewrite Eel. unfold su, sd, sl.
    rewrite runUploadTest_elements_other, runDownloadTest_elements_other,
      runLatencyTest_elements_other by discriminate.
    apply run_start_elements; [exact Hready | cbn; tauto]. }
  assert (Hrs : forall k, k <> "latency"%string -> k <> "download"%string ->
                          k <> "upload"%string -> results s1 !! k = None).
  { intros k K1 K2 K3. rewrite Ers. unfold su, sd, sl.
    rewrite runUploadTest_results_other, runDownloadTest_results_other,
      runLatencyTest_results_other by assumption.
    rewrite run_start_results. apply lookup_empty. }
  destruct (runAllTests_requests net s) as (n & m & Hq). fold s1 in Hq.
  eexists _, n, m. split; [exact Hq |]. split; [exact Hfr |].
  assert (Hfin : read_finalResults (updateStatus "jitter-status" "WebRTC setup failed." s1)
                 = read_finalResults s1) by reflexivity.
  unfold signaling_catch. rewrite (finalizeTest_posts _ _ (eq_trans Hfin Hfr)).
  cbn [requests results set_pending_saves fetch set_requests set_share_url updateStatus set_status
       jitterMs packetLossPercent latencyMs downloadSpeedMbps uploadSpeedMbps].
  split; [reflexivity |].
  split; [apply Hrs; discriminate |]. split; [apply Hrs; discriminate |].
  rewrite Hj' in Hj. rewrite Hp' in Hp. inversion Hj; inversion Hp; subst j p.
  split; [reflexivity |]. split; [reflexivity |].
  split; [| split].
  - intros Hfail.
    destruct (runLatencyTest_failed_frame (net_trips net) (run_start s) Hfail) as (Hres & Hel).
    fold sl in Hres, Hel.
    assert (El : elements s1 !! "latency-result" = Some (Text NA U_none)).
    { rewrite Eel. unfold su, sd.
      rewrite runUploadTest_elements_other, runDownloadTest_elements_other by discriminate.
      rewrite Hel. apply run_start_elements; [exact Hready | cbn; tauto]. }
    split; [| split; [exact El |]].
    + rewrite Ers. unfold su, sd.
      rewrite runUploadTest_results_other, runDownloadTest_results_other by discriminate.
      rewrite Hres, run_start_results. apply lookup_empty.
    + rewrite El in Hl. inversion Hl. reflexivity.
  - intros Hfail.
    destruct (runDownloadTest_failed (net_download_start net) (net_download net) sl Hfail)
      as (Hel & Hres). fold sd in Hel, Hres.
    assert (El : elements s1 !! "download-result" = Some (Text NA U_none)).
    { rewrite Eel. unfold su.
      rewrite runUploadTest_elements_other by discriminate.
      rewrite Hel. unfold sl. rewrite runLatencyTest_elements_other by discriminate.
      apply run_start_elements; [exact Hready | cbn; tauto]. }
    split; [| split; [exact El |]].
    + rewrite Ers. unfold su.
      rewrite runUploadTest_results_other by discriminate.
      rewrite Hres. unfold sl. rewrite runLatencyTest_results_other by discriminate.
      rewrite run_start_results. apply lookup_empty.
    + rewrite El in Hd. inversion Hd. reflexivity.
  - intros Hfail.
    destruct (runUploadTest_failed (net_upload_start net) (net_upload net) sd Hfail)
      as (Hel & Hres). fold su in Hel, Hres.
    assert (El : elements s1 !! "upload-result" = Some (Text NA U_none)).
    { rewrite Eel, Hel. unfold sd, sl.
      rewrite runDownloadTest_elements_other, runLatencyTest_elements_other by discriminate.
      apply run_start_elements; [exact Hready | cbn; tauto]. }
    split; [| split; [exact El |]].
    + rewrite Ers, Hres. unfold sd, sl.
      rewrite runDownloadTest_results_other, runLatencyTest_results_other by discriminate.
      rewrite run_start_results. apply lookup_empty.
    + rewrite El in Hu. inversion Hu. reflexivity.
Qed.

Lemma fresh_page_ready : page_ready fresh_page.
Proof.
  intros id Hin. cbn in Hin.
  destruct Hin as [<- | [<- | [<- | [<- | [<- | []]]]]]; vm_compute; eauto.
Qed.

(** On a fresh page, with every latency probe refused. *)
Lemma failed_subtest_fields_witness :
  page_ready fresh_page
  /\ Spec.successful_rtts (net_trips net_no_latency) = []
  /\ results (runAllTests net_no_latency fresh_page) !! "latency" = None
  /\ exists fr,
       read_finalResults (runAllTests net_no_latency fresh_page) = Some fr
       /\ latencyMs fr = zero.
Proof.
  split; [exact fresh_page_ready |]. split; [reflexivity |].
  destruct (failed_subtest_fields net_no_latency fresh_page fresh_page_ready)
    as (fr & n & m & _ & Hfr & _ & _ & _ & _ & _ & Hlat & _).
  destruct (Hlat eq_refl) as (Hres & _ & Hzero).
  split; [exact Hres |]. exists fr. split; [exact Hfr | exact Hzero].
Defined.

(** C7 as stated fails: with every latency probe refused, the latency is
    unset in the results object, but the record submitted for persistence
    holds the finite number [0] as its latency. *)
Lemma failed_subtest_counterexample :
  let s1 := runAllTests net_no_latency fresh_page in
  let s2 := signaling_catch s1 in
  Spec.successful_rtts (net_trips net_no_latency) = []
  /\ results s2 !! "latency" = None
  /\ exists fr,
       last (requests s2) = Some (POST_save_result fr)
       /\ latencyMs fr = zero
       /\ is_finite (latencyMs fr) = true.
Proof.
  cbv zeta. split; [reflexivity |]. split; [vm_compute; reflexivity |].
  eexists. split; [vm_compute; reflexivity |]. split; reflexivity.
Qed.

Lemma save_posts_app l1 l2 : save_posts (l1 ++ l2) = save_posts l1 ++ save_posts l2.
Proof. unfold save_posts. apply flat_map_app. Qed.

Lemma save_posts_latency (f : nat -> number) idx :
  save_posts (map (fun i => GET_latency (f i)) idx) = [].
Proof. induction idx as [| i idx IH]; [reflexivity | exact IH]. Qed.

(** ** Finalization

    The three sequential sub-tests leave the button, the history
    and the pending saves alone. *)
Lemma runLatencyTest_frame trips s :
  startBtn_disabled (runLatencyTest trips s) = startBtn_disabled s
  /\ history (runLatencyTest trips s) = history s
  /\ pending_saves (runLatencyTest trips s) = pending_saves s.
Proof.
  destruct (runLatencyTest_cases trips s) as [-> | [avg ->]]; [auto |].
  cbn [startBtn_disabled history pending_saves updateStatus set_status].
  rewrite disabled_updateResult, history_updateResult, pending_updateResult. auto.
Qed.

Lemma runDownloadTest_frame start reply s :
  startBtn_disabled (runDownloadTest start reply s) = startBtn_disabled s
  /\ history (runDownloadTest start reply s) = history s
  /\ pending_saves (runDownloadTest start reply s) = pending_saves s.
Proof.
  unfold runDownloadTest. cbn.
  destruct reply as [| | | bytes t_end]; auto.
  destruct (bytes =? 0); [auto |]. cbn.
  rewrite disabled_updateResult, history_updateResult, pending_updateResult. auto.
Qed.

Lemma runUploadTest_frame start reply s :
  startBtn_disabled (runUploadTest start reply s) = startBtn_disabled s
  /\ history (runUploadTest start reply s) = history s
  /\ pending_saves (runUploadTest start reply s) = pending_saves s.
Proof.
  unfold runUploadTest. cbn.
  destruct reply as [| | t_end]; auto. cbn.
  rewrite disabled_updateResult, history_updateResult, pending_updateResult. auto.
Qed.

Lemma runAllTests_frame net s :
  startBtn_disabled (runAllTests net s) = true
  /\ history (runAllTests net s) = history s
  /\ pending_saves (runAllTests net s) = pending_saves s.
Proof.
  rewrite runAllTests_unfold.
  cbn [startBtn_disabled history pending_saves runWebRTCTest set_session updateStatus set_status].
  destruct (runUploadTest_frame (net_upload_start net) (net_upload net)
              (runDownloadTest (net_download_start net) (net_download net)
                 (runLatencyTest (net_trips net) (run_start s)))) as (-> & -> & ->).
  destruct (runDownloadTest_frame (net_download_start net) (net_download net)
              (runLatencyTest (net_trips net) (run_start s))) as (-> & -> & ->).
  destruct (runLatencyTest_frame (net_trips net) (run_start s)) as (-> & -> & ->).
  rewrite run_start_disabled, run_start_history, run_start_pending. auto.
Qed.

(** What the promise chain of one save does. *)
Lemma save_settled_effect reply clock fr s :
  let s' := save_settled reply clock fr s in
  requests s' = requests s
  /\ pending_saves s' = pending_saves s
  /\ results s' = results s
  /\ startBtn_disabled s' = startBtn_disabled s && negb (any_measured s)
  /\ (startBtn_disabled s && any_measured s = true ->
      exists item, history s' = take MAX_HISTORY_ITEMS (item :: history s))
  /\ (startBtn_disabled s && any_measured s = false -> history s' = history s).
Proof.
  cbv zeta. unfold save_settled.
  set (s0 := match reply with
             | SaveData (Some id) => if String.eqb id "" then s else set_share_url (ShareLink id) s
             | SaveData None => s
             | _ => set_share_url ShareFailed s
             end).
  assert (E : requests s0 = requests s /\ pending_saves s0 = pending_saves s
              /\ results s0 = results s /\ startBtn_disabled s0 = startBtn_disabled s
              /\ history s0 = history s /\ any_measured s0 = any_measured s).
  { unfold s0. destruct reply as [| | | [id |]]; try (repeat split; reflexivity).
    destruct (String.eqb id ""); repeat split; reflexivity. }
  destruct E as (E1 & E2 & E3 & E4 & E5 & E6).
  fold (any_measured s0). rewrite E4, E6.
  destruct (startBtn_disabled s) eqn:Hd; cbn [andb].
  - destruct (any_measured s) eqn:Hm; cbn [negb].
    + cbn [requests pending_saves results startBtn_disabled history set_disabled saveHistory set_history].
      repeat split; auto; try discriminate.
      intros _. eexists. rewrite E5.
      destruct (Nat.ltb MAX_HISTORY_ITEMS _) eqn:El; [reflexivity |].
      apply Nat.ltb_ge in El. symmetry. apply firstn_all2. exact El.
    + repeat split; auto; discriminate.
  - repeat split; auto; discriminate.
Qed.

Lemma page_ready_elements s s' :
  elements s' = elements s -> page_ready s -> page_ready s'.
Proof. intros E H id Hin. rewrite E. apply H. exact Hin. Qed.

Lemma page_ready_updateResult id v u s : page_ready s -> page_ready (updateResult id v u s).
Proof. intros H id' Hin. apply elements_updateResult_is_Some, H, Hin. Qed.

Lemma any_measured_results s s' :
  (forall k, k <> "jitter"%string -> k <> "packetLoss"%string ->
             results s' !! k = results s !! k) ->
  any_measured s' = any_measured s.
Proof.
  intros H. unfold any_measured, prop_truthy. rewrite !H by discriminate. reflexivity.
Qed.

(** One finalization of a page whose result elements exist: one more
    request to [/save-result] and one more pending save. *)
Lemma finalizeTest_finalizing s0 s frs :
  finalizing s0 s frs -> exists fr, finalizing s0 (finalizeTest true s) (frs ++ [fr]).
Proof.
  intros (Hready & Hd & Hh & Ha & Hp & Hq).
  destruct (read_finalResults_ready s Hready) as (d & u & l & j & p & _ & _ & _ & _ & _ & Hfr).
  eexists. rewrite (finalizeTest_posts _ _ Hfr).
  split; [exact Hready |]. split; [exact Hd |]. split; [exact Hh |]. split; [exact Ha |].
  split.
  - cbn [pending_saves set_pending_saves]. rewrite Hp. reflexivity.
  - cbn [requests set_pending_saves fetch set_requests set_share_url].
    rewrite save_posts_app, Hq. reflexivity.
Qed.

Lemma finalizing_same s0 s s' frs :
  elements s' = elements s -> startBtn_disabled s' = startBtn_disabled s ->
  history s' = history s -> results s' = results s ->
  pending_saves s' = pending_saves s -> requests s' = requests s ->
  finalizing s0 s frs -> finalizing s0 s' frs.
Proof.
  intros He Hd Hh Hr Hp Hq (Hready & Hd0 & Hh0 & Ha & Hp0 & Hq0).
  split; [apply (page_ready_elements s); assumption |].
  split; [congruence |]. split; [congruence |].
  split; [rewrite <- Ha; unfold any_measured, prop_truthy; rewrite Hr; reflexivity |].
  split; congruence.
Qed.

Lemma calculateJitterLoss_finalizing s0 s frs rtts D :
  finalizing s0 s frs -> exists fr, finalizing s0 (calculateJitterLoss rtts D s) (frs ++ [fr]).
Proof.
  intros (Hready & Hd & Hh & Ha & Hp & Hq).
  unfold calculateJitterLoss. apply finalizeTest_finalizing.
  split; [| split; [| split; [| split; [| split]]]].
  - intros id Hin. cbn [elements updateStatus set_status].
    do 2 apply elements_updateResult_is_Some. cbn [elements set_results].
    apply Hready. exact Hin.
  - cbn [startBtn_disabled updateStatus set_status]. rewrite !disabled_updateResult. exact Hd.
  - cbn [history updateStatus set_status]. rewrite !history_updateResult. exact Hh.
  - rewrite <- Ha. apply any_measured_results. intros k K1 K2.
    cbn [results updateStatus set_status]. rewrite !results_updateResult.
    cbn [results set_results]. rewrite !lookup_insert_ne by congruence. reflexivity.
  - cbn [pending_saves updateStatus set_status]. rewrite !pending_updateResult. exact Hp.
  - cbn [requests updateStatus set_status]. rewrite !requests_updateResult. exact Hq.
Qed.

Lemma dc_onclose_finalizing s0 s frs :
  finalizing s0 s frs -> exists fr, finalizing s0 (dc_onclose s) (frs ++ [fr]).
Proof.
  intros H. unfold dc_onclose. apply finalizeTest_finalizing.
  destruct (_ <? _); apply (finalizing_same s0 s); try reflexivity; exact H.
Qed.

Lemma on_save_settled_head r c s fr rest :
  pending_saves s = fr :: rest ->
  on_save_settled 0 r c s = save_settled r c fr (set_pending_saves rest s).
Proof. intros H. unfold on_save_settled. rewrite H. reflexivity. Qed.

(** Two saves are pending and the button is still disabled: when both
    promise chains have run, nothing is pending, the two requests are all
    there is, and the history has grown by one entry at most. *)
Lemma settle_two (s : State) (fr1 fr2 : FinalResults) (r1 r2 : save_reply) (c1 c2 : string) :
  startBtn_disabled s = true -> history s = [] ->
  pending_saves s = [fr1; fr2] ->
  let s' := on_save_settled 0 r2 c2 (on_save_settled 0 r1 c1 s) in
  requests s' = requests s
  /\ pending_saves s' = []
  /\ length (history s') = (if any_measured s then 1%nat else 0%nat).
Proof.
  intros Hd Hh Hp. cbv zeta.
  rewrite (on_save_settled_head r1 c1 s fr1 [fr2] Hp).
  destruct (save_settled_effect r1 c1 fr1 (set_pending_saves [fr2] s))
    as (Hq3 & Hp3 & Hr3 & Hd3 & Hh3a & Hh3b).
  cbn [requests pending_saves results startBtn_disabled history set_pending_saves] in
    Hq3, Hp3, Hr3, Hd3, Hh3a, Hh3b.
  change (any_measured (set_pending_saves [fr2] s)) with (any_measured s) in Hd3, Hh3a, Hh3b.
  rewrite Hd, Hh in *. cbn [andb] in Hd3, Hh3a, Hh3b.
  generalize dependent (save_settled r1 c1 fr1 (set_pending_saves [fr2] s)).
  intros t Hq3 Hp3 Hr3 Hd3 Hh3a Hh3b.
  rewrite (on_save_settled_head r2 c2 t fr2 [] Hp3).
  destruct (save_settled_effect r2 c2 fr2 (set_pending_saves [] t))
    as (Hq4 & Hp4 & Hr4 & Hd4 & Hh4a & Hh4b).
  cbn [requests pending_saves results startBtn_disabled history set_pending_saves] in
    Hq4, Hp4, Hr4, Hd4, Hh4a, Hh4b.
  assert (Ha : any_measured (set_pending_saves [] t) = any_measured s).
  { unfold any_measured, prop_truthy. cbn [results set_pending_saves]. rewrite Hr3. reflexivity. }
  rewrite Ha, Hd3 in Hh4b.
  generalize dependent (save_settled r2 c2 fr2 (set_pending_saves [] t)).
  intros t' Hq4 Hp4 Hr4 Hd4 Hh4a Hh4b.
  split; [congruence |]. split; [exact Hp4 |].
  rewrite Hh4b by (destruct (any_measured s); reflexivity).
  destruct (any_measured s).
  - destruct (Hh3a eq_refl) as (item & ->). reflexivity.
  - rewrite (Hh3b eq_refl). reflexivity.
Qed.

(** C3.  A run that completes finalizes twice: [calculateJitterLoss] calls
    [finalizeTest] after closing the channel, and the close handler calls
    it again.  No record was submitted before; after the two calls two
    requests to [/save-result] have been issued, and two remain once both
    have settled: the record is submitted twice, not once.  The history is
    guarded by the button: it gains one entry when one of latency,
    download and upload was measured, and none otherwise. *)
Theorem finalize_twice_submits_twice (net : Network) (rtts : list number) (D : number)
    (r1 r2 : save_reply) (c1 c2 : string) :
  let s1 := runAllTests net fresh_page in
  let s2 := dc_onclose (calculateJitterLoss rtts D s1) in
  let s3 := on_save_settled 0 r2 c2 (on_save_settled 0 r1 c1 s2) in
  save_posts (requests s1) = []
  /\ length (save_posts (requests s2)) = 2%nat
  /\ length (save_posts (requests s3)) = 2%nat
  /\ pending_saves s3 = []
  /\ length (history s3) = (if any_measured s1 then 1%nat else 0%nat).
Proof.
  cbv zeta.
  pose proof (runAllTests_page_ready net fresh_page fresh_page_ready) as Hready1.
  destruct (runAllTests_frame net fresh_page) as (Hd1 & Hh1 & Hp1).
  destruct (runAllTests_requests net fresh_page) as (n & m & Hq1).
  assert (Hposts1 : save_posts (requests (runAllTests net fresh_page)) = []).
  { rewrite Hq1. change (requests fresh_page) with (@nil request).
    rewrite app_nil_l, save_posts_app, save_posts_latency. reflexivity. }
  change (history fresh_page) with (@nil HistoryItem) in Hh1.
  change (pending_saves fresh_page) with (@nil FinalResults) in Hp1.
  clear Hq1 n m.
  generalize dependent (runAllTests net fresh_page). intros s1 Hready1 Hd1 Hh1 Hp1 Hposts1.
  assert (H1 : finalizing s1 s1 []) by (repeat split; assumption).
  destruct (calculateJitterLoss_finalizing s1 s1 [] rtts D H1) as (fr1 & H2).
  destruct (dc_onclose_finalizing s1 _ _ H2) as (fr2 & H3).
  cbn [app] in H3.
  generalize dependent (dc_onclose (calculateJitterLoss rtts D s1)). intros s2 H3.
  destruct H3 as (Hready2 & Hd2 & Hh2 & Ha2 & Hp2 & Hq2).
  destruct (settle_two s2 fr1 fr2 r1 r2 c1 c2 Hd2 ltac:(congruence) Hp2) as (Hq3 & Hp3 & Hh3).
  split; [exact Hposts1 |]. split; [rewrite Hq2; reflexivity |].
  split; [rewrite Hq3, Hq2; reflexivity |]. split; [exact Hp3 |].
  rewrite Hh3, Ha2. reflexivity.
Qed.

(** ** The download handler *)

Lemma wrap64_id (z : Z) : in_int64 z -> wrap64 z = z.
Proof.
  unfold in_int64, int64_min, int64_max, wrap64. intros H.
  rewrite Z.mod_small; lia.
Qed.

Lemma requestedSizeMB_cases (f : Flags) (sizeParam : string) :
  let cap := Z.min (maxDownloadSize f) globalMaxDownloadSizeMB in
  let asked := match ParseInt sizeParam with
               | Some n => if n <=? 0 then 10 else n
               | None => 10
               end in
  download_requestedSizeMB f sizeParam = Z.min asked cap.
Proof.
  unfold download_requestedSizeMB, globalMaxDownloadSizeMB. cbv zeta.
  set (asked := match ParseInt sizeParam with Some n => _ | None => _ end).
  destruct (1024 <? asked) eqn:E1;
    [apply Z.ltb_lt in E1 | apply Z.ltb_ge in E1];
    match goal with |- (if ?c then _ else _) = _ => destruct c eqn:E2 end;
    [apply Z.ltb_lt in E2 | apply Z.ltb_ge in E2 | apply Z.ltb_lt in E2 | apply Z.ltb_ge in E2];
    lia.
Qed.

Lemma totalSize_of_requested (f : Flags) (sizeParam : string) :
  1 <= download_requestedSizeMB f sizeParam <= 1024 ->
  download_totalSize f sizeParam = download_requestedSizeMB f sizeParam * MB.
Proof.
  intros H. unfold download_totalSize, MB.
  rewrite (wrap64_id (download_requestedSizeMB f sizeParam * 1024))
    by (unfold in_int64, int64_min, int64_max; lia).
  rewrite wrap64_id by (unfold in_int64, int64_min, int64_max; lia).
  destruct (_ <? _) eqn:E; [apply Z.ltb_lt in E | ]; lia.
Qed.

Lemma totalSize_min (f : Flags) (sizeParam : string) :
  MB <= download_totalSize f sizeParam.
Proof.
  unfold download_totalSize, MB.
  destruct (_ <? _) eqn:E; [| apply Z.ltb_ge in E]; lia.
Qed.

(** The validation in [main] changes nothing for the handler, which
    applies the global maximum itself. *)
Lemma main_validate_same_size (f : Flags) (sizeParam : string) :
  download_totalSize (main_validate f) sizeParam = download_totalSize f sizeParam.
Proof.
  assert (E : download_requestedSizeMB (main_validate f) sizeParam
              = download_requestedSizeMB f sizeParam).
  { rewrite !requestedSizeMB_cases. unfold main_validate, globalMaxDownloadSizeMB.
    destruct (1024 <? maxDownloadSize f) eqn:E; [apply Z.ltb_lt in E | reflexivity].
    cbn [maxDownloadSize]. lia. }
  unfold download_totalSize. rewrite E. reflexivity.
Qed.

Lemma requestedSizeMB_range (f : Flags) (sizeParam : string) :
  1 <= maxDownloadSize f ->
  1 <= download_requestedSizeMB f sizeParam
    <= Z.min (maxDownloadSize f) globalMaxDownloadSizeMB.
Proof.
  intros Hmax. rewrite requestedSizeMB_cases. unfold globalMaxDownloadSizeMB.
  destruct (ParseInt sizeParam) as [n |]; [destruct (n <=? 0) eqn:E |];
    try apply Z.leb_gt in E; lia.
Qed.

(** A size within the limits is served as asked. *)
Lemma totalSize_in_range (f : Flags) (sizeParam : string) (n : Z) :
  1 <= maxDownloadSize f -> ParseInt sizeParam = Some n ->
  1 <= n <= Z.min (maxDownloadSize f) globalMaxDownloadSizeMB ->
  download_totalSize f sizeParam = n * MB.
Proof.
  intros Hmax Hn Hin.
  pose proof (requestedSizeMB_range f sizeParam Hmax) as Hrange.
  unfold globalMaxDownloadSizeMB in *.
  rewrite totalSize_of_requested by lia.
  rewrite requestedSizeMB_cases, Hn. unfold globalMaxDownloadSizeMB.
  replace (n <=? 0) with false by (symmetry; apply Z.leb_gt; lia).
  rewrite Z.min_l by lia. reflexivity.
Qed.

(** C4, as amended.  The size of the stream is never below 1 MB.  When
    the configured maximum is at least 1, with [cap] the smaller of the
    configured maximum and 1024: the size is at most [cap] MB; a missing,
    unparsable, zero or negative [size] yields [min(10, cap)] MB; a [size]
    above [cap] yields [cap] MB; a [size] from 1 to [cap] yields itself. *)
Theorem download_size_clamped (f : Flags) (sizeParam : string) :
  MB <= download_totalSize f sizeParam
  /\ (1 <= maxDownloadSize f ->
      let cap := Z.min (maxDownloadSize f) globalMaxDownloadSizeMB in
      download_totalSize f sizeParam <= cap * MB
      /\ ((ParseInt sizeParam = None \/ exists n, ParseInt sizeParam = Some n /\ n <= 0) ->
          download_totalSize f sizeParam = Z.min 10 cap * MB)
      /\ (forall n, ParseInt sizeParam = Some n -> cap < n ->
          download_totalSize f sizeParam = cap * MB)
      /\ (forall n, ParseInt sizeParam = Some n -> 1 <= n <= cap ->
          download_totalSize f sizeParam = n * MB)).
Proof.
  split; [apply totalSize_min |].
  intros Hmax cap.
  pose proof (requestedSizeMB_cases f sizeParam) as Hr. cbv zeta in Hr. fold cap in Hr.
  assert (Hcap : 1 <= cap <= 1024) by (unfold cap, globalMaxDownloadSizeMB; lia).
  pose proof (requestedSizeMB_range f sizeParam Hmax) as Hrange. fold cap in Hrange.
  rewrite totalSize_of_requested by lia.
  unfold MB. repeat split.
  - nia.
  - intros [Hnone | (n & Hn & Hle)]; rewrite Hr.
    + rewrite Hnone. reflexivity.
    + rewrite Hn. replace (n <=? 0) with true by (symmetry; apply Z.leb_le; lia). reflexivity.
  - intros n Hn Hgt. rewrite Hr, Hn.
    replace (n <=? 0) with false by (symmetry; apply Z.leb_gt; lia).
    rewrite Z.min_r by lia. reflexivity.
  - intros n Hn Hin. rewrite Hr, Hn.
    replace (n <=? 0) with false by (symmetry; apply Z.leb_gt; lia).
    rewrite Z.min_l by lia. reflexivity.
Qed.

(** With the default flags: 5000 MB asked, 100 MB served; nothing asked,
    10 MB served. *)
Lemma download_size_clamped_witness :
  1 <= maxDownloadSize default_flags
  /\ ParseInt "5000" = Some 5000
  /\ download_totalSize default_flags "5000" = 100 * MB
  /\ download_totalSize default_flags "" = 10 * MB.
Proof.
  destruct (download_size_clamped default_flags "5000") as (_ & H).
  destruct (download_size_clamped default_flags "") as (_ & H').
  specialize (H ltac:(vm_compute; discriminate)).
  specialize (H' ltac:(vm_compute; discriminate)).
  cbv zeta in H, H'.
  destruct H as (_ & _ & Hcap & _). destruct H' as (_ & Hdef & _).
  split; [vm_compute; discriminate |]. split; [reflexivity |]. split.
  - apply (Hcap 5000); [reflexivity | vm_compute; reflexivity].
  - apply Hdef. left. reflexivity.
Defined.

(** C4 as stated fails twice.  With [-maxsize 5] a request without [size]
    gets 5 MB, not the default 10 MB.  With [-maxsize 0] a request gets
    1 MB, which is above the cap of 0 MB. *)
Lemma download_size_counterexample :
  (ParseInt "" = None
   /\ download_totalSize (flags_of_max 5) "" = 5 * MB
   /\ download_totalSize (flags_of_max 5) "" <> 10 * MB)
  /\ (ParseInt "7" = Some 7
      /\ download_totalSize (flags_of_max 0) "7" = 1 * MB
      /\ ~ (download_totalSize (flags_of_max 0) "7"
            <= Z.min (maxDownloadSize (flags_of_max 0)) globalMaxDownloadSizeMB * MB)).
Proof.
  repeat split; try reflexivity; vm_compute; congruence.
Qed.

Lemma total_bytes_app ws1 ws2 : total_bytes (ws1 ++ ws2) = total_bytes ws1 + total_bytes ws2.
Proof. induction ws1 as [| p ws1 IH]; cbn; [reflexivity | ]. unfold total_bytes in *. cbn. lia. Qed.

Lemma fill_chunk_length n i : length (fill_chunk n i) = n.
Proof. revert i. induction n as [| n IH]; intros i; cbn; [reflexivity | ]. f_equal. apply IH. Qed.

Lemma make_chunk_length c : 0 <= c -> Z.of_nat (length (make_chunk c)) = c.
Proof. intros. unfold make_chunk. rewrite fill_chunk_length. lia. Qed.

Lemma Write_alive w p : Alive w = None ->
  Write w p = ({| Header := Header w; Writes := Writes w ++ [p]; Flushes := Flushes w;
                  is_Flusher := is_Flusher w; Alive := None |}, true).
Proof. intros H. unfold Write. rewrite H. reflexivity. Qed.

Lemma Flush_Writes w : Writes (Flush w) = Writes w.
Proof. unfold Flush. destruct (is_Flusher w); reflexivity. Qed.
Lemma Flush_Alive w : Alive (Flush w) = Alive w.
Proof. unfold Flush. destruct (is_Flusher w); reflexivity. Qed.
Lemma Flush_Header w : Header (Flush w) = Header w.
Proof. unfold Flush. destruct (is_Flusher w); reflexivity. Qed.

Lemma ceil_div_last (r c : Z) : 0 < r -> r < c -> ceil_div r c = 1.
Proof.
  intros. unfold ceil_div. replace (r + c - 1) with ((r - 1) + 1 * c) by lia.
  rewrite Z.div_add by lia. rewrite Z.div_small by lia. reflexivity.
Qed.

Lemma ceil_div_step (r c : Z) : 0 < c -> c <= r -> ceil_div r c = 1 + ceil_div (r - c) c.
Proof.
  intros. unfold ceil_div. replace (r + c - 1) with ((r - c + c - 1) + 1 * c) by lia.
  rewrite Z.div_add by lia. lia.
Qed.

Lemma ceil_div_0 (c : Z) : 0 < c -> ceil_div 0 c = 0.
Proof. intros. unfold ceil_div. apply Z.div_small. lia. Qed.

(** The loop, when no write fails. *)
Lemma stream_all_written (chunk : list Z) (chunkSize : positive) (totalSize : Z)
    (w : ResponseWriter) (sentBytes : Z) :
  Alive w = None -> Z.pos chunkSize <= Z.of_nat (length chunk) -> sentBytes <= totalSize ->
  exists ws w',
    stream chunk chunkSize totalSize w sentBytes = (w', totalSize, Finished)
    /\ Writes w' = Writes w ++ ws
    /\ Header w' = Header w
    /\ Z.of_nat (length ws) = ceil_div (totalSize - sentBytes) (Z.pos chunkSize)
    /\ total_bytes ws = totalSize - sentBytes
    /\ Forall (fun p => 0 < Z.of_nat (length p) <= Z.pos chunkSize) ws.
Proof.
  funelim (stream chunk chunkSize totalSize w sentBytes); intros Hal Hchunk Hle.
  - (* sentBytes >= totalSize *)
    exists [], w. assert (sentBytes = totalSize) by lia. subst.
    rewrite app_nil_r, Z.sub_diag, ceil_div_0 by lia. repeat split; auto.
  - (* one more chunk *)
    rewrite Write_alive in Heq by assumption. inversion Heq; subst w'; clear Heq.
    set (b := if totalSize - sentBytes <? Z.pos chunkSize
              then totalSize - sentBytes else Z.pos chunkSize) in *.
    assert (Hb : 0 < b <= Z.pos chunkSize /\ b <= totalSize - sentBytes).
    { unfold b. destruct (_ <? _) eqn:E; [apply Z.ltb_lt in E | apply Z.ltb_ge in E]; lia. }
    destruct H as (ws & w' & Hs & Hw & Hh & Hn & Ht & Hf).
    { rewrite Flush_Alive. reflexivity. }
    { assumption. }
    { lia. }
    exists (firstn (Z.to_nat b) chunk :: ws), w'.
    assert (Hlen : Z.of_nat (length (firstn (Z.to_nat b) chunk)) = b).
    { rewrite length_firstn. lia. }
    repeat split.
    + exact Hs.
    + rewrite Hw, Flush_Writes. cbn [Writes]. rewrite <- app_assoc. reflexivity.
    + rewrite Hh, Flush_Header. reflexivity.
    + cbn [length]. rewrite Nat2Z.inj_succ, Hn.
      unfold b. destruct (_ <? _) eqn:E; [apply Z.ltb_lt in E | apply Z.ltb_ge in E].
      * replace (totalSize - (sentBytes + (totalSize - sentBytes))) with 0 by lia.
        rewrite ceil_div_0, ceil_div_last by lia. reflexivity.
      * rewrite (ceil_div_step (totalSize - sentBytes)) by lia.
        replace (totalSize - (sentBytes + Z.pos chunkSize))
          with (totalSize - sentBytes - Z.pos chunkSize) by lia. lia.
    + unfold total_bytes in *. cbn [fold_right]. rewrite Ht, Hlen. lia.
    + constructor; [rewrite Hlen; lia | exact Hf].
  - (* a write failed: excluded *)
    rewrite Write_alive in Heq by assumption. discriminate.
Qed.

Lemma Header_Set_Writes w k v : Writes (Header_Set w k v) = Writes w.
Proof. reflexivity. Qed.
Lemma Header_Set_Alive w k v : Alive (Header_Set w k v) = Alive w.
Proof. reflexivity. Qed.

Lemma download_chunkSize_pos f : 0 < download_chunkSize f.
Proof.
  unfold download_chunkSize. destruct (_ <=? 0) eqn:E; [| apply Z.leb_gt in E]; lia.
Qed.

(** C5.  When every write succeeds, the handler performs [ceil(T / C)]
    writes, each of at least one and at most [C] bytes, whose lengths sum
    to [T]; [T] is the effective size and [C] the chunk size.  With a chunk
    of 1 MB and 10 MB requested these are 10 writes and [10 * 1024 * 1024]
    bytes. *)
Theorem download_chunk_writes (f : Flags) (r : Request) (w : ResponseWriter) :
  Alive w = None ->
  let T := download_totalSize f (Query_Get (Query r) "size") in
  let C := download_chunkSize f in
  exists ws,
    Writes (fst (downloadHandler f r w)) = Writes w ++ ws
    /\ 0 < C
    /\ Z.of_nat (length ws) = ceil_div T C
    /\ total_bytes ws = T
    /\ Forall (fun p => 0 < Z.of_nat (length p) <= C) ws
    /\ (downloadChunkSize f = 1024 * 1024 -> 10 <= maxDownloadSize f ->
        Query_Get (Query r) "size" = "10"%string ->
        length ws = 10%nat /\ total_bytes ws = 10 * 1024 * 1024).
Proof.
  intros Hal T C.
  pose proof (download_chunkSize_pos f) as HC. fold C in HC.
  pose proof (totalSize_min f (Query_Get (Query r) "size")) as HT. fold T in HT. unfold MB in HT.
  destruct (stream_all_written (make_chunk C) (Z.to_pos C) T
              (Header_Set (Header_Set w "Content-Type" "application/octet-stream")
                 "Content-Length" (FormatInt T)) 0)
    as (ws & w' & Hs & Hw & _ & Hn & Ht & Hf).
  { reflexivity || exact Hal. }
  { rewrite Z2Pos.id, make_chunk_length by lia. lia. }
  { lia. }
  rewrite Z2Pos.id in Hn, Hf by lia. rewrite Z.sub_0_r in Hn, Ht.
  exists ws. unfold downloadHandler. fold T. fold C. rewrite Hs. cbn [fst].
  split; [exact Hw |]. split; [exact HC |]. split; [exact Hn |].
  split; [exact Ht |]. split; [exact Hf |].
  intros Hchunk Hmax Hsize.
  assert (ET : T = 10 * 1024 * 1024).
  { unfold T. rewrite Hsize.
    rewrite (totalSize_in_range f "10" 10); [reflexivity | lia | reflexivity |].
    unfold globalMaxDownloadSizeMB. lia. }
  assert (EC : C = 1024 * 1024).
  { unfold C, download_chunkSize. rewrite Hchunk. reflexivity. }
  rewrite ET, EC in Hn. rewrite ET in Ht. split; [| exact Ht].
  change (ceil_div (10 * 1024 * 1024) (1024 * 1024)) with 10 in Hn. lia.
Qed.

(** The default flags, 10 MB requested, a client that stays connected. *)
Lemma download_chunk_writes_witness :
  Alive idle_writer = None
  /\ exists ws,
       Writes (fst (downloadHandler default_flags request_size10 idle_writer)) = ws
       /\ length ws = 10%nat
       /\ total_bytes ws = 10 * 1024 * 1024.
Proof.
  split; [reflexivity |].
  destruct (download_chunk_writes default_flags request_size10 idle_writer eq_refl)
    as (ws & Hw & _ & _ & _ & _ & Hex).
  exists ws. split; [exact Hw |].
  apply Hex; [reflexivity | vm_compute; discriminate | reflexivity].
Defined.

(** ** The echo channel *)

Lemma echo_all_open (msgs : list DataChannelMessage) : forall dc : DataChannel,
  ReadyOpen dc = true -> Sent (echo_all msgs dc) = Sent dc ++ map Data msgs.
Proof.
  induction msgs as [| m msgs IH]; intros dc Hopen; cbn [echo_all fold_left map].
  - rewrite app_nil_r. reflexivity.
  - unfold OnMessage, Send. rewrite Hopen. cbn [fst].
    fold (echo_all msgs {| Label := Label dc; ReadyOpen := true; Sent := Sent dc ++ [Data m] |}).
    rewrite IH by reflexivity. cbn [Sent]. rewrite <- app_assoc. reflexivity.
Qed.

(** C9.  The callback hands to the transport the bytes of the message it
    received and nothing else: exactly those bytes, once, when the channel
    is open, and nothing (with a logged error) when it is not.  Over a
    sequence of messages an open channel has sent their payloads, one by
    one and in order. *)
Theorem echo_exact_bytes (dc : DataChannel) (msg : DataChannelMessage)
    (msgs : list DataChannelMessage) :
  Sent (fst (OnMessage dc msg))
    = Sent dc ++ (if ReadyOpen dc then [Data msg] else [])
  /\ (ReadyOpen dc = true ->
      Sent (fst (OnMessage dc msg)) = Sent dc ++ [Data msg]
      /\ snd (OnMessage dc msg) = []
      /\ Sent (echo_all msgs dc) = Sent dc ++ map Data msgs)
  /\ (ReadyOpen dc = false -> snd (OnMessage dc msg) = [LogEchoError]).
Proof.
  split; [| split].
  - unfold OnMessage, Send. destruct (ReadyOpen dc); cbn [fst Sent].
    + reflexivity.
    + rewrite app_nil_r. reflexivity.
  - intros Hopen. split; [| split].
    + unfold OnMessage, Send. rewrite Hopen. reflexivity.
    + unfold OnMessage, Send. rewrite Hopen. reflexivity.
    + apply echo_all_open. exact Hopen.
  - intros Hclosed. unfold OnMessage, Send. rewrite Hclosed. reflexivity.
Qed.

(** The two bytes of ["{}"], received as text. *)
Lemma echo_exact_bytes_witness :
  ReadyOpen open_channel = true
  /\ Sent (fst (OnMessage open_channel {| IsString := true; Data := [123; 125] |}))
     = [[123; 125]].
Proof.
  split; [reflexivity |].
  destruct (echo_exact_bytes open_channel {| IsString := true; Data := [123; 125] |} [])
    as (_ & Hopen & _).
  destruct (Hopen eq_refl) as (Hsent & _). exact Hsent.
Defined.

(** ** The result store *)

Lemma dec_enc (x : number) :
  Wire.dec_number (Wire.tag x) (Wire.sgn x) (Wire.man x) (Wire.exn x) = Some x.
Proof. destruct x as [[] | [] | | [] m e]; reflexivity. Qed.

Lemma Wire_round_trip : json_round_trip Wire.Marshal Wire.Unmarshal.
Proof.
  intros r data H. unfold Wire.Marshal in H.
  destruct (forallb _ _); [| discriminate]. inversion H; subst data; clear H.
  exists r. destruct r as [ts d u l j p]. cbn. rewrite !dec_enc. split; reflexivity.
Qed.

Lemma measurements_with_Timestamp t r : measurements (with_Timestamp t r) = measurements r.
Proof. reflexivity. Qed.

Lemma with_Timestamp_same_measurements t r1 r2 :
  measurements r1 = measurements r2 -> with_Timestamp t r1 = with_Timestamp t r2.
Proof.
  destruct r1, r2. unfold measurements, with_Timestamp. cbn. intros H. inversion H. reflexivity.
Qed.

Lemma TrimPrefix_results (id : string) : TrimPrefix ("/results/" ++ id) "/results/" = id.
Proof. reflexivity. Qed.

Lemma Save_ok Marshal s id now result s' id' :
  Save Marshal s id now result = (s', (id', None)) ->
  exists data, Marshal (with_Timestamp now result) = inl data
               /\ id' = id /\ db_closed s' = false /\ db s' !! id = Some data.
Proof.
  unfold Save, db_Update_Set. intros H.
  destruct (Marshal (with_Timestamp now result)) as [data | err]; [| discriminate].
  destruct (db_closed s); [discriminate |].
  inversion H; subst. exists data. cbn. rewrite lookup_insert_eq. auto.
Qed.

(** Saving under another identifier leaves an entry alone. *)
Lemma Save_other Marshal s id now result id0 :
  id <> id0 ->
  db (fst (Save Marshal s id now result)) !! id0 = db s !! id0
  /\ db_closed (fst (Save Marshal s id now result)) = db_closed s.
Proof.
  intros Hne. unfold Save, db_Update_Set.
  destruct (Marshal (with_Timestamp now result)) as [data | err]; [| auto].
  destruct (db_closed s) eqn:E; cbn; [auto |].
  rewrite lookup_insert_ne by exact Hne. auto.
Qed.

Lemma save_all_other Marshal later : forall s id0,
  Forall (fun x => fst (fst x) <> id0) later ->
  db (save_all Marshal later s) !! id0 = db s !! id0
  /\ db_closed (save_all Marshal later s) = db_closed s.
Proof.
  induction later as [| x later IH]; intros s id0 Hall; [auto |].
  inversion Hall as [| ? ? Hx Hrest]; subst.
  cbn [save_all fold_left].
  fold (save_all Marshal later (fst (Save Marshal s (fst (fst x)) (snd (fst x)) (snd x)))).
  destruct (IH (fst (Save Marshal s (fst (fst x)) (snd (fst x)) (snd x))) id0 Hrest) as (-> & ->).
  apply Save_other. exact Hx.
Qed.

(** C8.  Given the round-trip contract of [encoding/json]: when [Save]
    succeeds with an identifier, [Load] of that identifier, at once or
    after further records have been saved under other identifiers,
    succeeds with a record whose five measurement fields are those that
    were saved; and the same through the two handlers, [/save-result] then
    [/results/{id}]. *)
Theorem save_then_load Marshal Unmarshal Decode
    (s s' : BadgerStore) (id id' : string) (now : Time) (result : TestResult) :
  json_round_trip Marshal Unmarshal ->
  Save Marshal s id now result = (s', (id', None)) ->
  (exists loaded,
     Load Unmarshal s' id' = (loaded, None)
     /\ measurements loaded = measurements result)
  /\ (forall later, Forall (fun x => fst (fst x) <> id') later ->
      exists loaded,
        Load Unmarshal (save_all Marshal later s') id' = (loaded, None)
        /\ measurements loaded = measurements result)
  /\ (forall body, id <> ""%string -> Decode body zero_TestResult = (result, None) ->
      saveResultHandler Marshal Decode s id now (post_of body) = (s', OkSaved id)
      /\ exists loaded,
           loadResultHandler Unmarshal s' (get_result id) = OkResult loaded
           /\ measurements loaded = measurements result).
Proof.
  intros Hjson Hsave.
  destruct (Save_ok _ _ _ _ _ _ _ Hsave) as (data & Hm & -> & Hopen & Hget).
  destruct (Hjson _ _ Hm) as (loaded & Hun & Hmeas).
  rewrite measurements_with_Timestamp in Hmeas.
  assert (HL : Load Unmarshal s' id = (loaded, None)).
  { unfold Load, db_View_Get. rewrite Hopen, Hget. exact Hun. }
  split; [exists loaded; auto |]. split.
  { intros later Hlater. exists loaded. split; [| exact Hmeas].
    destruct (save_all_other Marshal later s' id Hlater) as (Hdb & Hcl).
    unfold Load, db_View_Get. rewrite Hcl, Hdb, Hopen, Hget. exact Hun. }
  intros body Hne Hdec. split.
  - unfold saveResultHandler, post_of. cbn [Method Body]. cbn [String.eqb negb].
    change (String.eqb "POST" "POST") with true. cbn [negb].
    rewrite Hdec, Hsave. reflexivity.
  - exists loaded. split; [| exact Hmeas].
    unfold loadResultHandler, get_result. cbn [Method Path].
    change (String.eqb "GET" "GET") with true. cbn [negb].
    rewrite TrimPrefix_results.
    destruct (String.eqb id "") eqn:E; [apply String.eqb_eq in E; contradiction |].
    rewrite HL. reflexivity.
Qed.

(** The sample record, saved into an empty store with the codec [Wire]. *)
Lemma save_then_load_witness :
  json_round_trip Wire.Marshal Wire.Unmarshal
  /\ exists s',
       Save Wire.Marshal NewBadgerStore "0b1e" 1700000000 sample_result
         = (s', ("0b1e"%string, None))
       /\ exists loaded,
            Load Wire.Unmarshal s' "0b1e" = (loaded, None)
            /\ measurements loaded = measurements sample_result.
Proof.
  split; [exact Wire_round_trip |].
  eexists. split; [reflexivity |].
  destruct (save_then_load Wire.Marshal Wire.Unmarshal Wire.Unmarshal
              NewBadgerStore _ "0b1e" "0b1e" 1700000000 sample_result
              Wire_round_trip eq_refl) as (Hload & _).
  exact Hload.
Defined.

(** C10.  [Save] does not depend on the timestamp of the record it is
    given: what it stores is the encoding of the record with the server's
    time as timestamp and the five measurement fields unchanged; two
    requests to [/save-result] whose bodies differ in the timestamp only
    leave the same store and get the same response. *)
Theorem save_stamps_server_time Marshal Decode
    (s : BadgerStore) (id : string) (now t : Time) (result : TestResult) :
  Save Marshal s id now (with_Timestamp t result) = Save Marshal s id now result
  /\ (forall data, Marshal (with_Timestamp now result) = inl data ->
      db_closed s = false ->
      db (fst (Save Marshal s id now result)) !! id = Some data
      /\ Timestamp (with_Timestamp now result) = now
      /\ measurements (with_Timestamp now result) = measurements result)
  /\ (forall r1 r2 x1 x2,
      Method r1 = "POST"%string -> Method r2 = "POST"%string ->
      Decode (Body r1) zero_TestResult = (x1, None) ->
      Decode (Body r2) zero_TestResult = (x2, None) ->
      measurements x1 = measurements x2 ->
      saveResultHandler Marshal Decode s id now r1
      = saveResultHandler Marshal Decode s id now r2).
Proof.
  split; [reflexivity |]. split.
  - intros data Hm Hopen. unfold Save, db_Update_Set. rewrite Hm, Hopen. cbn.
    rewrite lookup_insert_eq. auto.
  - intros r1 r2 x1 x2 H1 H2 D1 D2 Hmeas.
    unfold saveResultHandler. rewrite H1, H2, D1, D2.
    unfold Save. rewrite (with_Timestamp_same_measurements now x1 x2 Hmeas). reflexivity.
Qed.

(** The sample record with a timestamp of the client's choosing. *)
Lemma save_stamps_server_time_witness :
  Wire.Marshal (with_Timestamp 1700000000 sample_result)
    = inl (1700000000 :: concat (map (fun x => [Wire.tag x; Wire.sgn x; Wire.man x; Wire.exn x])
                                     (measurements sample_result)))
  /\ db_closed NewBadgerStore = false
  /\ db (fst (Save Wire.Marshal NewBadgerStore "0b1e" 1700000000
                (with_Timestamp 1 sample_result))) !! "0b1e"%string
     = Some (1700000000 :: concat (map (fun x => [Wire.tag x; Wire.sgn x; Wire.man x; Wire.exn x])
                                       (measurements sample_result))).
Proof.
  split; [reflexivity |]. split; [reflexivity |].
  destruct (save_stamps_server_time Wire.Marshal Wire.Unmarshal NewBadgerStore "0b1e"
              1700000000 1 sample_result) as (Hsame & Hstored & _).
  rewrite Hsame. apply Hstored; reflexivity.
Defined.

(* ===================================================================== *)
(** * Further properties of the server *)
(* ===================================================================== *)

(** ** Decimal integers: strconv.FormatInt and strconv.ParseInt *)

Lemma digit_of_pretty_N_char (d : N) :
  (d < 10)%N ->
  digit_of (pretty_N_char d) = Some (Z.of_N d)
  /\ Ascii.eqb (pretty_N_char d) "-" = false
  /\ Ascii.eqb (pretty_N_char d) "+" = false.
Proof.
  intros H.
  assert (E : (d = 0 \/ d = 1 \/ d = 2 \/ d = 3 \/ d = 4 \/ d = 5 \/ d = 6 \/ d = 7
               \/ d = 8 \/ d = 9)%N) by lia.
  repeat (destruct E as [-> | E]; [repeat split; reflexivity |]). subst d. repeat split; reflexivity.
Qed.

Lemma parse_digits_pretty_N_go (x : N) : forall s : string,
  parse_digits (pretty_N_go x s) 0 = parse_digits s (Z.of_N x).
Proof.
  induction x as [x IH] using (well_founded_induction N.lt_wf_0). intros s.
  destruct (N.eq_dec x 0%N) as [-> | Hx].
  - rewrite pretty_N_go_0. reflexivity.
  - rewrite pretty_N_go_step by lia.
    assert (Hd : (x `mod` 10 < 10)%N) by (apply N.mod_lt; lia).
    rewrite IH by (apply N.div_lt; lia).
    cbn [parse_digits].
    destruct (digit_of_pretty_N_char _ Hd) as (-> & _).
    f_equal. rewrite (N.div_mod x 10) at 3 by lia. lia.
Qed.

Lemma pretty_N_go_head (x : N) : forall s : string,
  (0 < x)%N -> exists d s', (d < 10)%N /\ pretty_N_go x s = String (pretty_N_char d) s'.
Proof.
  induction x as [x IH] using (well_founded_induction N.lt_wf_0). intros s Hx.
  rewrite pretty_N_go_step by lia.
  destruct (N.eq_dec (x `div` 10)%N 0%N) as [E | E].
  - rewrite E, pretty_N_go_0. exists (x `mod` 10)%N, s. split; [apply N.mod_lt; lia | reflexivity].
  - apply IH; [apply N.div_lt; lia | apply N.neq_0_lt_0; exact E].
Qed.

Lemma ParseUint_pretty_pos (p : positive) : ParseUint (pretty (Z.pos p)) = Some (Z.pos p)
  /\ exists d s', (d < 10)%N /\ pretty (Z.pos p) = String (pretty_N_char d) s'.
Proof.
  change (pretty (Z.pos p)) with (pretty_N_go (N.pos p) "").
  destruct (pretty_N_go_head (N.pos p) "" ltac:(lia)) as (d & s' & Hd & E).
  split; [| eauto].
  unfold ParseUint. rewrite E. rewrite <- E. rewrite parse_digits_pretty_N_go. reflexivity.
Qed.

Lemma ParseInt_FormatInt (n : Z) : in_int64 n -> ParseInt (FormatInt n) = Some n.
Proof.
  unfold in_int64, int64_min, int64_max, FormatInt. intros H.
  destruct n as [| p | p].
  - reflexivity.
  - destruct (ParseUint_pretty_pos p) as (Hu & d & s' & Hd & E).
    destruct (digit_of_pretty_N_char d Hd) as (_ & Hm & Hp).
    unfold ParseInt. rewrite E, Hm, Hp. cbn [orb]. rewrite <- E, Hu.
    replace (Z.pos p <? 2 ^ 63) with true by (symmetry; apply Z.ltb_lt; lia). reflexivity.
  - destruct (ParseUint_pretty_pos p) as (Hu & _).
    change (pretty (Z.neg p)) with (String "-" (pretty (Z.pos p))).
    unfold ParseInt. cbn [Ascii.eqb Bool.eqb orb]. rewrite Hu.
    replace (Z.pos p <=? 2 ^ 63) with true by (symmetry; apply Z.leb_le; lia). reflexivity.
Qed.

Lemma ParseInt_FormatInt_range (n : Z) : ~ in_int64 n -> ParseInt (FormatInt n) = None.
Proof.
  unfold in_int64, int64_min, int64_max, FormatInt. intros H.
  destruct n as [| p | p].
  - lia.
  - destruct (ParseUint_pretty_pos p) as (Hu & d & s' & Hd & E).
    destruct (digit_of_pretty_N_char d Hd) as (_ & Hm & Hp).
    unfold ParseInt. rewrite E, Hm, Hp. cbn [orb]. rewrite <- E, Hu.
    replace (Z.pos p <? 2 ^ 63) with false by (symmetry; apply Z.ltb_ge; lia). reflexivity.
  - destruct (ParseUint_pretty_pos p) as (Hu & _).
    change (pretty (Z.neg p)) with (String "-" (pretty (Z.pos p))).
    unfold ParseInt. cbn [Ascii.eqb Bool.eqb orb]. rewrite Hu.
    replace (Z.pos p <=? 2 ^ 63) with false by (symmetry; apply Z.leb_gt; lia). reflexivity.
Qed.

(** ** The chunk loop for any client *)

Lemma Write_true w p w' : Write w p = (w', true) ->
  Writes w' = Writes w ++ [p] /\ Header w' = Header w /\ Flushes w' = Flushes w
  /\ is_Flusher w' = is_Flusher w
  /\ match Alive w with
     | None => Alive w' = None
     | Some k => exists k', k = S k' /\ Alive w' = Some k'
     end.
Proof.
  unfold Write. destruct (Alive w) as [[| k] |]; intros H; inversion H; subst; cbn; eauto 10.
Qed.

Lemma Write_false w p w' : Write w p = (w', false) -> w' = w /\ Alive w = Some O.
Proof.
  unfold Write. destruct (Alive w) as [[| k] |]; intros H; inversion H; subst; auto.
Qed.

Lemma Flush_Flushes w :
  Flushes (Flush w) = (Flushes w + if is_Flusher w then 1 else 0)%nat.
Proof. unfold Flush. destruct (is_Flusher w); cbn; lia. Qed.

Lemma Flush_is_Flusher w : is_Flusher (Flush w) = is_Flusher w.
Proof. unfold Flush. destruct (is_Flusher w) eqn:E; [reflexivity | exact E]. Qed.

Lemma stream_spec (chunk : list Z) (chunkSize : positive) (totalSize : Z)
    (w : ResponseWriter) (sentBytes : Z) :
  Z.pos chunkSize <= Z.of_nat (length chunk) -> sentBytes <= totalSize ->
  exists ws w' sent' e,
    stream chunk chunkSize totalSize w sentBytes = (w', sent', e)
    /\ Writes w' = Writes w ++ ws
    /\ Header w' = Header w
    /\ is_Flusher w' = is_Flusher w
    /\ Flushes w' = (Flushes w + if is_Flusher w then length ws else 0)%nat
    /\ total_bytes ws = sent' - sentBytes
    /\ sent' <= totalSize
    /\ Forall (fun p => exists b, 0 < b <= Z.pos chunkSize /\ p = firstn (Z.to_nat b) chunk) ws
    /\ (if lasts w (ceil_div (totalSize - sentBytes) (Z.pos chunkSize))
        then e = Finished /\ sent' = totalSize
             /\ Z.of_nat (length ws) = ceil_div (totalSize - sentBytes) (Z.pos chunkSize)
        else e = WriteError /\ Alive w = Some (length ws) /\ Alive w' = Some O
             /\ Forall (fun p => p = firstn (Pos.to_nat chunkSize) chunk) ws
             /\ sent' = sentBytes + Z.of_nat (length ws) * Z.pos chunkSize).
Proof.
  funelim (stream chunk chunkSize totalSize w sentBytes); intros Hchunk Hle.
  - (* sentBytes >= totalSize *)
    exists [], w, sentBytes, Finished. assert (sentBytes = totalSize) by lia. subst.
    rewrite app_nil_r, Z.sub_diag, ceil_div_0 by lia.
    assert (Hl : lasts w 0 = true).
    { unfold lasts. destruct (Alive w); [apply Z.leb_le; lia | reflexivity]. }
    rewrite Hl. cbn [length]. repeat split; auto; destruct (is_Flusher w); lia.
  - (* one more chunk *)
    set (b := if totalSize - sentBytes <? Z.pos chunkSize
              then totalSize - sentBytes else Z.pos chunkSize) in *.
    assert (Hb : 0 < b <= Z.pos chunkSize /\ b <= totalSize - sentBytes).
    { unfold b. destruct (_ <? _) eqn:E; [apply Z.ltb_lt in E | apply Z.ltb_ge in E]; lia. }
    destruct (Write_true _ _ _ Heq) as (Hw1 & Hh1 & Hf1 & Hi1 & Ha1).
    destruct H as (ws & w2 & sent' & e & Hs & Hw & Hh & Hi & Hf & Ht & Hsent & Hp & Hcase);
      [assumption | lia |].
    exists (firstn (Z.to_nat b) chunk :: ws), w2, sent', e.
    assert (Hlen : Z.of_nat (length (firstn (Z.to_nat b) chunk)) = b).
    { rewrite length_firstn. lia. }
    split; [exact Hs |].
    split; [rewrite Hw, Flush_Writes, Hw1, <- app_assoc; reflexivity |].
    split; [rewrite Hh, Flush_Header, Hh1; reflexivity |].
    split; [rewrite Hi, Flush_is_Flusher, Hi1; reflexivity |].
    split.
    { rewrite Hf, Flush_Flushes, Flush_is_Flusher, Hi1, Hf1. cbn [length].
      destruct (is_Flusher w); lia. }
    split; [unfold total_bytes in *; cbn [fold_right]; rewrite Ht, Hlen; lia |].
    split; [exact Hsent |].
    split; [constructor; [exists b; split; [lia | reflexivity] | exact Hp] |].
    (* the number of writes *)
    assert (Hn : ceil_div (totalSize - sentBytes) (Z.pos chunkSize)
                 = 1 + ceil_div (totalSize - (sentBytes + b)) (Z.pos chunkSize)
                 /\ (b < Z.pos chunkSize ->
                     ceil_div (totalSize - (sentBytes + b)) (Z.pos chunkSize) = 0)).
    { unfold b. destruct (_ <? _) eqn:E; [apply Z.ltb_lt in E | apply Z.ltb_ge in E].
      - replace (totalSize - (sentBytes + (totalSize - sentBytes))) with 0 by lia.
        rewrite ceil_div_0, ceil_div_last by lia. split; [reflexivity | auto].
      - rewrite (ceil_div_step (totalSize - sentBytes)) by lia.
        replace (totalSize - (sentBytes + Z.pos chunkSize))
          with (totalSize - sentBytes - Z.pos chunkSize) by lia. split; [reflexivity | lia]. }
    destruct Hn as (Hn & Hlast).
    assert (Hnn : 0 <= ceil_div (totalSize - (sentBytes + b)) (Z.pos chunkSize)).
    { unfold ceil_div. apply Z.div_pos; lia. }
    rewrite Hn.
    assert (Hl : lasts w (1 + ceil_div (totalSize - (sentBytes + b)) (Z.pos chunkSize))
                 = lasts (Flush w') (ceil_div (totalSize - (sentBytes + b)) (Z.pos chunkSize))).
    { unfold lasts. rewrite Flush_Alive.
      destruct (Alive w) as [k |]; [destruct Ha1 as (k' & -> & ->) | rewrite Ha1; reflexivity].
      apply eq_true_iff_eq. rewrite !Z.leb_le. lia. }
    rewrite Hl. destruct (lasts (Flush w') _) eqn:El.
    + destruct Hcase as (-> & -> & Hk).
      split; [reflexivity |]. split; [reflexivity |]. cbn [length]. lia.
    + destruct Hcase as (-> & Hk & H0 & Hfull & ->).
      rewrite Flush_Alive in Hk.
      (* the chunk just written was a full one *)
      assert (Ebc : b = Z.pos chunkSize).
      { destruct (Z.eq_dec b (Z.pos chunkSize)) as [E | E]; [exact E | exfalso].
        rewrite Hlast in El by lia. unfold lasts in El.
        destruct (Alive (Flush w')); [apply Z.leb_gt in El; lia | discriminate]. }
      split; [reflexivity |]. split.
      { destruct (Alive w) as [k |]; [| rewrite Ha1 in Hk; discriminate].
        destruct Ha1 as (k' & -> & Ha1). rewrite Ha1 in Hk. inversion Hk. reflexivity. }
      split; [exact H0 |]. split.
      { constructor; [| exact Hfull]. rewrite Ebc. reflexivity. }
      cbn [length]. lia.
  - (* the write failed *)
    destruct (Write_false _ _ _ Heq) as (-> & Ha).
    exists [], w, sentBytes, WriteError.
    assert (Hl : lasts w (ceil_div (totalSize - sentBytes) (Z.pos chunkSize)) = false).
    { unfold lasts. rewrite Ha. apply Z.leb_gt.
      assert (1 <= ceil_div (totalSize - sentBytes) (Z.pos chunkSize)).
      { unfold ceil_div. apply Z.div_le_lower_bound; lia. }
      lia. }
    rewrite Hl, app_nil_r. cbn [length]. repeat split; auto; try lia.
    + destruct (is_Flusher w); lia.
    + cbn. lia.
Qed.

Lemma stream_handler (f : Flags) (r : Request) (w : ResponseWriter) :
  let T := download_totalSize f (Query_Get (Query r) "size") in
  let C := download_chunkSize f in
  let w0 := Header_Set (Header_Set w "Content-Type" "application/octet-stream")
              "Content-Length" (FormatInt T) in
  exists ws w' sent' e,
    stream (make_chunk C) (Z.to_pos C) T w0 0 = (w', sent', e)
    /\ downloadHandler f r w
       = (w', match e with
              | Finished => if verbose f then [LogStreamFinished sent'] else []
              | WriteError => [LogWriteError]
              end)
    /\ Writes w' = Writes w ++ ws
    /\ Header w' = Header w0
    /\ Flushes w' = (Flushes w + if is_Flusher w then length ws else 0)%nat
    /\ total_bytes ws = sent'
    /\ sent' <= T
    /\ Forall (fun p => exists b, 0 < b <= C /\ p = firstn (Z.to_nat b) (make_chunk C)) ws
    /\ (if lasts w (ceil_div T C)
        then e = Finished /\ sent' = T /\ Z.of_nat (length ws) = ceil_div T C
        else e = WriteError /\ Alive w = Some (length ws) /\ Alive w' = Some O
             /\ ws = repeat (make_chunk C) (length ws)
             /\ sent' = Z.of_nat (length ws) * C).
Proof.
  intros T C w0.
  pose proof (download_chunkSize_pos f) as HC. fold C in HC.
  pose proof (totalSize_min f (Query_Get (Query r) "size")) as HT. fold T in HT. unfold MB in HT.
  destruct (stream_spec (make_chunk C) (Z.to_pos C) T w0 0)
    as (ws & w' & sent' & e & Hs & Hw & Hh & Hi & Hf & Ht & Hsent & Hp & Hcase).
  { rewrite Z2Pos.id, make_chunk_length by lia. lia. }
  { lia. }
  rewrite Z2Pos.id in Hp, Hcase by lia. rewrite Z.sub_0_r in Ht, Hcase.
  exists ws, w', sent', e.
  split; [exact Hs |].
  split; [unfold downloadHandler; fold T; fold C; fold w0; rewrite Hs; destruct e; reflexivity |].
  split; [exact Hw |]. split; [exact Hh |]. split; [exact Hf |]. split; [exact Ht |].
  split; [exact Hsent |]. split; [exact Hp |].
  change (lasts w0 (ceil_div T C)) with (lasts w (ceil_div T C)) in Hcase.
  destruct (lasts w (ceil_div T C)); [exact Hcase |].
  destruct Hcase as (He & Ha & Ha' & Hfull & Hs').
  split; [exact He |]. split; [exact Ha |]. split; [exact Ha' |]. split; [| lia].
  assert (Efull : firstn (Pos.to_nat (Z.to_pos C)) (make_chunk C) = make_chunk C).
  { apply firstn_all2. unfold make_chunk. rewrite fill_chunk_length. lia. }
  rewrite Efull in Hfull. clear - Hfull.
  induction Hfull as [| p ws -> _ IH]; [reflexivity |].
  cbn [length repeat]. f_equal. exact IH.
Qed.

Lemma Header_Get_download (w : ResponseWriter) (v : string) :
  let w0 := Header_Set (Header_Set w "Content-Type" "application/octet-stream")
              "Content-Length" v in
  Query_Get (Header w0) "Content-Type" = "application/octet-stream"%string
  /\ Query_Get (Header w0) "Content-Length" = v.
Proof. split; reflexivity. Qed.

Lemma wrap64_range (z : Z) : in_int64 (wrap64 z).
Proof.
  unfold in_int64, int64_min, int64_max, wrap64.
  pose proof (Z.mod_pos_bound (z + 2 ^ 63) (2 ^ 64) ltac:(lia)). lia.
Qed.

Lemma download_totalSize_int64 (f : Flags) (sizeParam : string) :
  in_int64 (download_totalSize f sizeParam).
Proof.
  unfold download_totalSize.
  destruct (_ <? _); [unfold in_int64, int64_min, int64_max; lia | apply wrap64_range].
Qed.

(** X1.  The download handler announces what it streams: the response
    carries the content type [application/octet-stream] and a
    [Content-Length] that is the decimal rendering of the effective size,
    which [strconv.ParseInt] reads back; the bytes written never exceed
    that length, and they reach it exactly when the connection lasts for
    all [ceil(T / C)] writes. *)
Theorem download_content_length (f : Flags) (r : Request) (w : ResponseWriter) :
  let T := download_totalSize f (Query_Get (Query r) "size") in
  let w' := fst (downloadHandler f r w) in
  Header_Get w' "Content-Type" = "application/octet-stream"%string
  /\ Header_Get w' "Content-Length" = FormatInt T
  /\ ParseInt (Header_Get w' "Content-Length") = Some T
  /\ exists ws,
       Writes w' = Writes w ++ ws
       /\ total_bytes ws <= T
       /\ (total_bytes ws = T <-> lasts w (ceil_div T (download_chunkSize f)) = true).
Proof.
  intros T w'.
  destruct (stream_handler f r w)
    as (ws & w1 & sent' & e & _ & Hd & Hw & Hh & _ & Ht & Hsent & _ & Hcase).
  fold T in Hd, Hh, Hsent, Hcase.
  unfold w'. rewrite Hd. cbn [fst]. unfold Header_Get. rewrite Hh.
  destruct (Header_Get_download w (FormatInt T)) as (-> & ->).
  split; [reflexivity |]. split; [reflexivity |].
  split; [apply ParseInt_FormatInt, download_totalSize_int64 |].
  exists ws. split; [exact Hw |]. split; [lia |].
  destruct (lasts w _) eqn:El.
  - destruct Hcase as (_ & -> & _). split; auto.
  - destruct Hcase as (_ & Ha & _ & _ & Hs').
    split; [| discriminate]. intros E. exfalso.
    unfold lasts in El. rewrite Ha in El. apply Z.leb_gt in El.
    pose proof (download_chunkSize_pos f) as HC.
    assert (T <= Z.of_nat (length ws) * download_chunkSize f) by lia.
    assert (ceil_div T (download_chunkSize f) < Z.of_nat (length ws) + 1).
    { unfold ceil_div. apply Z.div_lt_upper_bound; [lia |]. nia. }
    lia.
Qed.

(** X2.  When the client goes away after [k] writes, with [k] below
    [ceil(T / C)]: the handler has written [k] full chunks and nothing
    else, fewer bytes than announced, it has flushed after each of them,
    and it stops at the failed write with the one log line of the error
    branch. *)
Theorem download_client_gone (f : Flags) (r : Request) (w : ResponseWriter) (k : nat) :
  let T := download_totalSize f (Query_Get (Query r) "size") in
  let C := download_chunkSize f in
  Alive w = Some k -> Z.of_nat k < ceil_div T C ->
  let '(w', log) := downloadHandler f r w in
  log = [LogWriteError]
  /\ Writes w' = Writes w ++ repeat (make_chunk C) k
  /\ total_bytes (repeat (make_chunk C) k) = Z.of_nat k * C
  /\ Z.of_nat k * C < T
  /\ Flushes w' = (Flushes w + if is_Flusher w then k else 0)%nat
  /\ Alive w' = Some O.
Proof.
  intros T C Ha Hk.
  destruct (stream_handler f r w)
    as (ws & w1 & sent' & e & _ & Hd & Hw & _ & Hf & Ht & Hsent & _ & Hcase).
  fold T in Hd, Hsent, Hcase. fold C in Hcase.
  assert (El : lasts w (ceil_div T C) = false).
  { unfold lasts. rewrite Ha. apply Z.leb_gt. exact Hk. }
  rewrite El in Hcase. destruct Hcase as (-> & Ha' & Ha1 & Hrep & Hs').
  rewrite Ha in Ha'. inversion Ha' as [Elen]. rewrite <- Elen in *.
  rewrite Hd. split; [reflexivity |]. split; [rewrite Hw, Hrep at 1; reflexivity |].
  split; [rewrite <- Hrep; lia |].
  pose proof (download_chunkSize_pos f) as HC. fold C in HC.
  split; [| split; [exact Hf | exact Ha1]].
  (* fewer than [ceil(T / C)] chunks do not make [T] bytes *)
  destruct (Z_lt_dec (Z.of_nat k * C) T) as [Hlt | Hge]; [exact Hlt | exfalso].
  assert (ceil_div T C < Z.of_nat k + 1).
  { unfold ceil_div. apply Z.div_lt_upper_bound; [lia |]. nia. }
  lia.
Qed.

(** With the default flags and 10 MB requested, a client that takes three
    writes. *)
Lemma download_client_gone_witness :
  let w := {| Header := []; Writes := []; Flushes := 0; is_Flusher := true; Alive := Some 3%nat |} in
  Alive w = Some 3%nat
  /\ Z.of_nat 3 < ceil_div (download_totalSize default_flags "10") (download_chunkSize default_flags)
  /\ snd (downloadHandler default_flags request_size10 w) = [LogWriteError]
  /\ length (Writes (fst (downloadHandler default_flags request_size10 w))) = 3%nat.
Proof.
  cbv zeta. split; [reflexivity |]. split; [vm_compute; reflexivity |].
  pose proof (download_client_gone default_flags request_size10
                {| Header := []; Writes := []; Flushes := 0; is_Flusher := true;
                   Alive := Some 3%nat |} 3 eq_refl ltac:(vm_compute; reflexivity)) as H.
  destruct (downloadHandler default_flags request_size10 _) as [w' log].
  destruct H as (Hlog & Hw & _). split; [exact Hlog |].
  cbn [fst]. rewrite Hw. reflexivity.
Defined.

Lemma fill_chunk_seq (n : nat) : forall i : Z,
  fill_chunk n i = map (fun j => (i + Z.of_nat j) mod 256) (seq 0 n).
Proof.
  induction n as [| n IH]; intros i; [reflexivity |].
  cbn [fill_chunk seq map]. f_equal; [f_equal; lia |].
  rewrite IH, <- seq_shift, map_map. apply map_ext. intros j. f_equal. lia.
Qed.

Lemma firstn_make_chunk (C b : Z) :
  0 <= b <= C ->
  firstn (Z.to_nat b) (make_chunk C) = map (fun j => Z.of_nat j mod 256) (seq 0 (Z.to_nat b)).
Proof.
  intros H. unfold make_chunk. rewrite fill_chunk_seq.
  rewrite firstn_map, take_seq. rewrite Nat.min_l by lia.
  apply map_ext. intros j. f_equal.
Qed.

(** X3.  Whatever the client does, every slice the download handler
    writes is a non-empty prefix of the chunk, whose byte at offset [j] is
    [j mod 256]: the payload restarts from 0 at every write.  A writer
    that can flush is flushed once per write, another one never. *)
Theorem download_payload_pattern (f : Flags) (r : Request) (w : ResponseWriter) :
  let w' := fst (downloadHandler f r w) in
  exists ws,
    Writes w' = Writes w ++ ws
    /\ Forall (fun p => p <> []
                        /\ Z.of_nat (length p) <= download_chunkSize f
                        /\ p = map (fun j => Z.of_nat j mod 256) (seq 0 (length p))) ws
    /\ Flushes w' = (Flushes w + if is_Flusher w then length ws else 0)%nat.
Proof.
  intros w'.
  destruct (stream_handler f r w)
    as (ws & w1 & sent' & e & _ & Hd & Hw & _ & Hf & _ & _ & Hp & _).
  unfold w'. rewrite Hd. cbn [fst]. exists ws.
  split; [exact Hw |]. split; [| exact Hf].
  eapply Forall_impl; [exact Hp |]. cbn beta. intros p (b & Hb & ->).
  rewrite firstn_make_chunk by lia.
  rewrite length_map, length_seq.
  split; [| split; [lia | reflexivity]].
  destruct (Z.to_nat b) eqn:E; [lia | discriminate].
Qed.

(** X4.  The validation step of [main] caps the configured maximum at the
    global maximum, and the download handler behaves the same with and
    without it: it applies the global maximum itself. *)
Theorem download_validation_redundant (f : Flags) (r : Request) (w : ResponseWriter) :
  downloadHandler (main_validate f) r w = downloadHandler f r w
  /\ maxDownloadSize (main_validate f) = Z.min (maxDownloadSize f) globalMaxDownloadSizeMB.
Proof.
  split.
  - unfold downloadHandler. rewrite main_validate_same_size.
    assert (E1 : download_chunkSize (main_validate f) = download_chunkSize f).
    { unfold download_chunkSize, main_validate. destruct (_ <? _); reflexivity. }
    assert (E2 : verbose (main_validate f) = verbose f).
    { unfold main_validate. destruct (_ <? _); reflexivity. }
    rewrite E1, E2. reflexivity.
  - unfold main_validate, globalMaxDownloadSizeMB.
    destruct (1024 <? maxDownloadSize f) eqn:E; [apply Z.ltb_lt in E | apply Z.ltb_ge in E];
      cbn [maxDownloadSize]; lia.
Qed.

(** X5.  A [size] given as a decimal integer [n], with a configured
    maximum of at least 1 and [cap] as in C4: from 1 to [2^63 - 1] the
    stream has [min(n, cap)] MB; zero, a negative number, and also a
    number from [2^63] on, which [strconv.ParseInt] refuses, give the
    default [min(10, cap)] MB and not the cap. *)
Theorem download_decimal_size (f : Flags) (n : Z) :
  1 <= maxDownloadSize f ->
  let cap := Z.min (maxDownloadSize f) globalMaxDownloadSizeMB in
  download_totalSize f (FormatInt n)
  = (if (1 <=? n) && (n <? 2 ^ 63) then Z.min n cap else Z.min 10 cap) * MB.
Proof.
  intros Hmax cap.
  pose proof (requestedSizeMB_range f (FormatInt n) Hmax) as Hrange. fold cap in Hrange.
  assert (Hcap : cap <= 1024) by (unfold cap, globalMaxDownloadSizeMB; lia).
  rewrite totalSize_of_requested by lia. f_equal.
  rewrite requestedSizeMB_cases. fold cap.
  destruct (Z_le_dec 1 n) as [H1 | H1].
  - replace (1 <=? n) with true by (symmetry; apply Z.leb_le; lia). cbn [andb].
    destruct (Z_lt_dec n (2 ^ 63)) as [H2 | H2].
    + replace (n <? 2 ^ 63) with true by (symmetry; apply Z.ltb_lt; lia).
      rewrite ParseInt_FormatInt by (unfold in_int64, int64_min, int64_max; lia).
      replace (n <=? 0) with false by (symmetry; apply Z.leb_gt; lia). reflexivity.
    + replace (n <? 2 ^ 63) with false by (symmetry; apply Z.ltb_ge; lia).
      rewrite ParseInt_FormatInt_range by (unfold in_int64, int64_min, int64_max; lia).
      reflexivity.
  - replace (1 <=? n) with false by (symmetry; apply Z.leb_gt; lia). cbn [andb].
    destruct (Z_le_dec int64_min n) as [H2 | H2].
    + rewrite ParseInt_FormatInt by (unfold in_int64, int64_min, int64_max in *; lia).
      replace (n <=? 0) with true by (symmetry; apply Z.leb_le; lia). reflexivity.
    + rewrite ParseInt_FormatInt_range by (unfold in_int64, int64_min, int64_max in *; lia).
      reflexivity.
Qed.

(** The default flags: [2^63] gives the default, [2^63 - 1] the cap. *)
Lemma download_decimal_size_witness :
  1 <= maxDownloadSize default_flags
  /\ download_totalSize default_flags (FormatInt (2 ^ 63)) = 10 * MB
  /\ download_totalSize default_flags (FormatInt (2 ^ 63 - 1)) = 100 * MB.
Proof.
  split; [vm_compute; discriminate |]. split.
  - apply (download_decimal_size default_flags (2 ^ 63)). vm_compute; discriminate.
  - apply (download_decimal_size default_flags (2 ^ 63 - 1)). vm_compute; discriminate.
Defined.

(** ** A size that is not a number *)

Lemma parse_digits_bad (pre : string) (c : ascii) (post : string) : forall acc : Z,
  digit_of c = None -> parse_digits (pre ++ String c post) acc = None.
Proof.
  induction pre as [| a pre IH]; intros acc Hc.
  - change (parse_digits (String c post) acc = None). cbn [parse_digits]. rewrite Hc. reflexivity.
  - change (parse_digits (String a (pre ++ String c post)) acc = None). cbn [parse_digits].
    destruct (digit_of a); [apply IH; exact Hc | reflexivity].
Qed.

Lemma ParseUint_bad (pre : string) (c : ascii) (post : string) :
  digit_of c = None -> ParseUint (pre ++ String c post) = None.
Proof.
  intros Hc. unfold ParseUint.
  pose proof (parse_digits_bad pre c post 0 Hc) as H.
  destruct (pre ++ String c post)%string; [reflexivity | exact H].
Qed.

(** X19.  A [size] that is not a decimal integer: when the parameter
    holds a character that is not a digit, a leading sign apart (as in
    [10MB], [10.5] or [1e3]), [strconv.ParseInt] fails and the stream has
    the size of a request without [size]; the digits in front of that
    character are not used. *)
Theorem download_malformed_size (f : Flags) (pre : string) (c : ascii) (post : string) :
  digit_of c = None ->
  (pre = ""%string -> c <> "+"%char /\ c <> "-"%char) ->
  ParseInt (pre ++ String c post) = None
  /\ download_totalSize f (pre ++ String c post) = download_totalSize f "".
Proof.
  intros Hc Hsign.
  assert (E : ParseInt (pre ++ String c post) = None).
  { destruct pre as [| a pre].
    - destruct (Hsign eq_refl) as (Hp & Hm).
      change (ParseInt (String c post) = None). unfold ParseInt.
      replace (Ascii.eqb c "-") with false by (symmetry; apply Ascii.eqb_neq; exact Hm).
      replace (Ascii.eqb c "+") with false by (symmetry; apply Ascii.eqb_neq; exact Hp).
      cbn [orb]. pose proof (ParseUint_bad "" c post Hc) as H.
      change ("" ++ String c post)%string with (String c post) in H.
      rewrite H. reflexivity.
    - change (ParseInt (String a (pre ++ String c post)) = None). unfold ParseInt.
      destruct (Ascii.eqb a "+" || Ascii.eqb a "-").
      + rewrite (ParseUint_bad pre c post Hc). reflexivity.
      + pose proof (ParseUint_bad (String a pre) c post Hc) as H.
        change (String a pre ++ String c post)%string
          with (String a (pre ++ String c post)) in H.
        rewrite H. reflexivity. }
  split; [exact E |].
  unfold download_totalSize, download_requestedSizeMB. rewrite E. reflexivity.
Qed.

(** [10MB] and [50MB] with the default flags: 10 MB each. *)
Lemma download_malformed_size_witness :
  digit_of "M" = None
  /\ ("10"%string = ""%string -> "M"%char <> "+"%char /\ "M"%char <> "-"%char)
  /\ download_totalSize default_flags "10MB" = download_totalSize default_flags ""
  /\ download_totalSize default_flags "50MB" = 10 * MB.
Proof.
  split; [reflexivity |]. split; [discriminate |].
  split.
  - apply (download_malformed_size default_flags "10" "M" "B"); [reflexivity | discriminate].
  - destruct (download_malformed_size default_flags "50" "M" "B") as (_ & H);
      [reflexivity | discriminate |].
    exact (eq_trans H eq_refl).
Defined.

(** ** Static files *)

Lemma ext_scan_suffix (ext : string) (base : string) :
  ext_scan ext = Some ext -> ext_scan (base ++ ext) = Some ext.
Proof.
  intros H. induction base as [| c base IH]; [exact H |].
  change (ext_scan (String c (base ++ ext)) = Some ext).
  cbn [ext_scan]. rewrite IH. reflexivity.
Qed.

Lemma TrimPrefix_slash (s : string) : TrimPrefix ("/" ++ s) "/" = s.
Proof. reflexivity. Qed.



(** ** The store: missing entries, a closed store, the frame of a save *)

(** X7.  An identifier under which nothing was saved: on a store filled by
    any sequence of saves under other identifiers, [Load] returns the zero
    record with the error [result not found for ID], and
    [/results/{id}] answers 404. *)
Theorem load_unknown_id Marshal Unmarshal
    (saved : list (string * Time * TestResult)) (id : string) :
  Forall (fun x => fst (fst x) <> id) saved ->
  let s := save_all Marshal saved NewBadgerStore in
  Load Unmarshal s id = (zero_TestResult, Some (ErrResultNotFound id))
  /\ (id <> ""%string -> loadResultHandler Unmarshal s (get_result id) = NotFound).
Proof.
  intros Hsaved s.
  destruct (save_all_other Marshal saved NewBadgerStore id Hsaved) as (Hdb & Hcl).
  fold s in Hdb, Hcl. cbn [db db_closed NewBadgerStore] in Hdb, Hcl.
  rewrite lookup_empty in Hdb.
  assert (HL : Load Unmarshal s id = (zero_TestResult, Some (ErrResultNotFound id))).
  { unfold Load, db_View_Get. rewrite Hcl, Hdb. reflexivity. }
  split; [exact HL |].
  intros Hne. unfold loadResultHandler, get_result. cbn [Method Path].
  change (String.eqb "GET" "GET") with true. cbn [negb].
  rewrite TrimPrefix_results.
  destruct (String.eqb id "") eqn:E; [apply String.eqb_eq in E; contradiction |].
  rewrite HL. reflexivity.
Qed.

(** One record saved, another identifier asked for. *)
Lemma load_unknown_id_witness :
  Forall (fun x : string * Time * TestResult => fst (fst x) <> "ffff"%string)
    [("0b1e"%string, 1700000000, sample_result)]
  /\ "ffff"%string <> ""%string
  /\ loadResultHandler Wire.Unmarshal
       (save_all Wire.Marshal [("0b1e"%string, 1700000000, sample_result)] NewBadgerStore)
       (get_result "ffff") = NotFound.
Proof.
  assert (H : Forall (fun x : string * Time * TestResult => fst (fst x) <> "ffff"%string)
                [("0b1e"%string, 1700000000, sample_result)]).
  { constructor; [discriminate | constructor]. }
  split; [exact H |]. split; [discriminate |].
  destruct (load_unknown_id Wire.Marshal Wire.Unmarshal _ "ffff" H) as (_ & Hh).
  apply Hh. discriminate.
Defined.

(** X8.  After [Close] the store keeps its content and refuses every
    operation: [Save] returns an error and leaves the store as it is,
    [Load] returns the zero record and an error, and the two handlers
    answer 500; closing again changes nothing. *)
Theorem closed_store_refuses Marshal Unmarshal Decode
    (s : BadgerStore) (id : string) (now : Time) :
  let c := Close s in
  db c = db s
  /\ Close c = c
  /\ (forall result,
        fst (Save Marshal c id now result) = c
        /\ snd (snd (Save Marshal c id now result)) <> None)
  /\ Load Unmarshal c id = (zero_TestResult, Some ErrDBClosed)
  /\ (forall r result, Method r = "POST"%string ->
        Decode (Body r) zero_TestResult = (result, None) ->
        saveResultHandler Marshal Decode c id now r = (c, InternalServerError))
  /\ (id <> ""%string ->
      loadResultHandler Unmarshal c (get_result id) = InternalServerError).
Proof.
  intros c. split; [reflexivity |]. split; [reflexivity |].
  assert (HS : forall result,
             fst (Save Marshal c id now result) = c
             /\ snd (snd (Save Marshal c id now result)) <> None).
  { intros result. unfold Save, db_Update_Set. cbn [db_closed c Close].
    destruct (Marshal _); cbn; split; congruence. }
  assert (HL : Load Unmarshal c id = (zero_TestResult, Some ErrDBClosed)) by reflexivity.
  split; [exact HS |]. split; [exact HL |]. split.
  - intros r result Hm Hd. unfold saveResultHandler. rewrite Hm, Hd.
    change (String.eqb "POST" "POST") with true. cbn [negb].
    destruct (HS result) as (H1 & H2).
    destruct (Save Marshal c id now result) as [s' [id' [err |]]]; cbn [fst snd] in *;
      [subst s'; reflexivity | congruence].
  - intros Hne. unfold loadResultHandler, get_result. cbn [Method Path].
    change (String.eqb "GET" "GET") with true. cbn [negb].
    rewrite TrimPrefix_results.
    destruct (String.eqb id "") eqn:E; [apply String.eqb_eq in E; contradiction |].
    rewrite HL. reflexivity.
Qed.

(** X9.  What a request to [/save-result] can do to the store: it never
    touches an entry under another identifier and never closes the store;
    it answers with the identifier only for a [POST] whose body decodes,
    and then the store holds the encoded record, stamped by the server,
    under that identifier; in every other case the store is exactly as it
    was, and the response is 405, 400 or 500. *)
Theorem save_request_effect Marshal Decode
    (s : BadgerStore) (id : string) (now : Time) (r : Request) :
  let s' := fst (saveResultHandler Marshal Decode s id now r) in
  (forall id0, id0 <> id -> db s' !! id0 = db s !! id0)
  /\ db_closed s' = db_closed s
  /\ match snd (saveResultHandler Marshal Decode s id now r) with
     | OkSaved id' =>
         id' = id /\ Method r = "POST"%string /\ db_closed s = false
         /\ exists result data,
              Decode (Body r) zero_TestResult = (result, None)
              /\ Marshal (with_Timestamp now result) = inl data
              /\ db s' = <[id := data]> (db s)
     | MethodNotAllowed => Method r <> "POST"%string /\ s' = s
     | BadRequest | InternalServerError => s' = s
     | NotFound | OkResult _ => False
     end.
Proof.
  cbv zeta. unfold saveResultHandler.
  destruct (String.eqb (Method r) "POST") eqn:Em; cbn [negb].
  2: { cbn [fst snd]. repeat split; auto. intros E. rewrite E in Em. discriminate. }
  apply String.eqb_eq in Em.
  destruct (Decode (Body r) zero_TestResult) as [result [err |]] eqn:Ed;
    [cbn [fst snd]; auto |].
  unfold Save, db_Update_Set.
  destruct (Marshal (with_Timestamp now result)) as [data | err] eqn:EM;
    [| cbn [fst snd]; auto].
  destruct (db_closed s) eqn:Ec; cbn [fst snd]; [auto |].
  split; [intros id0 Hne; cbn [db]; apply lookup_insert_ne; congruence |].
  split; [reflexivity |].
  repeat split; auto. exists result, data. auto.
Qed.

(* ===================================================================== *)
(** * Further properties of the client *)
(* ===================================================================== *)

(** ** The history *)

Lemma history_saveHistory clock result s :
  history (saveHistory clock result s)
  = take MAX_HISTORY_ITEMS (historyItem_of clock result :: history s).
Proof.
  unfold saveHistory. fold (historyItem_of clock result). cbn [history set_history].
  destruct (Nat.ltb MAX_HISTORY_ITEMS _) eqn:El; [reflexivity |].
  apply Nat.ltb_ge in El. symmetry. apply firstn_all2. exact El.
Qed.

Lemma take_app_take {A} (n : nat) (l k : list A) :
  take n (l ++ take n k) = take n (l ++ k).
Proof.
  rewrite !take_app, take_take. do 2 f_equal. lia.
Qed.

Lemma history_save_many (records : list (string * FinalResults)) : forall s : State,
  (length (history s) <= MAX_HISTORY_ITEMS)%nat ->
  history (save_many records s)
  = take MAX_HISTORY_ITEMS
      (rev (map (fun x => historyItem_of (fst x) (snd x)) records) ++ history s).
Proof.
  induction records as [| x records IH]; intros s Hlen.
  - cbn. symmetry. apply firstn_all2. exact Hlen.
  - cbn [save_many fold_left]. fold (save_many records (saveHistory (fst x) (snd x) s)).
    rewrite IH by (rewrite history_saveHistory, length_take; lia).
    rewrite history_saveHistory, take_app_take.
    cbn [map rev]. rewrite <- app_assoc. reflexivity.
Qed.

(** X10.  [saveHistory], for a stored history that parses: after one or
    more records have been saved, the history holds the entries of the
    most recent records first, followed by the older entries, cut after
    [MAX_HISTORY_ITEMS]; it never holds more than five entries, and the
    last record saved is at its head. *)
Theorem history_keeps_latest_five (clock : string) (result : FinalResults)
    (records : list (string * FinalResults)) (s : State) :
  let s' := save_many ((clock, result) :: records) s in
  history s'
  = take MAX_HISTORY_ITEMS
      (rev (map (fun x => historyItem_of (fst x) (snd x)) ((clock, result) :: records))
         ++ history s)
  /\ (length (history s') <= MAX_HISTORY_ITEMS)%nat
  /\ (records = [] -> head (history s') = Some (historyItem_of clock result)).
Proof.
  cbv zeta. cbn [save_many fold_left fst snd]. fold (save_many records (saveHistory clock result s)).
  assert (E : history (save_many records (saveHistory clock result s))
              = take MAX_HISTORY_ITEMS
                  (rev (map (fun x => historyItem_of (fst x) (snd x)) ((clock, result) :: records))
                     ++ history s)).
  { rewrite history_save_many by (rewrite history_saveHistory, length_take; lia).
    rewrite history_saveHistory, take_app_take.
    cbn [map rev fst snd]. rewrite <- app_assoc. reflexivity. }
  split; [exact E |]. split; [rewrite E, length_take; lia |].
  intros ->. cbn [save_many fold_left]. rewrite history_saveHistory. reflexivity.
Qed.

(** ** The sizes of the two transfers *)

Lemma sizes_updateResult id v u s :
  download_size (updateResult id v u s) = download_size s
  /\ upload_size (updateResult id v u s) = upload_size s.
Proof. unfold updateResult. destruct (elements _ !! _); split; reflexivity. Qed.

Lemma sizes_run_start s :
  download_size (run_start s) = download_size s
  /\ upload_size (run_start s) = upload_size s.
Proof.
  unfold run_start, reset_results, resultFields.
  cbn [download_size upload_size set_results fold_left statusFields updateStatus set_status].
  repeat (rewrite (proj1 (sizes_updateResult _ _ _ _)), (proj2 (sizes_updateResult _ _ _ _))).
  split; reflexivity.
Qed.

Lemma sizes_runLatencyTest trips s :
  download_size (runLatencyTest trips s) = download_size s
  /\ upload_size (runLatencyTest trips s) = upload_size s.
Proof.
  destruct (runLatencyTest_cases trips s) as [-> | [avg ->]]; [split; reflexivity |].
  cbn [download_size upload_size updateStatus set_status].
  rewrite (proj1 (sizes_updateResult _ _ _ _)), (proj2 (sizes_updateResult _ _ _ _)).
  split; reflexivity.
Qed.

Lemma sizes_runDownloadTest start reply s :
  download_size (runDownloadTest start reply s) = validateSize (download_size s) MAX_SIZE_MB
  /\ upload_size (runDownloadTest start reply s) = upload_size s.
Proof.
  unfold runDownloadTest. cbn.
  destruct reply as [| | | bytes t_end]; try (split; reflexivity).
  destruct (bytes =? 0); [split; reflexivity |].
  cbn. rewrite (proj1 (sizes_updateResult _ _ _ _)), (proj2 (sizes_updateResult _ _ _ _)).
  split; reflexivity.
Qed.

Lemma sizes_runUploadTest start reply s :
  download_size (runUploadTest start reply s) = download_size s
  /\ upload_size (runUploadTest start reply s) = validateSize (upload_size s) MAX_SIZE_MB.
Proof.
  unfold runUploadTest. cbn.
  destruct reply as [| | t_end]; try (split; reflexivity).
  cbn. rewrite (proj1 (sizes_updateResult _ _ _ _)), (proj2 (sizes_updateResult _ _ _ _)).
  split; reflexivity.
Qed.

Lemma validateSize_range (value : option Z) (max : Z) :
  1 <= max ->
  exists n, validateSize value max = Some n /\ 1 <= n <= max
            /\ validateSize (Some n) max = Some n.
Proof.
  intros Hmax. unfold validateSize.
  destruct value as [v |].
  - destruct (v <? 1) eqn:E1; [apply Z.ltb_lt in E1 | apply Z.ltb_ge in E1].
    + exists 1. replace (1 <? 1) with false by reflexivity.
      replace (max <? 1) with false by (symmetry; apply Z.ltb_ge; lia). repeat split; lia.
    + destruct (max <? v) eqn:E2; [apply Z.ltb_lt in E2 | apply Z.ltb_ge in E2].
      * exists max. replace (max <? 1) with false by (symmetry; apply Z.ltb_ge; lia).
        rewrite Z.ltb_irrefl. repeat split; lia.
      * exists v. replace (v <? 1) with false by (symmetry; apply Z.ltb_ge; lia).
        replace (max <? v) with false by (symmetry; apply Z.ltb_ge; lia). repeat split; lia.
  - exists 1. replace (1 <? 1) with false by reflexivity.
    replace (max <? 1) with false by (symmetry; apply Z.ltb_ge; lia). repeat split; lia.
Qed.

(** X11.  The sizes of the two transfers of a run are the values of the
    two size inputs brought into [1, MAX_SIZE_MB] by [validateSize]
    (1 when the input does not parse): the download is requested with
    [size=n], the upload carries [m * 1024 * 1024] bytes, the inputs hold
    [n] and [m] afterwards, and a server with the default flags streams
    exactly [n] MB for that request. *)
Theorem run_transfer_sizes (net : Network) (s : State) :
  let s' := runAllTests net s in
  exists n m,
    requests s'
      = requests s ++ map (fun i => GET_latency (t_start (net_trips net i))) (seq 0 numPings)
          ++ [GET_download n; POST_upload (m * 1024 * 1024)]
    /\ validateSize (download_size s) MAX_SIZE_MB = Some n
    /\ validateSize (upload_size s) MAX_SIZE_MB = Some m
    /\ 1 <= n <= MAX_SIZE_MB /\ 1 <= m <= MAX_SIZE_MB
    /\ download_size s' = Some n /\ upload_size s' = Some m
    /\ download_totalSize default_flags (FormatInt n) = n * MB.
Proof.
  cbv zeta.
  destruct (validateSize_range (download_size s) MAX_SIZE_MB ltac:(unfold MAX_SIZE_MB; lia))
    as (n & Hn & Hnr & Hnn).
  destruct (validateSize_range (upload_size s) MAX_SIZE_MB ltac:(unfold MAX_SIZE_MB; lia))
    as (m & Hm & Hmr & Hmm).
  exists n, m.
  rewrite runAllTests_unfold.
  cbn [requests download_size upload_size runWebRTCTest set_session updateStatus set_status].
  set (sl := runLatencyTest (net_trips net) (run_start s)).
  set (sd := runDownloadTest (net_download_start net) (net_download net) sl).
  assert (Edl : download_size sl = download_size s /\ upload_size sl = upload_size s).
  { unfold sl. destruct (sizes_runLatencyTest (net_trips net) (run_start s)) as (-> & ->).
    apply sizes_run_start. }
  destruct Edl as (Edl & Eul).
  destruct (sizes_runDownloadTest (net_download_start net) (net_download net) sl) as (Edd & Eud).
  fold sd in Edd, Eud.
  destruct (sizes_runUploadTest (net_upload_start net) (net_upload net) sd) as (Edu & Euu).
  split.
  { rewrite runUploadTest_requests. fold sd. unfold sd at 1.
    rewrite runDownloadTest_requests. fold sl. unfold sl at 1.
    rewrite runLatencyTest_requests, run_start_requests, <- !app_assoc.
    rewrite Eud, Eul, Edl, Hn, Hm. reflexivity. }
  split; [exact Hn |]. split; [exact Hm |]. split; [exact Hnr |]. split; [exact Hmr |].
  split; [rewrite Edu, Edd, Edl; exact Hn |].
  split; [rewrite Euu, Eud, Eul; exact Hm |].
  unfold MAX_SIZE_MB in Hnr.
  apply (totalSize_in_range default_flags (FormatInt n) n).
  - cbn [default_flags maxDownloadSize]. lia.
  - apply ParseInt_FormatInt. unfold in_int64, int64_min, int64_max. lia.
  - unfold globalMaxDownloadSizeMB. cbn [default_flags maxDownloadSize]. lia.
Qed.

(** ** A run in which nothing was measured *)

Lemma finalizeTest_true_frame s :
  startBtn_disabled (finalizeTest true s) = startBtn_disabled s
  /\ history (finalizeTest true s) = history s
  /\ results (finalizeTest true s) = results s.
Proof.
  unfold finalizeTest. cbn [negb]. destruct (read_finalResults _); repeat split; reflexivity.
Qed.

Lemma calculateJitterLoss_frame rtts D s :
  startBtn_disabled (calculateJitterLoss rtts D s) = startBtn_disabled s
  /\ history (calculateJitterLoss rtts D s) = history s
  /\ any_measured (calculateJitterLoss rtts D s) = any_measured s.
Proof.
  unfold calculateJitterLoss.
  destruct (finalizeTest_true_frame
              (updateStatus "jitter-status" "Complete"
                 (updateResult "jitter-result" (Fixed2 (averageJitter rtts)) U_ms
                    (updateResult "loss-result" (Fixed2 (lossPercent rtts D)) U_percent
                       (set_results (<["jitter" := averageJitter rtts]>
                                       (results (set_results (<["packetLoss" := lossPercent rtts D]> (results s)) s)))
                          (set_results (<["packetLoss" := lossPercent rtts D]> (results s)) s))))))
    as (Hd & Hh & Hr).
  split; [| split].
  - rewrite Hd. cbn [startBtn_disabled updateStatus set_status].
    rewrite !disabled_updateResult. reflexivity.
  - rewrite Hh. cbn [history updateStatus set_status].
    rewrite !history_updateResult. reflexivity.
  - apply any_measured_results. intros k K1 K2. rewrite Hr.
    cbn [results updateStatus set_status]. rewrite !results_updateResult.
    cbn [results set_results]. rewrite !lookup_insert_ne by congruence. reflexivity.
Qed.

Lemma stuck_handle (h : list HistoryItem) (s : State) (e : event) :
  stuck h s -> stuck h (handle s e).
Proof.
  intros (Hd & Ha & Hh). destruct e; cbn [handle].
  - (* the offer is posted *) repeat split; assumption.
  - unfold signaling_catch.
    destruct (finalizeTest_true_frame (updateStatus "jitter-status" "WebRTC setup failed." s))
      as (Hd' & Hh' & Hr').
    split; [rewrite Hd'; exact Hd |]. split; [| rewrite Hh'; exact Hh].
    unfold any_measured, prop_truthy in *. rewrite Hr'. exact Ha.
  - repeat split; assumption.
  - unfold sendPacket. destruct (NUM_PACKETS <=? _); repeat split; assumption.
  - unfold timeout_cb.
    destruct (calculateJitterLoss_frame
                (receivedTimestamps (session (dc_close (clearInterval s))))
                (of_Z (packetCounter (session (dc_close (clearInterval s)))))
                (dc_close (clearInterval s))) as (Hd' & Hh' & Ha').
    split; [rewrite Hd'; exact Hd |]. split; [rewrite Ha'; exact Ha | rewrite Hh'; exact Hh].
  - unfold dc_onmessage. destruct data as [sendTime |]; [| repeat split; assumption].
    match goal with |- context [if ?c then _ else _] => destruct c end;
      [| repeat split; assumption].
    match goal with |- stuck _ (calculateJitterLoss ?r ?D ?t) =>
      destruct (calculateJitterLoss_frame r D t) as (Hd' & Hh' & Ha') end.
    split; [rewrite Hd'; exact Hd |]. split; [rewrite Ha'; exact Ha | rewrite Hh'; exact Hh].
  - unfold dc_onclose.
    match goal with |- stuck _ (finalizeTest true ?t) =>
      destruct (finalizeTest_true_frame t) as (Hd' & Hh' & Hr');
      assert (Et : startBtn_disabled t = startBtn_disabled s /\ history t = history s
                   /\ results t = results s)
        by (destruct (_ <? _); repeat split; reflexivity)
    end.
    destruct Et as (E1 & E2 & E3).
    split; [rewrite Hd', E1; exact Hd |]. split; [| rewrite Hh', E2; exact Hh].
    unfold any_measured, prop_truthy in *. rewrite Hr', E3. exact Ha.
  - unfold pc_oniceconnectionstatechange.
    match goal with |- context [if ?c then _ else _] => destruct c end;
      [| repeat split; assumption].
    match goal with |- stuck _ (finalizeTest true ?t) =>
      destruct (finalizeTest_true_frame t) as (Hd' & Hh' & Hr') end.
    split; [rewrite Hd'; exact Hd |]. split; [| rewrite Hh'; exact Hh].
    unfold any_measured, prop_truthy in *. rewrite Hr'. exact Ha.
  - unfold on_save_settled. destruct (pending_saves s !! i) as [fr |]; [| repeat split; assumption].
    destruct (save_settled_effect reply clock fr (set_pending_saves (delete i (pending_saves s)) s))
      as (_ & _ & Hr' & Hd' & _ & Hh').
    change (any_measured (set_pending_saves (delete i (pending_saves s)) s))
      with (any_measured s) in Hd', Hh'.
    cbn [startBtn_disabled history results set_pending_saves] in Hd', Hh', Hr'.
    rewrite Hd, Ha in *. cbn [andb negb] in *.
    split; [exact Hd' |]. split; [| rewrite Hh' by reflexivity; exact Hh].
    unfold any_measured, prop_truthy in *. rewrite Hr'. exact Ha.
Qed.

Lemma runAllTests_unmeasured (net : Network) (s : State) :
  Spec.successful_rtts (net_trips net) = [] ->
  dl_unmeasured (net_download net) = true ->
  ul_unmeasured (net_upload net) = true ->
  results (runAllTests net s) = ∅.
Proof.
  intros Hl Hdl Hul. rewrite runAllTests_unfold.
  cbn [results runWebRTCTest set_session updateStatus set_status].
  assert (Eu : forall start t, results (runUploadTest start (net_upload net) t) = results t).
  { intros start t. destruct (net_upload net); try discriminate; reflexivity. }
  assert (Ed : forall start t, results (runDownloadTest start (net_download net) t) = results t).
  { intros start t. unfold runDownloadTest. cbn.
    destruct (net_download net) as [| | | bytes t_end]; try reflexivity.
    cbn [dl_unmeasured] in Hdl. rewrite Hdl. reflexivity. }
  rewrite Eu, Ed.
  destruct (runLatencyTest_failed_frame (net_trips net) (run_start s) Hl) as (-> & _).
  apply run_start_results.
Qed.

(** X12.  After a run in which no latency probe succeeded and neither the
    download nor the upload measured anything, no callback of the page
    re-enables the start button and none adds to the history, whatever
    happens on the channel and however the saves settle. *)
Theorem failed_run_locks_button (net : Network) (s : State) (events : list event) :
  Spec.successful_rtts (net_trips net) = [] ->
  dl_unmeasured (net_download net) = true ->
  ul_unmeasured (net_upload net) = true ->
  let s' := fold_left handle events (runAllTests net s) in
  startBtn_disabled s' = true /\ history s' = history s.
Proof.
  intros Hl Hdl Hul.
  assert (H0 : stuck (history s) (runAllTests net s)).
  { destruct (runAllTests_frame net s) as (Hd & Hh & _).
    split; [exact Hd |]. split; [| exact Hh].
    unfold any_measured, prop_truthy.
    rewrite (runAllTests_unmeasured net s Hl Hdl Hul), !lookup_empty. reflexivity. }
  cbv zeta. generalize dependent (runAllTests net s). intros s0 H0.
  revert s0 H0. induction events as [| e events IH]; intros s0 H0; cbn [fold_left].
  - destruct H0 as (Hd & _ & Hh). auto.
  - apply IH, stuck_handle, H0.
Qed.

(** Nothing gets through; signaling fails and the save is answered. *)
Lemma failed_run_locks_button_witness :
  Spec.successful_rtts (net_trips net_all_failed) = []
  /\ dl_unmeasured (net_download net_all_failed) = true
  /\ ul_unmeasured (net_upload net_all_failed) = true
  /\ startBtn_disabled
       (fold_left handle [EvSignalingFailed; EvSaveSettled 0 (SaveData (Some "0b1e"%string)) "noon"]
          (runAllTests net_all_failed fresh_page)) = true.
Proof.
  split; [reflexivity |]. split; [reflexivity |]. split; [reflexivity |].
  destruct (failed_run_locks_button net_all_failed fresh_page
              [EvSignalingFailed; EvSaveSettled 0 (SaveData (Some "0b1e"%string)) "noon"]
              eq_refl eq_refl eq_refl) as (H & _).
  exact H.
Defined.

(** ** The packets of an exchange session *)

Lemma session_ok_handle (s : State) (e : event) :
  session_ok (session s) -> session_ok (session (handle s e)).
Proof.
  intros H. destruct e; cbn [handle].
  - exact H.
  - unfold signaling_catch. rewrite session_finalizeTest. exact H.
  - destruct H as (H1 & H2 & H3).
    split; [exact H1 |]. split; [exact H2 |]. cbn. lia.
  - unfold sendPacket. destruct (NUM_PACKETS <=? packetCounter (session s)) eqn:E.
    + exact H.
    + apply Z.leb_gt in E. destruct H as (H1 & H2 & H3). unfold session_ok.
      cbn [session updateStatus set_status set_session packetCounter dc_sent
           receivedTimestamps receivedCounter].
      split; [| split; [lia | exact H3]].
      rewrite map_app, H1. cbn [map fst].
      replace (Z.to_nat (packetCounter (session s) + 1))
        with (S (Z.to_nat (packetCounter (session s)))) by lia.
      rewrite seq_S, map_app. cbn [map Nat.add]. do 3 f_equal. lia.
  - unfold timeout_cb. rewrite session_calculateJitterLoss. exact H.
  - unfold dc_onmessage. destruct H as (H1 & H2 & H3).
    destruct data as [sendTime |];
      [| split; [exact H1 |]; split; [exact H2 |]; cbn; lia].
    assert (Hok : forall t,
              dc_sent (session t) = dc_sent (session s) ->
              packetCounter (session t) = packetCounter (session s) ->
              Z.of_nat (length (receivedTimestamps (session t))) <= receivedCounter (session t) ->
              session_ok (session t)).
    { intros t E1 E2 E3. split; [rewrite E1, E2; exact H1 |]. split; [rewrite E2; exact H2 | exact E3]. }
    match goal with |- context [if ?c then _ else _] => destruct c end.
    + rewrite session_calculateJitterLoss.
      apply Hok; try reflexivity. cbn. rewrite length_app. cbn. lia.
    + apply Hok; try reflexivity. cbn. rewrite length_app. cbn. lia.
  - unfold dc_onclose. rewrite session_finalizeTest.
    match goal with |- context [if ?c then _ else _] => destruct c end; exact H.
  - unfold pc_oniceconnectionstatechange.
    match goal with |- context [if ?c then _ else _] => destruct c end;
      [rewrite session_finalizeTest |]; exact H.
  - unfold on_save_settled. destruct (pending_saves s !! i); [| exact H].
    rewrite session_save_settled. exact H.
Qed.

(** X13.  The packets of an exchange session: whatever the order of the
    callbacks after a run has started, the packets handed to the channel
    carry the identifiers 0, 1, 2, ... in this order, their number is the
    packet counter and at most [NUM_PACKETS], and no more samples have been
    recorded than messages were counted. *)
Theorem session_packets_numbered (net : Network) (s : State) (events : list event) :
  let x := session (fold_left handle events (runAllTests net s)) in
  map fst (dc_sent x) = map Z.of_nat (seq 0 (Z.to_nat (packetCounter x)))
  /\ Z.of_nat (length (dc_sent x)) = packetCounter x
  /\ packetCounter x <= NUM_PACKETS
  /\ Z.of_nat (length (receivedTimestamps x)) <= receivedCounter x.
Proof.
  assert (H0 : session_ok (session (runAllTests net s))).
  { cbn. unfold session_ok, NUM_PACKETS. cbn. repeat split; lia. }
  cbv zeta. generalize dependent (runAllTests net s). intros s0 H0.
  revert s0 H0. induction events as [| e events IH]; intros s0 H0; cbn [fold_left].
  - destruct H0 as (H1 & H2 & H3). split; [exact H1 |]. split; [| split; [lia | exact H3]].
    rewrite <- (length_map fst), H1, length_map, length_seq. lia.
  - apply IH, session_ok_handle, H0.
Qed.

(** ** The sign of jitter and loss *)

Lemma not_negative_round_aux (m e : Z) (l : location) :
  not_negative (binary_round_aux prec emax false m e l) = true.
Proof.
  unfold binary_round_aux.
  destruct (shr_fexp prec emax m e l) as [mrs' e'].
  destruct (shr_fexp prec emax _ e' loc_Exact) as [mrs'' e''].
  destruct (shr_m mrs''); [reflexivity | | reflexivity].
  destruct (_ <=? _); reflexivity.
Qed.

Lemma not_negative_round (m : positive) (e : Z) :
  not_negative (binary_round prec emax false m e) = true.
Proof.
  unfold binary_round. destruct (shl_align _ _ _) as [mz ez]. apply not_negative_round_aux.
Qed.

Lemma not_negative_add (x y : number) :
  not_negative x = true -> not_negative y = true -> not_negative (add x y) = true.
Proof.
  destruct x as [[] | [] | | [] mx ex], y as [[] | [] | | [] my ey];
    cbn; try discriminate; try reflexivity.
  intros _ _. apply not_negative_round.
Qed.

Lemma not_negative_abs (x : number) : not_negative (abs x) = true.
Proof. destruct x; reflexivity. Qed.

Lemma not_negative_div (x : number) (m : positive) (e : Z) :
  not_negative x = true -> not_negative (div x (S754_finite false m e)) = true.
Proof.
  destruct x as [[] | [] | | [] mx ex]; cbn; try discriminate; try reflexivity.
  intros _. destruct (SFdiv_core_binary _ _ _ _ _ _) as [[mz ez] lz].
  apply not_negative_round_aux.
Qed.

Lemma not_negative_mul (x : number) (m : positive) (e : Z) :
  not_negative x = true -> not_negative (mul x (S754_finite false m e)) = true.
Proof.
  destruct x as [[] | [] | | [] mx ex]; cbn; try discriminate; try reflexivity.
  intros _. apply not_negative_round_aux.
Qed.

Lemma not_negative_ltb (x : number) : not_negative x = true -> ltb x zero = false.
Proof. destruct x as [[] | [] | | [] mx ex]; cbn; try discriminate; reflexivity. Qed.

Lemma not_negative_jitter_loop (rtts : list number) : forall (n i : nat) (acc prev : number),
  not_negative acc = true -> not_negative (fst (jitter_loop n i rtts acc prev)) = true.
Proof.
  induction n as [| n IH]; intros i acc prev H; [exact H |].
  cbn [jitter_loop]. apply IH, not_negative_add; [exact H | apply not_negative_abs].
Qed.

(** X14.  The jitter computed by [calculateJitterLoss] is never negative,
    and neither is the loss when at most [D] of [D >= 1] packets were
    received: each has its sign bit clear or is [NaN], so neither compares
    below zero. *)
Theorem measures_not_negative (rtts : list number) (D : nat) :
  (1 <= D)%nat -> (length rtts <= D)%nat -> Z.of_nat D < 2 ^ 53 ->
  not_negative (averageJitter rtts) = true
  /\ ltb (averageJitter rtts) zero = false
  /\ not_negative (lossPercent rtts (of_nat D)) = true
  /\ ltb (lossPercent rtts (of_nat D)) zero = false.
Proof.
  intros H1 H2 H3.
  assert (Hj : not_negative (averageJitter rtts) = true).
  { unfold averageJitter. destruct (Nat.ltb 1 (length rtts)) eqn:E; [| reflexivity].
    apply Nat.ltb_lt in E.
    change (of_Z 1) with (of_nat 1). rewrite sub_of_nat_exact by lia.
    destruct (of_nat_pos_finite (length rtts - 1)) as (m & e & ->); [lia | lia |].
    apply not_negative_div, not_negative_jitter_loop. reflexivity. }
  assert (Hl : not_negative (lossPercent rtts (of_nat D)) = true).
  { unfold lossPercent. rewrite sub_of_nat_exact by lia.
    destruct (of_nat_pos_finite D) as (m & e & ->); [lia | lia |].
    change (of_Z 100) with (S754_finite false 7036874417766400 (-46)).
    apply not_negative_mul, not_negative_div.
    destruct (Nat.eq_dec (D - length rtts)%nat 0%nat) as [-> | Hne]; [reflexivity |].
    destruct (of_nat_pos_finite (D - length rtts)) as (m' & e' & ->); [lia | lia |].
    reflexivity. }
  split; [exact Hj |]. split; [apply not_negative_ltb, Hj |].
  split; [exact Hl | apply not_negative_ltb, Hl].
Qed.

(** Three samples for four packets. *)
Lemma measures_not_negative_witness :
  (1 <= 4)%nat /\ (length [of_Z 100; of_Z 120; of_Z 90] <= 4)%nat /\ Z.of_nat 4 < 2 ^ 53
  /\ ltb (averageJitter [of_Z 100; of_Z 120; of_Z 90]) zero = false
  /\ ltb (lossPercent [of_Z 100; of_Z 120; of_Z 90] (of_nat 4)) zero = false.
Proof.
  split; [lia |]. split; [cbn; lia |]. split; [reflexivity |].
  destruct (measures_not_negative [of_Z 100; of_Z 120; of_Z 90] 4) as (_ & Hj & _ & Hl);
    [lia | cbn; lia | reflexivity |].
  split; [exact Hj | exact Hl].
Defined.

(** ** A run without loss, in the history *)

Lemma save_settled_history reply clock fr s :
  startBtn_disabled s = true -> any_measured s = true ->
  history (save_settled reply clock fr s)
  = take MAX_HISTORY_ITEMS (historyItem_of clock fr :: history s)
  /\ startBtn_disabled (save_settled reply clock fr s) = false.
Proof.
  intros Hd Ha. unfold save_settled.
  set (s0 := match reply with
             | SaveData (Some id) => if String.eqb id "" then s else set_share_url (ShareLink id) s
             | SaveData None => s
             | _ => set_share_url ShareFailed s
             end).
  assert (E : startBtn_disabled s0 = startBtn_disabled s
              /\ history s0 = history s /\ any_measured s0 = any_measured s).
  { unfold s0. destruct reply as [| | | [id |]]; try (repeat split; reflexivity).
    destruct (String.eqb id ""); repeat split; reflexivity. }
  destruct E as (E1 & E2 & E3).
  fold (any_measured s0). rewrite E1, E3, Hd, Ha.
  split; [| reflexivity].
  cbn [history set_disabled]. rewrite history_saveHistory, E2. reflexivity.
Qed.

(** X15.  A run that loses no packet, finalized on a page where the button
    is disabled and one of latency, download and upload was measured: the
    loss stored is [+0], the result element shows [0.00%], the record
    submitted carries [0], and when the save settles the entry added to the
    history shows the loss as ['N/A'], zero being falsy; the button is
    enabled again. *)
Theorem lossless_run_history (rtts : list number) (D : nat)
    (reply : save_reply) (clock : string) (s : State) :
  page_ready s -> startBtn_disabled s = true -> any_measured s = true ->
  pending_saves s = [] ->
  (1 <= D)%nat -> length rtts = D -> Z.of_nat D < 2 ^ 53 ->
  let s1 := calculateJitterLoss rtts (of_nat D) s in
  let s2 := on_save_settled 0 reply clock s1 in
  results s1 !! "packetLoss" = Some zero
  /\ elements s1 !! "loss-result" = Some (Text (Fixed2 zero) U_percent)
  /\ exists fr,
       requests s1 = requests s ++ [POST_save_result fr]
       /\ packetLossPercent fr = zero
       /\ history s2 = take MAX_HISTORY_ITEMS (historyItem_of clock fr :: history s)
       /\ h_packetLoss (historyItem_of clock fr) = H_NA
       /\ startBtn_disabled s2 = false.
Proof.
  intros Hready Hd Ha Hp H1 H2 H3. cbv zeta.
  assert (Hloss : lossPercent rtts (of_nat D) = zero).
  { rewrite lossPercent_spec by lia. rewrite H2. apply loss_none_lost; lia. }
  destruct (calculateJitterLoss_frame rtts (of_nat D) s) as (Hd1 & Hh1 & Ha1).
  unfold calculateJitterLoss in *. rewrite Hloss in *.
  set (sa := updateStatus "jitter-status" "Complete"
               (updateResult "jitter-result" (Fixed2 (averageJitter rtts)) U_ms
                  (updateResult "loss-result" (Fixed2 zero) U_percent
                     (set_results (<["jitter" := averageJitter rtts]>
                                     (results (set_results (<["packetLoss" := zero]> (results s)) s)))
                        (set_results (<["packetLoss" := zero]> (results s)) s))))) in *.
  assert (Hel : elements sa !! "loss-result" = Some (Text (Fixed2 zero) U_percent)).
  { unfold sa. cbn [elements updateStatus set_status].
    rewrite elements_updateResult_ne by discriminate.
    apply elements_updateResult_eq. cbn [elements set_results].
    apply Hready. cbn. tauto. }
  assert (Hreadya : page_ready sa).
  { intros id Hin. unfold sa. cbn [elements updateStatus set_status].
    do 2 apply elements_updateResult_is_Some. cbn [elements set_results].
    apply Hready. exact Hin. }
  destruct (read_finalResults_ready sa Hreadya)
    as (d & u & l & j & p & _ & _ & _ & _ & Hp' & Hfr).
  rewrite Hel in Hp'. inversion Hp'; subst p. clear Hp'.
  rewrite (finalizeTest_posts _ _ Hfr) in *.
  split.
  { cbn [results set_pending_saves fetch set_requests set_share_url]. unfold sa.
    cbn [results updateStatus set_status]. rewrite !results_updateResult.
    cbn [results set_results]. rewrite lookup_insert_ne by discriminate. apply lookup_insert_eq. }
  split; [exact Hel |].
  eexists. split.
  { cbn [requests set_pending_saves fetch set_requests set_share_url]. unfold sa.
    cbn [requests updateStatus set_status]. rewrite !requests_updateResult. reflexivity. }
  split; [reflexivity |].
  assert (Hpend : pending_saves sa = []).
  { unfold sa. cbn [pending_saves updateStatus set_status]. rewrite !pending_updateResult.
    exact Hp. }
  match goal with |- context [on_save_settled 0 reply clock ?t] =>
    rewrite (on_save_settled_head reply clock t _ [])
      by (cbn [pending_saves set_pending_saves]; rewrite Hpend; reflexivity);
    destruct (save_settled_history reply clock
                {| downloadSpeedMbps := or_else (parseFloat d) zero;
                   uploadSpeedMbps := or_else (parseFloat u) zero;
                   latencyMs := or_else (parseFloat l) zero;
                   jitterMs := or_else (parseFloat j) zero;
                   packetLossPercent := or_else (parseFloat (Text (Fixed2 zero) U_percent)) zero |}
                (set_pending_saves [] t)) as (Hh2 & Hd2)
  end.
  { exact (eq_trans Hd1 Hd). }
  { exact (eq_trans Ha1 Ha). }
  split; [| split; [reflexivity | exact Hd2]].
  rewrite Hh2. f_equal. f_equal. exact Hh1.
Qed.

(** Two echoes for two packets, after a run that measured a download. *)
Lemma lossless_run_history_witness :
  let s := runAllTests net_no_latency fresh_page in
  let rtts := [of_Z 20; of_Z 30] in
  page_ready s /\ startBtn_disabled s = true /\ any_measured s = true
  /\ pending_saves s = []
  /\ (1 <= 2)%nat /\ length rtts = 2%nat /\ Z.of_nat 2 < 2 ^ 53
  /\ exists fr,
       history (on_save_settled 0 SaveNotOk "noon" (calculateJitterLoss rtts (of_nat 2) s))
       = take MAX_HISTORY_ITEMS (historyItem_of "noon" fr :: history s)
       /\ h_packetLoss (historyItem_of "noon" fr) = H_NA.
Proof.
  cbv zeta.
  assert (H1 : page_ready (runAllTests net_no_latency fresh_page))
    by exact (runAllTests_page_ready net_no_latency fresh_page fresh_page_ready).
  assert (H2 : startBtn_disabled (runAllTests net_no_latency fresh_page) = true)
    by exact (proj1 (runAllTests_frame net_no_latency fresh_page)).
  assert (H3 : any_measured (runAllTests net_no_latency fresh_page) = true)
    by (vm_compute; reflexivity).
  assert (H4 : pending_saves (runAllTests net_no_latency fresh_page) = [])
    by exact (proj2 (proj2 (runAllTests_frame net_no_latency fresh_page))).
  split; [exact H1 |]. split; [exact H2 |]. split; [exact H3 |]. split; [exact H4 |].
  split; [lia |]. split; [reflexivity |]. split; [reflexivity |].
  destruct (lossless_run_history [of_Z 20; of_Z 30] 2 SaveNotOk "noon"
              (runAllTests net_no_latency fresh_page) H1 H2 H3 H4
              ltac:(lia) eq_refl eq_refl)
    as (_ & _ & fr & _ & _ & Hh & Hna & _).
  exists fr. split; [exact Hh | exact Hna].
Defined.

(** ** The timer armed after the last packet

    *** Sums and differences of integers below 2^53 *)

Lemma shl_align_nf (v : Z) (ez : Z) :
  0 < v -> v < 2 ^ 53 -> ez <= dig v - 53 ->
  Z.pos (fst (shl_align (Z.to_pos (v * 2 ^ (53 - dig v))) (dig v - 53) ez)) = v * 2 ^ (- ez).
Proof.
  intros H0 H1 He.
  pose proof (dig_bounds v H0 H1) as Hd.
  pose proof (nf_mantissa_pos v H0 H1) as Hw.
  unfold shl_align. destruct (ez - (dig v - 53)) as [| p | p] eqn:E; try lia; cbn [fst].
  - rewrite Z2Pos.id by lia. do 2 f_equal. lia.
  - rewrite pos_iter_xO, Z2Pos.id, <- Z.mul_assoc, <- Z.pow_add_r by lia.
    do 2 f_equal. lia.
Qed.

Lemma add_of_Z_exact (a b : Z) :
  0 <= a -> 0 <= b -> a + b < 2 ^ 53 -> add (of_Z a) (of_Z b) = of_Z (a + b).
Proof.
  intros Ha Hb Hab.
  destruct (Z.eq_dec a 0) as [-> | Ha0].
  { rewrite Z.add_0_l. destruct (Z.eq_dec b 0) as [-> | Hb0]; [reflexivity |].
    rewrite (of_Z_nf b) by lia. reflexivity. }
  destruct (Z.eq_dec b 0) as [-> | Hb0].
  { rewrite Z.add_0_r. rewrite (of_Z_nf a) by lia. reflexivity. }
  rewrite (of_Z_nf a), (of_Z_nf b) by lia.
  pose proof (dig_bounds a ltac:(lia) ltac:(lia)) as Hda.
  pose proof (dig_bounds b ltac:(lia) ltac:(lia)) as Hdb.
  unfold nf, add, SFadd. unfold cond_Zopp.
  set (ez := Z.min (dig a - 53) (dig b - 53)).
  rewrite (shl_align_nf a ez), (shl_align_nf b ez) by lia.
  assert (Hp : 0 < 2 ^ (- ez)) by (apply Z.pow_pos_nonneg; lia).
  destruct (a * 2 ^ (- ez) + b * 2 ^ (- ez)) as [| q | q] eqn:Eq; try nia.
  unfold binary_normalize.
  rewrite (binary_round_nf q ez (a + b)) by lia.
  symmetry. apply of_Z_nf; lia.
Qed.

Lemma round_aux_opp (m e : Z) (l : location) :
  binary_round_aux prec emax true m e l = SFopp (binary_round_aux prec emax false m e l).
Proof.
  unfold binary_round_aux.
  destruct (shr_fexp prec emax m e l) as [mrs' e'].
  destruct (shr_fexp prec emax _ e' loc_Exact) as [mrs'' e''].
  destruct (shr_m mrs''); [reflexivity | | reflexivity].
  destruct (_ <=? _); reflexivity.
Qed.

Lemma binary_round_opp (m : positive) (e : Z) :
  binary_round prec emax true m e = SFopp (binary_round prec emax false m e).
Proof.
  unfold binary_round. destruct (shl_align _ _ _) as [mz ez]. apply round_aux_opp.
Qed.

Lemma SFopp_involutive (x : number) : SFopp (SFopp x) = x.
Proof. destruct x as [[] | [] | | [] m e]; reflexivity. Qed.

(** The difference of two integers below 2^53, the smaller one first. *)
Lemma sub_of_Z_neg (a b : Z) :
  0 <= a -> a < b -> b < 2 ^ 53 -> sub (of_Z a) (of_Z b) = neg (of_Z (b - a)).
Proof.
  intros Ha Hab Hb. unfold neg.
  destruct (Z.eq_dec a 0) as [-> | Ha0].
  { rewrite Z.sub_0_r, (of_Z_nf b) by lia. reflexivity. }
  pose proof (sub_of_Z_exact b a ltac:(lia) ltac:(lia) Hb) as H.
  rewrite (of_Z_nf (b - a)) in * by lia.
  rewrite (of_Z_nf a), (of_Z_nf b) in * by lia.
  unfold nf at 1 2 in H. unfold nf at 1 2. unfold sub, SFsub in *. unfold cond_Zopp in *.
  rewrite Z.min_comm in H.
  set (ez := Z.min (dig a - 53) (dig b - 53)) in *.
  set (ma := Z.pos (fst (shl_align (Z.to_pos (a * 2 ^ (53 - dig a))) (dig a - 53) ez))) in *.
  set (mb := Z.pos (fst (shl_align (Z.to_pos (b * 2 ^ (53 - dig b))) (dig b - 53) ez))) in *.
  replace (ma - mb) with (- (mb - ma)) by lia.
  destruct (mb - ma) as [| q | q]; cbn [Z.opp binary_normalize] in *.
  - discriminate H.
  - change (binary_round prec emax true q ez = SFopp (nf (b - a))).
    rewrite binary_round_opp, H. reflexivity.
  - change (binary_round prec emax false q ez = SFopp (nf (b - a))).
    rewrite binary_round_opp in H. rewrite <- H, SFopp_involutive. reflexivity.
Qed.

(** X16.  The delay [sendPacket] passes to [setTimeout] after the last
    packet, for clock readings in whole milliseconds: as long as the
    deadline [startTestTime + NUM_PACKETS * PACKET_INTERVAL +
    MAX_WAIT_BUFFER] has not passed, the delay is the negative of the time
    left, so it is not above zero and the callback is due at once; past the
    deadline the delay is the time elapsed since. *)
Theorem timeout_delay_sign (now start : Z) :
  0 <= start -> 0 <= now -> start + 11000 < 2 ^ 53 -> now < 2 ^ 53 ->
  let deadline := start + NUM_PACKETS * PACKET_INTERVAL + MAX_WAIT_BUFFER in
  (now < deadline ->
   timeout_delay (of_Z now) (of_Z start) = neg (of_Z (deadline - now))
   /\ ltb zero (timeout_delay (of_Z now) (of_Z start)) = false)
  /\ (deadline <= now ->
      timeout_delay (of_Z now) (of_Z start) = of_Z (now - deadline)).
Proof.
  intros Hs Hn Hd Hn2 deadline.
  assert (E : add (add (of_Z start) (mul (of_Z NUM_PACKETS) (of_Z PACKET_INTERVAL)))
                (of_Z MAX_WAIT_BUFFER) = of_Z deadline).
  { replace (mul (of_Z NUM_PACKETS) (of_Z PACKET_INTERVAL)) with (of_Z 10000)
      by (vm_compute; reflexivity).
    unfold MAX_WAIT_BUFFER. rewrite !add_of_Z_exact by lia.
    f_equal. }
  assert (Hdl : deadline = start + 11000)
    by (unfold deadline, NUM_PACKETS, PACKET_INTERVAL, MAX_WAIT_BUFFER; lia).
  clearbody deadline.
  unfold timeout_delay. rewrite E.
  split.
  - intros Hlt. rewrite sub_of_Z_neg by lia. split; [reflexivity |].
    rewrite of_Z_nf by lia. reflexivity.
  - intros Hge. apply sub_of_Z_exact; lia.
Qed.

(** The tick that follows the 250th packet, 10040 ms after the start. *)
Lemma timeout_delay_sign_witness :
  0 <= 1700000000000 /\ 0 <= 1700000010040 /\ 1700000000000 + 11000 < 2 ^ 53
  /\ 1700000010040 < 2 ^ 53
  /\ 1700000010040 < 1700000000000 + NUM_PACKETS * PACKET_INTERVAL + MAX_WAIT_BUFFER
  /\ timeout_delay (of_Z 1700000010040) (of_Z 1700000000000) = neg (of_Z 960).
Proof.
  split; [lia |]. split; [lia |]. split; [lia |]. split; [lia |].
  split; [vm_compute; reflexivity |].
  destruct (timeout_delay_sign 1700000010040 1700000000000) as (H & _); try lia.
  destruct H as (H & _); [vm_compute; reflexivity |]. exact H.
Defined.

(** ** The ends of the scale: a steady link, and nothing received *)

Lemma sub_same (x : number) : is_finite x = true -> sub x x = zero.
Proof.
  destruct x as [[] | [] | | s m e]; try discriminate; try reflexivity.
  intros _. unfold sub, SFsub. rewrite Z.sub_diag. reflexivity.
Qed.

Lemma div_eucl_div_mod (a b : Z) : Z.div_eucl a b = (a / b, a mod b).
Proof. unfold Z.div, Z.modulo. destruct (Z.div_eucl a b). reflexivity. Qed.

Lemma div_same (s : bool) (m : positive) (e : Z) :
  div (S754_finite s m e) (S754_finite s m e) = of_Z 1.
Proof.
  unfold div, SFdiv, SFdiv_core_binary.
  replace (Zdigits2 (Z.pos m) + e - (Zdigits2 (Z.pos m) + e)) with 0 by lia.
  rewrite Z.sub_diag.
  change (Z.min (fexp prec emax 0) 0) with (-53).
  change (0 - -53) with 53.
  rewrite Z.shiftl_mul_pow2 by lia.
  rewrite div_eucl_div_mod.
  rewrite (Z.mul_comm (Z.pos m)), Z.div_mul, Z.mod_mul by lia.
  assert (El : new_location (Z.pos m) 0 = loc_Exact).
  { unfold new_location, new_location_even, new_location_odd.
    destruct (Z.even (Z.pos m)); reflexivity. }
  rewrite El, xorb_nilpotent. vm_compute. reflexivity.
Qed.

Lemma fold_add_zero (l : list number) :
  Forall (fun d => d = zero) l -> fold_left add l zero = zero.
Proof.
  induction 1 as [| d l -> _ IH]; [reflexivity |]. cbn [fold_left]. exact IH.
Qed.

Lemma nth_repeat_lt (x d : number) (n i : nat) : (i < n)%nat -> nth i (repeat x n) d = x.
Proof.
  revert i. induction n as [| n IH]; intros i Hi; [lia |].
  destruct i as [| i]; [reflexivity |]. cbn. apply IH. lia.
Qed.

(** X17.  A steady link has no jitter: when all samples are the same
    finite number, whatever their count, the jitter that
    [calculateJitterLoss] stores is [+0]. *)
Theorem steady_samples_no_jitter (x : number) (n : nat) (total : number) (s : State) :
  is_finite x = true -> Z.of_nat n < 2 ^ 53 ->
  averageJitter (repeat x n) = zero
  /\ results (calculateJitterLoss (repeat x n) total s) !! "jitter" = Some zero.
Proof.
  intros Hx Hn.
  assert (E : averageJitter (repeat x n) = zero).
  { rewrite averageJitter_spec by (rewrite repeat_length; exact Hn).
    unfold Spec.jitter. rewrite repeat_length.
    destruct (Nat.ltb n 2) eqn:E2; [reflexivity |]. apply Nat.ltb_ge in E2.
    rewrite fold_add_zero.
    - destruct (of_nat_pos_finite (n - 1)) as (m & e & ->); [lia | lia | reflexivity].
    - apply List.Forall_forall. intros d Hd. apply in_map_iff in Hd.
      destruct Hd as (i & <- & Hi). apply in_seq in Hi.
      unfold Spec.abs_delta. rewrite !nth_repeat_lt by lia.
      rewrite sub_same by exact Hx. reflexivity. }
  split; [exact E |].
  rewrite results_calculateJitterLoss, lookup_insert_eq, E. reflexivity.
Qed.

(** 250 echoes of 42 ms. *)
Lemma steady_samples_no_jitter_witness :
  is_finite (of_Z 42) = true /\ Z.of_nat 250 < 2 ^ 53
  /\ averageJitter (repeat (of_Z 42) 250) = zero.
Proof.
  split; [reflexivity |]. split; [reflexivity |].
  destruct (steady_samples_no_jitter (of_Z 42) 250 zero fresh_page eq_refl eq_refl) as (H & _).
  exact H.
Defined.

(** X18.  When no echo was received for [D >= 1] packets,
    [calculateJitterLoss] stores a loss of exactly 100 and a jitter of 0,
    and the loss element, when the page has one, shows [100.00%]. *)
Theorem nothing_received_all_lost (D : nat) (s : State) :
  (1 <= D)%nat -> Z.of_nat D < 2 ^ 53 ->
  lossPercent [] (of_nat D) = of_Z 100
  /\ averageJitter [] = zero
  /\ results (calculateJitterLoss [] (of_nat D) s) !! "packetLoss" = Some (of_Z 100)
  /\ (is_Some (elements s !! "loss-result") ->
      elements (calculateJitterLoss [] (of_nat D) s) !! "loss-result"
      = Some (Text (Fixed2 (of_Z 100)) U_percent)).
Proof.
  intros H1 H2.
  assert (E : lossPercent [] (of_nat D) = of_Z 100).
  { unfold lossPercent. cbn [length].
    destruct (of_nat_pos_finite D H1 H2) as (m & e & ->).
    change (sub (S754_finite false m e) (of_nat 0)) with (S754_finite false m e).
    rewrite div_same. vm_compute. reflexivity. }
  split; [exact E |]. split; [reflexivity |]. split.
  - rewrite results_calculateJitterLoss, lookup_insert_ne by discriminate.
    rewrite lookup_insert_eq, E. reflexivity.
  - intros Hel. unfold calculateJitterLoss. rewrite E.
    match goal with |- elements (finalizeTest true ?t) !! _ = _ =>
      assert (Ef : elements (finalizeTest true t) = elements t)
        by (unfold finalizeTest; cbn [negb]; destruct (read_finalResults _); reflexivity)
    end.
    rewrite Ef. cbn [elements updateStatus set_status].
    rewrite elements_updateResult_ne by discriminate.
    apply elements_updateResult_eq. exact Hel.
Qed.

(** 250 packets, no echo. *)
Lemma nothing_received_all_lost_witness :
  (1 <= 250)%nat /\ Z.of_nat 250 < 2 ^ 53
  /\ lossPercent [] (of_nat 250) = of_Z 100.
Proof.
  split; [lia |]. split; [reflexivity |].
  destruct (nothing_received_all_lost 250 fresh_page) as (H & _); [lia | reflexivity | exact H].
Defined.
